(** * Telegram-Kraken-Bot: a shallow embedding of the trade workflow engine

    The development follows the three Python modules of the repository:
    [utils.py] (string helpers), [kraken_api.py] (the retrying exchange
    client) and [telegram_kraken_bot.py] (conversation handlers, batch
    operations and the order monitor).

    Python values are modelled as the code uses them: [str] as [string]
    (bytes; the case conversions are the ASCII ones), [float] as IEEE-754
    binary64 through the Standard Library's [spec_float], JSON documents as
    an inductive type whose objects keep their insertion order, the
    per-chat scratch dictionary as a finite map, and the effects of a
    handler (messages, log lines, exchange requests, scheduled jobs) as an
    explicit world threaded through a state-and-exception monad. *)

From Stdlib Require Import ZArith NArith List String Ascii Lia Bool.
From Stdlib Require Import SpecFloat DecimalString.
From stdpp Require Import base option list gmap strings.
From Equations Require Import Equations.

Import ListNotations.
Local Open Scope string_scope.
Local Open Scope Z_scope.

(** ** Python [str] methods used by the sources *)
Module PyStr.

(** [sub in s] *)
Fixpoint contains (sub s : string) : bool :=
  String.prefix sub s ||
  match s with
  | EmptyString => false
  | String _ s' => contains sub s'
  end.

(** [s.startswith(p)] *)
Definition startswith (s p : string) : bool := String.prefix p s.

(** [s[n:]] for [0 <= n] *)
Fixpoint drop (n : nat) (s : string) : string :=
  match n, s with
  | O, _ => s
  | S n', EmptyString => EmptyString
  | S n', String _ s' => drop n' s'
  end.

(** [s[:n]] for [0 <= n] *)
Fixpoint take (n : nat) (s : string) : string :=
  match n, s with
  | O, _ => EmptyString
  | S n', EmptyString => EmptyString
  | S n', String a s' => String a (take n' s')
  end.

(** [s.endswith(p)] *)
Definition endswith (s p : string) : bool :=
  (String.length p <=? String.length s)%nat &&
  String.eqb (drop (String.length s - String.length p) s) p.

(** [s[:-n]] for a positive [n]; Python reads [s[:-0]] as [s[:0]]. *)
Definition drop_last (n : nat) (s : string) : string :=
  match n with
  | O => EmptyString
  | _ => take (String.length s - n) s
  end.

(** [s.split(c)] for a one-character separator *)
Fixpoint split (c : ascii) (s : string) : list string :=
  match s with
  | EmptyString => [EmptyString]
  | String a s' =>
      match split c s' with
      | [] => [EmptyString]
      | t :: ts => if Ascii.eqb a c then EmptyString :: t :: ts
                   else String a t :: ts
      end
  end.

(** [sep.join(l)] *)
Fixpoint join (sep : string) (l : list string) : string :=
  match l with
  | [] => EmptyString
  | [x] => x
  | x :: xs => x +:+ sep +:+ join sep xs
  end.

Definition map_chars (f : ascii -> ascii) : string -> string :=
  fix go s := match s with
              | EmptyString => EmptyString
              | String a s' => String (f a) (go s')
              end.

Definition upper_ascii (a : ascii) : ascii :=
  let n := nat_of_ascii a in
  if ((97 <=? n) && (n <=? 122))%nat then ascii_of_nat (n - 32) else a.

Definition lower_ascii (a : ascii) : ascii :=
  let n := nat_of_ascii a in
  if ((65 <=? n) && (n <=? 90))%nat then ascii_of_nat (n + 32) else a.

(** [s.upper()] and [s.lower()] on ASCII letters *)
Definition upper : string -> string := map_chars upper_ascii.
Definition lower : string -> string := map_chars lower_ascii.

(** [s.replace(c, d)] for one-character [c] and [d] *)
Definition replace_char (c d : ascii) : string -> string :=
  map_chars (fun a => if Ascii.eqb a c then d else a).

(** [s.replace(c, "")] *)
Fixpoint remove_char (c : ascii) (s : string) : string :=
  match s with
  | EmptyString => EmptyString
  | String a s' => if Ascii.eqb a c then remove_char c s'
                   else String a (remove_char c s')
  end.

Definition is_space (a : ascii) : bool :=
  let n := nat_of_ascii a in ((n =? 32) || ((9 <=? n) && (n <=? 13)))%nat.

Fixpoint lstrip (s : string) : string :=
  match s with
  | String a s' => if is_space a then lstrip s' else s
  | EmptyString => EmptyString
  end.

(** [s.rstrip(c)] for a one-character set, and [s.rstrip()] *)
Fixpoint rstrip_by (p : ascii -> bool) (s : string) : string :=
  match s with
  | EmptyString => EmptyString
  | String a s' =>
      match rstrip_by p s' with
      | EmptyString => if p a then EmptyString else String a EmptyString
      | r => String a r
      end
  end.

Definition rstrip_char (c : ascii) : string -> string := rstrip_by (Ascii.eqb c).

(** [s.strip()] *)
Definition strip (s : string) : string := rstrip_by is_space (lstrip s).

Definition is_digit (a : ascii) : bool :=
  let n := nat_of_ascii a in ((48 <=? n) && (n <=? 57))%nat.

Fixpoint all_chars (p : ascii -> bool) (s : string) : bool :=
  match s with
  | EmptyString => true
  | String a s' => p a && all_chars p s'
  end.

(** [s.isdigit()] on ASCII text *)
Definition isdigit (s : string) : bool :=
  negb (String.eqb s EmptyString) && all_chars is_digit s.

End PyStr.

(** ** Python [float]: IEEE-754 binary64 *)
Module PyFloat.

Definition float := spec_float.

Definition prec : Z := 53.
Definition emax : Z := 1024.

Definition zero : float := S754_zero false.

Definition sub : float -> float -> float := SFsub prec emax.
Definition mul : float -> float -> float := SFmul prec emax.
Definition ltb : float -> float -> bool := SFltb.
Definition leb : float -> float -> bool := SFleb.

(** [x / y]; Python raises [ZeroDivisionError] on a zero divisor. *)
Definition div (x y : float) : option float :=
  match y with
  | S754_zero _ => None
  | _ => Some (SFdiv prec emax x y)
  end.

(** The binary64 nearest to [m * 10^e] (ties to even). *)
Definition of_decimal (neg : bool) (m : N) (e : Z) : float :=
  match m with
  | N0 => S754_zero neg
  | Npos p =>
      match e with
      | Zneg k =>
          let '(q, e', l) :=
            SFdiv_core_binary prec emax (Zpos p) 0 (Z.pow_pos 10 k) 0 in
          binary_round_aux prec emax neg q e' l
      | _ => binary_round prec emax neg (Z.to_pos (Zpos p * 10 ^ e)) 0
      end
  end.

Definition digit_val (a : ascii) : N := N.of_nat (nat_of_ascii a - 48).

(** Reads a maximal run of decimal digits: value so far, digits read,
    rest of the text. *)
Fixpoint read_digits (acc : N) (cnt : nat) (s : string) : N * nat * string :=
  match s with
  | String a s' =>
      if PyStr.is_digit a then read_digits (10 * acc + digit_val a)%N (S cnt) s'
      else (acc, cnt, s)
  | EmptyString => (acc, cnt, s)
  end.

Definition read_sign (s : string) : bool * string :=
  match s with
  | String "-" s' => (true, s')
  | String "+" s' => (false, s')
  | _ => (false, s)
  end.

(** The optional exponent part; [None] when the text is not a literal. *)
Definition read_exponent (s : string) : option Z :=
  match s with
  | EmptyString => Some 0
  | String c s' =>
      if Ascii.eqb c "e" || Ascii.eqb c "E" then
        let '(neg, s1) := read_sign s' in
        let '(v, cnt, rest) := read_digits 0 0 s1 in
        match cnt, rest with
        | S _, EmptyString => Some (if neg then - Z.of_N v else Z.of_N v)
        | _, _ => None
        end
      else None
  end.

(** [float(s)] for a [str]: surrounding white space, a sign, then [inf],
    [infinity], [nan] or a decimal literal with optional fraction and
    exponent. [None] is Python's [ValueError]. (Digit-group underscores
    and non-ASCII digits are not read.) *)
Definition of_string (s : string) : option float :=
  let '(neg, body) := read_sign (PyStr.strip s) in
  let low := PyStr.lower body in
  if String.eqb low "inf" || String.eqb low "infinity" then Some (S754_infinity neg)
  else if String.eqb low "nan" then Some S754_nan
  else
    let '(ip, icnt, r1) := read_digits 0 0 body in
    let '(m, fcnt, r2) :=
      match r1 with
      | String "." r => let '(m, c, r') := read_digits ip 0 r in (m, c, r')
      | _ => (ip, O, r1)
      end in
    match (icnt + fcnt)%nat with
    | O => None
    | _ =>
        match read_exponent r2 with
        | Some e => Some (of_decimal neg m (e - Z.of_nat fcnt))
        | None => None
        end
    end.

(** [n] as exactly [k] decimal digits (the low ones). *)
Fixpoint fixed_digits (k : nat) (n : N) : string :=
  match k with
  | O => EmptyString
  | S k' => fixed_digits k' (n / 10) +:+
            String (ascii_of_N (48 + n mod 10)) EmptyString
  end.

Definition string_of_N (n : N) : string := NilZero.string_of_uint (N.to_uint n).

(** The integer nearest to [m * 2^e * 10^d], ties to even. *)
Definition scaled_round (d : N) (m : positive) (e : Z) : N :=
  match e with
  | Zneg k =>
      let num := (Npos m * 10 ^ d)%N in
      let den := N.pow 2 (Npos k) in
      let q := (num / den)%N in
      let r := (num mod den)%N in
      match (2 * r ?= den)%N with
      | Lt => q
      | Gt => N.succ q
      | Eq => if N.even q then q else N.succ q
      end
  | _ => (Npos m * 2 ^ Z.to_N e * 10 ^ d)%N
  end.

(** ["{0:.8f}".format(x)] and ['%.8f' % x] *)
Definition format_8f (x : float) : string :=
  match x with
  | S754_nan => "nan"
  | S754_infinity neg => if neg then "-inf" else "inf"
  | S754_zero neg => (if neg then "-" else "") +:+ "0.00000000"
  | S754_finite neg m e =>
      let n := scaled_round 8 m e in
      (if neg then "-" else "") +:+
      string_of_N (n / 100000000) +:+ "." +:+ fixed_digits 8 (n mod 100000000)
  end.

(** ["{0:.2f}".format(x)] *)
Definition format_2f (x : float) : string :=
  match x with
  | S754_nan => "nan"
  | S754_infinity neg => if neg then "-inf" else "inf"
  | S754_zero neg => (if neg then "-" else "") +:+ "0.00"
  | S754_finite neg m e =>
      let n := scaled_round 2 m e in
      (if neg then "-" else "") +:+
      string_of_N (n / 100) +:+ "." +:+ fixed_digits 2 (n mod 100)
  end.

End PyFloat.

(** ** JSON documents and Python values *)

#[local] Set Warnings "-register-all".

(** Objects are association lists in insertion order (the order in which
    Python iterates a [dict]); their keys are distinct. *)
Inductive json : Type :=
| JNull
| JBool (b : bool)
| JInt (n : Z)
| JFloat (x : spec_float)
| JStr (s : string)
| JList (l : list json)
| JDict (d : list (string * json)).

Inductive exn : Type :=
| KeyError (key : string)
| IndexError
| TypeError
| ValueError
| ZeroDivisionError
| AttributeError
| UnboundLocalError (name : string).

Inductive res (A : Type) : Type :=
| Ok (a : A)
| Err (e : exn).
Arguments Ok {A} a.
Arguments Err {A} e.

(** Lookup in an ordered dictionary. *)
Fixpoint assoc {A : Type} (k : string) (d : list (string * A)) : option A :=
  match d with
  | [] => None
  | (k', v) :: d' => if String.eqb k k' then Some v else assoc k d'
  end.

(** The line feed of Python's ["\n"]. *)
Definition LF : string := String "010" EmptyString.

(** Python truth value of a JSON document ([if x:]). *)
Definition truthy (j : json) : bool :=
  match j with
  | JNull => false
  | JBool b => b
  | JInt n => negb (n =? 0)
  | JFloat x => negb (SFeqb x (S754_zero false))
  | JStr s => negb (String.eqb s EmptyString)
  | JList l => match l with [] => false | _ => true end
  | JDict d => match d with [] => false | _ => true end
  end.

(** ** utils.py *)
Module Utils.

Definition emo_er : string := "‼".
Definition emo_wa : string := "⏳".
Definition emo_fi : string := "🏁".
Definition emo_no : string := "🔔".
Definition emo_be : string := "✨".
Definition emo_ca : string := "❌".
Definition emo_to : string := "👍".
Definition emo_do : string := "✔".
Definition emo_fa : string := "✖".
Definition emo_go : string := "👋".
Definition emo_qu : string := "❓".

(** One token of [trim_zeros]: a token of digits and dots is reformatted
    with eight decimals and stripped of trailing zeros; [float] raises
    [ValueError] on a token such as [1.2.3]. *)
Definition trim_token (old_str : string) : res string :=
  if PyStr.isdigit (PyStr.remove_char "." old_str) then
    match PyFloat.of_string old_str with
    | Some x =>
        Ok (PyStr.rstrip_char "." (PyStr.rstrip_char "0" (PyFloat.format_8f x)))
    | None => Err ValueError
    end
  else Ok old_str.

Fixpoint trim_tokens (str_list : list string) : res (list string) :=
  match str_list with
  | [] => Ok []
  | t :: ts =>
      match trim_token t with
      | Ok t' => match trim_tokens ts with
                 | Ok ts' => Ok (t' :: ts')
                 | Err e => Err e
                 end
      | Err e => Err e
      end
  end.

(** [trim_zeros] on a [str] argument *)
Definition trim_zeros (value_to_trim : string) : res string :=
  match trim_tokens (PyStr.split " " value_to_trim) with
  | Ok l => Ok (PyStr.join " " l)
  | Err e => Err e
  end.

Definition bold (text : string) : string := "*" +:+ text +:+ "*".

Fixpoint space_colons (text : string) : string :=
  match text with
  | EmptyString => EmptyString
  | String a s' =>
      if Ascii.eqb a ":" then String a (String " " (space_colons s'))
      else String a (space_colons s')
  end.

(** [btfy]: strip, put a space after every colon, prefix the error sign. *)
Definition btfy (text : string) : string :=
  emo_er +:+ " " +:+ space_colons (PyStr.strip text).

End Utils.

(** ** The world a handler runs in *)

Inductive level : Type := DEBUG | WARNING | ERROR | EXCEPTION.

(** A request handed to [krakenex]: [query_private] or [query_public]. *)
Record request : Type := mkRequest {
  req_method : string;
  req_data : option json;
  req_private : bool
}.

(** What one underlying request does: it returns the decoded reply or
    raises an exception with a type name and a message. *)
Inductive outcome : Type :=
| Returns (reply : json)
| Raises (ex_name ex_str : string).

Inductive markup : Type :=
| ReplyKeyboardMarkup (keyboard : list (list string))
| ReplyKeyboardRemove.

Inductive recipient : Type :=
| ToChat            (* [update.message.reply_text] *)
| ToOwner.          (* [bot.send_message(config["user_id"], ...)] *)

Record message : Type := mkMessage {
  msg_to : recipient;
  msg_text : string;
  msg_markup : option markup;
  msg_markdown : bool
}.

Inductive event : Type :=
| Called (r : request) (retries : option Z)   (* [logger.debug] in [query] *)
| Attempt (r : request) (o : outcome)
| Log (l : level) (s : string)
| Sent (m : message)
| Scheduled (order_txid : json)               (* [job_queue.run_repeating] *)
| Removal (order_txid : json).                (* [job.schedule_removal] *)

Record Job : Type := mkJob {
  job_txid : json;          (* [job.context["order_txid"]] *)
  job_interval : Z;
  job_removed : bool
}.

Record Config : Type := mkConfig {
  user_id : string;
  retries : Z;
  check_trade : bool;
  check_trade_time : Z;
  send_error : bool;
  show_access_denied : bool;
  used_pairs : list (string * string)
}.

(** What handlers read but never write: the configuration, the tables
    filled by [init_cmd], and the behaviour of the exchange, given as the
    outcome of the [n]-th underlying request. *)
Record Env : Type := mkEnv {
  config : Config;
  assets : list (string * string);      (* asset code, [altname] *)
  pairs : gmap string string;
  limits : gmap string string;
  transport : nat -> request -> outcome
}.

Record World : Type := mkWorld {
  attempts : nat;                        (* underlying requests issued *)
  events : list event;                   (* oldest first *)
  chat_data : gmap string json;
  jobs : list Job;
  orders : list (string * json)          (* the cached open orders *)
}.

Definition emit (e : event) (w : World) : World :=
  mkWorld (attempts w) (events w ++ [e]) (chat_data w) (jobs w) (orders w).

(** State and exception monad: a raised exception keeps the effects made
    before it. *)
Definition M (A : Type) : Type := World -> res A * World.

Definition ret {A} (a : A) : M A := fun w => (Ok a, w).
Definition raise {A} (e : exn) : M A := fun w => (Err e, w).
Definition bind {A B} (c : M A) (k : A -> M B) : M B :=
  fun w => match c w with
           | (Ok a, w') => k a w'
           | (Err e, w') => (Err e, w')
           end.

Declare Scope py_scope.
Delimit Scope py_scope with py.
Notation "x <- c ;; k" := (bind c (fun x => k))
  (at level 100, c at next level, right associativity) : py_scope.
Notation "c ;; k" := (bind c (fun _ => k))
  (at level 100, right associativity) : py_scope.
Local Open Scope py_scope.

Definition lift {A} (r : res A) : M A := fun w => (r, w).
Definition tell (e : event) : M unit := fun w => (Ok tt, emit e w).

(** ** kraken_api.py *)
Module Kraken.

Definition error_reply (msg : string) : json :=
  JDict [("error", JList [JStr msg])].

(** The [try] block of [query] with the log lines around it. *)
Definition perform (env : Env) (r : request) (retries : option Z)
    (w : World) : outcome * World :=
  let o := transport env (attempts w) r in
  let w1 := emit (Attempt r o) (emit (Called r retries) w) in
  let w2 := mkWorld (S (attempts w1)) (events w1) (chat_data w1) (jobs w1) (orders w1) in
  match o with
  | Returns _ => (o, w2)
  | Raises _ _ => (o, emit (Log EXCEPTION "Kraken exception:") w2)
  end.

(** Exceptions answered at once, without retrying. *)
Definition fatal_reply (ex_str : string) : option json :=
  if PyStr.contains "Incorrect padding" ex_str then
    Some (error_reply
      "Incorrect padding: please verify that your Kraken API keys are valid")
  else if PyStr.contains "Service:Unavailable" ex_str then
    Some (error_reply "Service: Unavailable")
  else None.

(** [self._retries], set from [config["retries"]] *)
Definition _retries (env : Env) : Z := retries (config env).

Definition budget (R : Z) (retries : option Z) : nat :=
  match retries with
  | None => S (Z.to_nat R)
  | Some n => Z.to_nat n
  end.

Equations? query (env : Env) (method : string) (data : option json)
    (private : bool) (retries : option Z) (w : World) : res json * World
    by wf (budget (_retries env) retries) lt :=
  query env method data private retries w
    with perform env (mkRequest method data private) retries w := {
    | (Returns reply, w1) => (Ok reply, w1)
    | (Raises ex_name ex_str, w1) with fatal_reply ex_str := {
        | Some reply => (Ok reply, w1)
        | None with Z.eqb (_retries env) 0 := {
            | true => (Ok (error_reply (ex_name +:+ ":" +:+ ex_str)), w1)
            | false with retries := {
                | None =>
                    query env method data private
                      (Some (_retries env)) w1
                | Some n with Z_gt_dec n 0 := {
                    | left _ => query env method data private (Some (n - 1)) w1
                    | right _ =>
                        (Ok (error_reply (ex_name +:+ ":" +:+ ex_str)), w1) } } } } }.
Proof. all: unfold budget; lia. Qed.

End Kraken.


(** ** telegram_kraken_bot.py *)
Module Bot.
Import Utils.

(** Enum for workflow handler *)
Inductive WorkflowEnum : Type :=
| TRADE_BUY_SELL
| TRADE_CURRENCY
| TRADE_SELL_ALL_CONFIRM
| TRADE_PRICE
| TRADE_VOL_TYPE
| TRADE_VOLUME
| TRADE_VOLUME_ASSET
| TRADE_CONFIRM
| ORDERS_CLOSE
| ORDERS_CLOSE_ORDER
| BOT_SUB_CMD
| SETTINGS_CHANGE
| SETTINGS_SAVE
| SETTINGS_CONFIRM.

(** Enum for keyboard buttons *)
Inductive KeyboardEnum : Type :=
| BUY | SELL | VOLUME | ALL | YES | NO | CANCEL | CLOSE_ORDER | CLOSE_ALL
| RESTART | SHUTDOWN | SETTINGS | API_STATE | MARKET_PRICE.

Definition name (k : KeyboardEnum) : string :=
  match k with
  | BUY => "BUY" | SELL => "SELL" | VOLUME => "VOLUME" | ALL => "ALL"
  | YES => "YES" | NO => "NO" | CANCEL => "CANCEL"
  | CLOSE_ORDER => "CLOSE_ORDER" | CLOSE_ALL => "CLOSE_ALL"
  | RESTART => "RESTART" | SHUTDOWN => "SHUTDOWN" | SETTINGS => "SETTINGS"
  | API_STATE => "API_STATE" | MARKET_PRICE => "MARKET_PRICE"
  end.

Definition clean (k : KeyboardEnum) : string := PyStr.replace_char "_" " " (name k).

(** What a handler returns to the [ConversationHandler]: a next state,
    [ConversationHandler.END], or [None] (the conversation stays where it
    is). *)
Inductive handler_result : Type :=
| Goto (s : WorkflowEnum)
| END
| ReturnsNone.

Record Update : Type := mkUpdate {
  chat_id : Z;        (* [update.message.chat_id] *)
  text : string       (* [update.message.text] *)
}.

(** The reference to the chat's scratch dictionary that a handler
    registered with [pass_chat_data=True] receives. *)
Inductive dict_ref : Type := ChatData.

(** *** Dictionary and JSON access, with Python's exceptions *)

Definition getitem (j : json) (k : string) : M json :=
  match j with
  | JDict d => match assoc k d with
               | Some v => ret v
               | None => raise (KeyError k)
               end
  | _ => raise TypeError
  end.

(** [j[0]] *)
Definition first_item (j : json) : M json :=
  match j with
  | JList (x :: _) => ret x
  | JList [] => raise IndexError
  | JStr (String a _) => ret (JStr (String a EmptyString))
  | JStr EmptyString => raise IndexError
  | JDict _ => raise (KeyError "0")
  | _ => raise TypeError
  end.

(** The operand of a [str] concatenation. *)
Definition as_str (j : json) : M string :=
  match j with
  | JStr s => ret s
  | _ => raise TypeError
  end.

Fixpoint chars (s : string) : list json :=
  match s with
  | EmptyString => []
  | String a s' => JStr (String a EmptyString) :: chars s'
  end.

(** The values [for x in j] goes through. *)
Definition iterate (j : json) : M (list json) :=
  match j with
  | JDict d => ret (map (fun kv => JStr (fst kv)) d)
  | JList l => ret l
  | JStr s => ret (chars s)
  | _ => raise TypeError
  end.

(** [j.items()] *)
Definition items (j : json) : M (list (string * json)) :=
  match j with
  | JDict d => ret d
  | _ => raise AttributeError
  end.

Definition of_Z (n : Z) : PyFloat.float :=
  PyFloat.of_decimal (n <? 0) (Z.abs_N n) 0.

(** [float(j)] *)
Definition to_float (j : json) : res PyFloat.float :=
  match j with
  | JStr s => match PyFloat.of_string s with
              | Some x => Ok x
              | None => Err ValueError
              end
  | JInt n => Ok (of_Z n)
  | JFloat x => Ok x
  | JBool b => Ok (of_Z (if b then 1 else 0))
  | _ => Err TypeError
  end.

Definition float_of_json (j : json) : M PyFloat.float := lift (to_float j).

Definition float_of_str (s : string) : M PyFloat.float :=
  float_of_json (JStr s).

(** [chat_data[k]] *)
Definition cd_get (d : dict_ref) (k : string) : M json :=
  fun w => match chat_data w !! k with
           | Some v => (Ok v, w)
           | None => (Err (KeyError k), w)
           end.

(** [chat_data[k] = v] *)
Definition cd_set (d : dict_ref) (k : string) (v : json) : M unit :=
  fun w => (Ok tt, mkWorld (attempts w) (events w) (<[k := v]> (chat_data w))
                           (jobs w) (orders w)).

(** [del chat_data[k]] *)
Definition cd_del (d : dict_ref) (k : string) : M unit :=
  fun w => match chat_data w !! k with
           | Some _ => (Ok tt, mkWorld (attempts w) (events w)
                                       (delete k (chat_data w)) (jobs w) (orders w))
           | None => (Err (KeyError k), w)
           end.

(** [k in chat_data] *)
Definition cd_mem (d : dict_ref) (k : string) : M bool :=
  fun w => (Ok (bool_decide (is_Some (chat_data w !! k))), w).

(** [list(chat_data.keys())] *)
Definition cd_keys (d : dict_ref) : M (list string) :=
  fun w => (Ok (map fst (map_to_list (chat_data w))), w).

(** A [str] read from the scratch dictionary, for a method call or a
    concatenation. The entries read this way are written by the handlers
    themselves, always as [str]. *)
Definition cd_str (chat_data : dict_ref) (k : string) : M string :=
  v <- cd_get chat_data k ;;
  match v with
  | JStr s => ret s
  | JNull => raise AttributeError
  | _ => raise TypeError
  end.

(** The truth value of a scratch entry. *)
Definition cd_truth (chat_data : dict_ref) (k : string) : M bool :=
  v <- cd_get chat_data k ;;
  ret (truthy v).

(** [for x in l: body(x)] *)
Fixpoint for_each {A : Type} (l : list A) (body : A -> M unit) : M unit :=
  match l with
  | [] => ret tt
  | x :: l' => body x ;; for_each l' body
  end.

(** *** Messages, log lines and the exchange *)

Definition reply_text (text : string) (reply_markup : option markup)
    (markdown : bool) : M unit :=
  tell (Sent (mkMessage ToChat text reply_markup markdown)).

Definition send_owner (text : string) (reply_markup : option markup)
    (markdown : bool) : M unit :=
  tell (Sent (mkMessage ToOwner text reply_markup markdown)).

Definition logger (l : level) (s : string) : M unit := tell (Log l s).

(** [kraken.query(method, data, private)] *)
Definition query (env : Env) (method : string) (data : option json)
    (private : bool) : M json :=
  Kraken.query env method data private None.

(** [job_queue.run_repeating(order_state_check, interval, context)] *)
Definition run_repeating (interval : Z) (order_txid : json) : M unit :=
  fun w => (Ok tt, mkWorld (attempts w) (events w ++ [Scheduled order_txid])
                           (chat_data w)
                           (jobs w ++ [mkJob order_txid interval false]) (orders w)).

(** *** Keyboards *)

(** [range(0, stop, step)] for [0 <= stop] *)
Definition range (stop step : Z) : res (list Z) :=
  if step =? 0 then Err ValueError
  else if step <? 0 then Ok []
  else Ok (map (fun k => Z.of_nat k * step)
               (seq 0 (Z.to_nat ((stop + step - 1) / step)))).

(** [l[i:j]] for [0 <= i <= j] *)
Definition slice {A : Type} (l : list A) (i j : Z) : list A :=
  take (Z.to_nat (j - i)) (drop (Z.to_nat i) l).

(** A row argument counts when it is neither [None] nor empty. *)
Definition given {A : Type} (row : option (list A)) : list (list A) :=
  match row with
  | Some (x :: r) => [x :: r]
  | _ => []
  end.

(** Create a button menu to show in Telegram messages *)
Definition build_menu {A : Type} (buttons : list A) (n_cols : Z)
    (header_buttons footer_buttons : option (list A)) : res (list (list A)) :=
  match range (Z.of_nat (length buttons)) n_cols with
  | Err e => Err e
  | Ok starts =>
      let menu := map (fun i => slice buttons i (i + n_cols)) starts in
      Ok (given header_buttons ++ menu ++ given footer_buttons)%list
  end.

Definition keyboard (buttons : list string) (n_cols : Z)
    (footer_buttons : option (list string)) : M markup :=
  menu <- lift (build_menu buttons n_cols None footer_buttons) ;;
  ret (ReplyKeyboardMarkup menu).

(** Custom keyboard that shows all available commands *)
Definition keyboard_cmds : M markup :=
  keyboard ["/trade"; "/orders"; "/balance"; "/bot"] 2 None.

(** Generic custom keyboard that shows YES and NO *)
Definition keyboard_confirm : M markup :=
  keyboard [clean YES; clean NO] 2 None.

(** Create a list with a button for every coin in config *)
Definition coin_buttons (env : Env) : list string :=
  map fst (used_pairs (config env)).

Definition cancel_keyboard : M markup := keyboard [clean CANCEL] 1 None.

(** *** Ending a conversation *)

(** Remove all data from [chat_data]; nothing happens for [None] or an
    empty dictionary. *)
Definition clear_chat_data (chat_data : option dict_ref) : M unit :=
  match chat_data with
  | None => ret tt
  | Some d =>
      keys <- cd_keys d ;;
      match keys with
      | [] => ret tt
      | _ => for_each keys (cd_del d)
      end
  end.

(** Will show a cancel message, end the conversation and show the default
    keyboard *)
Definition cancel (update : Update) (chat_data : option dict_ref)
    : M handler_result :=
  clear_chat_data chat_data ;;
  kb <- keyboard_cmds ;;
  reply_text (emo_ca +:+ " Canceled...") (Some kb) false ;;
  ret END.

Definition handle_api_error (response : json) (update : Update)
    (additional_msg : string) : M bool :=
  err <- getitem response "error" ;;
  if truthy err then
    e0 <- first_item err ;;
    s <- as_str e0 ;;
    let error := btfy (additional_msg +:+ s) in
    reply_text error None false ;;
    logger ERROR error ;;
    ret true
  else ret false.

(** [d[key]] for a key that is itself a JSON value *)
Definition getitem_at (j key : json) : M json :=
  match key with
  | JStr k => getitem j k
  | JList _ | JDict _ => raise TypeError
  | _ => match j with
         | JDict _ => raise (KeyError "")
         | _ => raise TypeError
         end
  end.

(** [assets[code]["altname"]] *)
Definition altname (env : Env) (code : json) : M string :=
  match code with
  | JStr c => match assoc c (assets env) with
              | Some a => ret a
              | None => raise (KeyError c)
              end
  | JList _ | JDict _ => raise TypeError
  | _ => raise (KeyError "")
  end.

(** [pairs[coin]] *)
Definition pair_of (env : Env) (coin : string) : M string :=
  match pairs env !! coin with
  | Some p => ret p
  | None => raise (KeyError coin)
  end.

Definition str_of_Z (n : Z) : string :=
  (if n <? 0 then "-" else "") +:+ PyFloat.string_of_N (Z.abs_N n).

(** Decorator to restrict access if user is not the same as in config *)
Definition restrict_access (func : Env -> Update -> M handler_result)
    (env : Env) (update : Update) : M handler_result :=
  if negb (String.eqb (str_of_Z (chat_id update)) (user_id (config env))) then
    (if show_access_denied (config env) then
       reply_text "Access denied" None false ;;
       let msg := "Access denied for user " +:+ str_of_Z (chat_id update) in
       send_owner msg None false ;;
       logger WARNING msg
     else ret tt) ;;
    ret ReturnsNone
  else func env update.

(** *** The trade conversation *)

(** Create orders to buy or sell currencies with price limit - choose
    'buy' or 'sell' *)
Definition trade_cmd : Env -> Update -> M handler_result :=
  restrict_access (fun env update =>
    kb <- keyboard [clean BUY; clean SELL] 2 (Some [clean CANCEL]) ;;
    reply_text "Buy or sell?" (Some kb) false ;;
    ret (Goto TRADE_BUY_SELL)).

(** Save if BUY or SELL order and choose the currency to trade *)
Definition trade_buy_sell (env : Env) (update : Update) (chat_data : dict_ref)
    : M handler_result :=
  cd_set chat_data "buysell" (JStr (PyStr.lower (text update))) ;;
  buysell <- cd_str chat_data "buysell" ;;
  let cancel_btn :=
    if String.eqb (PyStr.upper buysell) (clean SELL)
    then [clean ALL; clean CANCEL] else [clean CANCEL] in
  kb <- keyboard (coin_buttons env) 3 (Some cancel_btn) ;;
  reply_text "Choose currency" (Some kb) false ;;
  ret (Goto TRADE_CURRENCY).

(** Show confirmation to sell all assets *)
Definition trade_sell_all (env : Env) (update : Update) : M handler_result :=
  let msg := " Sell " +:+ bold "all" +:+
             " assets to current market price? All open orders will be closed!" in
  kb <- keyboard_confirm ;;
  reply_text (emo_qu +:+ msg) (Some kb) true ;;
  ret (Goto TRADE_SELL_ALL_CONFIRM).

(** The loop that closes the open orders in [trade_sell_all_confirm];
    [true] when the handler returns from inside the loop. *)
Fixpoint sell_all_close_orders (env : Env) (update : Update)
    (open : list json) : M bool :=
  match open with
  | [] => ret false
  | order :: rest =>
      let req_data := JDict [("txid", order)] in
      res_open_orders <- query env "CancelOrder" (Some req_data) true ;;
      id <- as_str order ;;
      failed <- handle_api_error res_open_orders update
                  ("Not possible to close order" +:+ LF +:+ id +:+ LF) ;;
      if failed then ret true
      else sell_all_close_orders env update rest
  end.

(** One turn of the loop that sells the assets in
    [trade_sell_all_confirm]. *)
Definition sell_all_asset (env : Env) (update : Update)
    (balance_asset : string) (amount : json) : M unit :=
  if PyStr.startswith balance_asset "Z" then ret tt
  else if match amount with
          | JStr a => String.eqb a "0.0000000000"
          | _ => false
          end then ret tt
  else
    balance_asset <- altname env (JStr balance_asset) ;;
    match limits env !! balance_asset with
    | Some limit =>
        a <- float_of_json amount ;;
        l <- float_of_str limit ;;
        if PyFloat.ltb a l then
          let msg_error := emo_er +:+ " Volume to low. Must be > " +:+ limit in
          let msg_next := emo_wa +:+ " Selling next asset..." in
          reply_text (msg_error +:+ LF +:+ msg_next) None false ;;
          logger WARNING msg_error
        else
          pair <- pair_of env balance_asset ;;
          let req_data := JDict [("type", JStr "sell");
                                 ("trading_agreement", JStr "agree");
                                 ("pair", JStr pair);
                                 ("ordertype", JStr "market");
                                 ("volume", amount)] in
          res_add_order <- query env "AddOrder" (Some req_data) true ;;
          failed <- handle_api_error res_add_order update "" ;;
          if failed then ret tt
          else
            result <- getitem res_add_order "result" ;;
            txids <- getitem result "txid" ;;
            order_txid <- first_item txids ;;
            if check_trade (config env) then
              run_repeating (check_trade_time (config env)) order_txid
            else ret tt
    | None =>
        logger WARNING ("No minimum order limit in config for coin " +:+ balance_asset)
    end.

(** Sells all assets for there respective current market value *)
Definition trade_sell_all_confirm (env : Env) (update : Update)
    : M handler_result :=
  if String.eqb (PyStr.upper (text update)) (clean NO) then cancel update None
  else
    reply_text (emo_wa +:+ " Preparing to sell everything...") None false ;;
    res_open_orders <- query env "OpenOrders" None true ;;
    failed <- handle_api_error res_open_orders update "" ;;
    if failed then ret ReturnsNone
    else
      result <- getitem res_open_orders "result" ;;
      open <- getitem result "open" ;;
      returned <- (if truthy open then
                     ids <- iterate open ;;
                     sell_all_close_orders env update ids
                   else ret false) ;;
      if returned then ret ReturnsNone
      else
        res_balance <- query env "Balance" None true ;;
        failed <- handle_api_error res_balance update "" ;;
        if failed then ret ReturnsNone
        else
          result <- getitem res_balance "result" ;;
          balances <- items result ;;
          for_each balances (fun kv => sell_all_asset env update (fst kv) (snd kv)) ;;
          let msg := emo_fi +:+ " Created orders to sell all assets" in
          kb <- keyboard_cmds ;;
          reply_text (bold msg) (Some kb) true ;;
          ret END.

(** From pair string (XXBTZEUR) get from-asset (XXBT) and to-asset (ZEUR) *)
Fixpoint assets_from_pair_in (all rest : list (string * string))
    (pair : string) : json * json :=
  match rest with
  | [] => (JNull, JNull)
  | (asset, _) :: rest' =>
      if PyStr.endswith pair asset then
        let from_asset := PyStr.take (String.length asset) pair in
        let to_asset :=
          PyStr.drop (String.length pair - String.length asset) pair in
        match assoc from_asset all with
        | Some _ => (JStr from_asset, JStr to_asset)
        | None => (JNull, JStr to_asset)
        end
      else assets_from_pair_in all rest' pair
  end.

Definition assets_from_pair (env : Env) (pair : string) : json * json :=
  assets_from_pair_in (assets env) (assets env) pair.

(** Save currency to trade and enter price per unit to trade *)
Definition trade_currency (env : Env) (update : Update) (chat_data : dict_ref)
    : M handler_result :=
  cd_set chat_data "currency" (JStr (PyStr.upper (text update))) ;;
  currency <- cd_str chat_data "currency" ;;
  pair <- pair_of env currency ;;
  let '(asset_one, asset_two) := assets_from_pair env pair in
  cd_set chat_data "one" asset_one ;;
  cd_set chat_data "two" asset_two ;;
  kb <- keyboard [clean MARKET_PRICE] 1 (Some [clean CANCEL]) ;;
  two <- cd_get chat_data "two" ;;
  alt <- altname env two ;;
  let reply_msg := "Enter price per coin in " +:+ bold alt in
  reply_text reply_msg (Some kb) true ;;
  ret (Goto TRADE_PRICE).

(** [chat_data[k] == s] *)
Definition cd_is (chat_data : dict_ref) (k s : string) : M bool :=
  v <- cd_get chat_data k ;;
  ret match v with
      | JStr s' => String.eqb s' s
      | _ => false
      end.

(** Save price per unit and choose how to enter the trade volume (fiat
    currency, volume or all available funds) *)
Definition trade_price (env : Env) (update : Update) (chat_data : dict_ref)
    : M handler_result :=
  known <- cd_mem chat_data "market_price" ;;
  (if known then ret tt
   else if String.eqb (PyStr.upper (text update)) (clean MARKET_PRICE) then
     cd_set chat_data "market_price" (JBool true)
   else
     cd_set chat_data "market_price" (JBool false) ;;
     cd_set chat_data "price"
       (JStr (PyStr.replace_char "," "." (PyStr.upper (text update))))) ;;
  let reply_msg := "How to enter the volume?" in
  market <- cd_truth chat_data "market_price" ;;
  buy <- (if market then cd_is chat_data "buysell" "buy" else ret false) ;;
  if buy then
    kb <- cancel_keyboard ;;
    reply_text "Enter volume" (Some kb) false ;;
    cd_set chat_data "vol_type" (JStr (clean VOLUME)) ;;
    ret (Goto TRADE_VOLUME)
  else
    sell <- (if market then cd_is chat_data "buysell" "sell" else ret false) ;;
    kb <- (if sell then
             keyboard [clean ALL; clean VOLUME] 2 (Some [clean CANCEL])
           else
             two <- cd_get chat_data "two" ;;
             alt <- altname env two ;;
             keyboard [alt; clean VOLUME; clean ALL] 3 (Some [clean CANCEL])) ;;
    reply_text reply_msg (Some kb) false ;;
    ret (Goto TRADE_VOL_TYPE).

(** Save volume type decision and enter volume *)
Definition trade_vol_asset (env : Env) (update : Update) (chat_data : dict_ref)
    : M handler_result :=
  two <- cd_str chat_data "two" ;;
  if PyStr.endswith two (PyStr.upper (text update)) then
    cd_set chat_data "vol_type" (JStr (PyStr.upper (text update))) ;;
    vol_type <- cd_str chat_data "vol_type" ;;
    let reply_msg := "Enter volume in " +:+ bold vol_type in
    kb <- cancel_keyboard ;;
    reply_text reply_msg (Some kb) true ;;
    ret (Goto TRADE_VOLUME_ASSET)
  else
    reply_text (emo_er +:+ " Entered volume type not valid") None false ;;
    ret (Goto TRADE_VOL_TYPE).

(** Volume type 'VOLUME' chosen - meaning that you can enter the volume
    directly *)
Definition trade_vol_volume (env : Env) (update : Update) (chat_data : dict_ref)
    : M handler_result :=
  cd_set chat_data "vol_type" (JStr (PyStr.upper (text update))) ;;
  kb <- cancel_keyboard ;;
  reply_text "Enter volume" (Some kb) false ;;
  ret (Goto TRADE_VOLUME).

(** [trim_zeros(v)] where the result is concatenated to a [str] *)
Definition trim_zeros_str (v : json) : M string :=
  match v with
  | JStr s => lift (trim_zeros s)
  | JFloat x =>
      ret (PyStr.rstrip_char "." (PyStr.rstrip_char "0" (PyFloat.format_8f x)))
  | _ => raise TypeError
  end.

(** Calculate total value and show order description and confirmation for
    order creation. The function returns [None] on every path. *)
Definition trade_show_conf (env : Env) (update : Update) (chat_data : dict_ref)
    : M unit :=
  two <- cd_get chat_data "two" ;;
  asset_two <- altname env two ;;
  market <- cd_truth chat_data "market_price" ;;
  proceed <-
    (if market then
       reply_text (emo_wa +:+ " Retrieving estimated price...") None false ;;
       currency <- cd_str chat_data "currency" ;;
       pair <- pair_of env currency ;;
       res_data <- query env "Ticker" (Some (JDict [("pair", JStr pair)])) false ;;
       failed <- handle_api_error res_data update "" ;;
       if failed then ret None
       else
         result <- getitem res_data "result" ;;
         ticker <- getitem result pair ;;
         c <- getitem ticker "c" ;;
         price <- first_item c ;;
         cd_set chat_data "price" price ;;
         buysell <- cd_str chat_data "buysell" ;;
         volume <- cd_get chat_data "volume" ;;
         vol <- trim_zeros_str volume ;;
         currency <- cd_str chat_data "currency" ;;
         price <- cd_get chat_data "price" ;;
         pr <- trim_zeros_str price ;;
         ret (Some (PyStr.lower buysell +:+ " " +:+ vol +:+ " " +:+ currency +:+
                    " @ market price ≈" +:+ pr +:+ " " +:+ asset_two))
     else
       buysell <- cd_str chat_data "buysell" ;;
       volume <- cd_get chat_data "volume" ;;
       vol <- trim_zeros_str volume ;;
       currency <- cd_str chat_data "currency" ;;
       price <- cd_get chat_data "price" ;;
       pr <- trim_zeros_str price ;;
       ret (Some (PyStr.lower buysell +:+ " " +:+ vol +:+ " " +:+ currency +:+
                  " @ limit " +:+ pr +:+ " " +:+ asset_two))) ;;
  match proceed with
  | None => ret tt
  | Some trade_str =>
      two <- cd_str chat_data "two" ;;
      volume <- cd_get chat_data "volume" ;;
      v <- float_of_json volume ;;
      price <- cd_get chat_data "price" ;;
      p <- float_of_json price ;;
      let total_value :=
        if PyStr.startswith two "Z" then PyFloat.format_2f (PyFloat.mul v p)
        else PyFloat.format_8f (PyFloat.mul v p) in
      market <- cd_truth chat_data "market_price" ;;
      trimmed <- lift (trim_zeros total_value) ;;
      let total_value_str :=
        if market then "(Value: ≈" +:+ trimmed +:+ " " +:+ asset_two +:+ ")"
        else "(Value: " +:+ trimmed +:+ " " +:+ asset_two +:+ ")" in
      let reply_msg := " Place this order?" +:+ LF +:+ trade_str +:+ LF +:+
                       total_value_str in
      kb <- keyboard_confirm ;;
      reply_text (emo_qu +:+ reply_msg) (Some kb) false
  end.

(** The check of the order size against the minimum order limit in
    [trade_volume] and [trade_volume_asset], and what follows it. *)
Definition check_limit_and_confirm (env : Env) (update : Update)
    (chat_data : dict_ref) : M handler_result :=
  currency <- cd_str chat_data "currency" ;;
  too_low <-
    match limits env !! currency with
    | Some limit =>
        volume <- cd_get chat_data "volume" ;;
        v <- float_of_json volume ;;
        l <- float_of_str limit ;;
        if PyFloat.ltb v l then
          let msg_error := emo_er +:+ " Volume to low. Must be > " +:+ limit in
          reply_text msg_error None false ;;
          logger WARNING msg_error ;;
          kb <- cancel_keyboard ;;
          reply_text "Enter new volume" (Some kb) false ;;
          ret true
        else ret false
    | None =>
        logger WARNING ("No minimum order limit in config for coin " +:+ currency) ;;
        ret false
    end ;;
  if too_low then ret (Goto TRADE_VOLUME)
  else
    trade_show_conf env update chat_data ;;
    ret (Goto TRADE_CONFIRM).

(** Calculate the volume depending on entered volume type currency *)
Definition trade_volume_asset (env : Env) (update : Update)
    (chat_data : dict_ref) : M handler_result :=
  amount <- float_of_str (PyStr.replace_char "," "." (text update)) ;;
  price <- cd_get chat_data "price" ;;
  price_per_unit <- float_of_json price ;;
  match PyFloat.div amount price_per_unit with
  | None => raise ZeroDivisionError
  | Some q =>
      cd_set chat_data "volume" (JStr (PyFloat.format_8f q)) ;;
      check_limit_and_confirm env update chat_data
  end.

(** Calculate the volume depending on entered volume type 'VOLUME' *)
Definition trade_volume (env : Env) (update : Update) (chat_data : dict_ref)
    : M handler_result :=
  amount <- float_of_str (PyStr.replace_char "," "." (text update)) ;;
  cd_set chat_data "volume" (JStr (PyFloat.format_8f amount)) ;;
  check_limit_and_confirm env update chat_data.

(** [l[n]] on the tokens of an order description *)
Definition token (l : list string) (n : nat) : M string :=
  match l !! n with
  | Some t => ret t
  | None => raise IndexError
  end.

(** [res_orders["result"]["open"][order]["descr"]["order"].split(" ")] *)
Definition order_desc_list (open order : json) : M (list string) :=
  entry <- getitem_at open order ;;
  descr <- getitem entry "descr" ;;
  order_desc <- getitem descr "order" ;;
  match order_desc with
  | JStr s => ret (PyStr.split " " s)
  | _ => raise AttributeError
  end.

(** The loop over the open orders in the BUY part of [trade_vol_all]. *)
Fixpoint vol_all_buy_orders (open : json) (ids : list json)
    (avail_buy_from_cur : PyFloat.float) : M PyFloat.float :=
  match ids with
  | [] => ret avail_buy_from_cur
  | order :: rest =>
      l <- order_desc_list open order ;;
      t5 <- token l 5 ;;
      coin_price <- lift (trim_zeros t5) ;;
      order_volume <- token l 1 ;;
      order_type <- token l 0 ;;
      if String.eqb order_type "buy" then
        v <- float_of_str order_volume ;;
        p <- float_of_str coin_price ;;
        vol_all_buy_orders open rest
          (PyFloat.sub avail_buy_from_cur (PyFloat.mul v p))
      else vol_all_buy_orders open rest avail_buy_from_cur
  end.

(** [available_volume] in the SELL part of [trade_vol_all]: the balance
    entry as received, or [str(x)] of a computed float, for which
    [float(str(x))] is [x] again. *)
Inductive volume_value : Type :=
| FromBalance (j : json)
| Computed (x : PyFloat.float).

Definition float_of_volume (v : volume_value) : M PyFloat.float :=
  match v with
  | FromBalance j => float_of_json j
  | Computed x => ret x
  end.

(** The inner loop that finds the currency of an order: the first asset
    whose [altname] ends the pair of the order. *)
Fixpoint order_currency_in (rest : list (string * string)) (l : list string)
    (order_currency : option string) : M (option string) :=
  match rest with
  | [] => ret order_currency
  | (_, alt) :: rest' =>
      t2 <- token l 2 ;;
      if PyStr.endswith t2 alt then
        ret (Some (PyStr.drop_last (String.length alt) t2))
      else order_currency_in rest' l order_currency
  end.

(** The loop over the open orders in the SELL part of [trade_vol_all];
    [order_currency] keeps its value from one turn to the next. *)
Fixpoint vol_all_sell_orders (env : Env) (chat_data : dict_ref) (open : json)
    (ids : list json) (available_volume : volume_value)
    (order_currency : option string) : M volume_value :=
  match ids with
  | [] => ret available_volume
  | order :: rest =>
      l <- order_desc_list open order ;;
      order_currency <- order_currency_in (assets env) l order_currency ;;
      order_volume <- token l 1 ;;
      order_type <- token l 0 ;;
      currency <- cd_str chat_data "currency" ;;
      match order_currency with
      | None => raise (UnboundLocalError "order_currency")
      | Some oc =>
          if PyStr.contains currency oc && String.eqb order_type "sell" then
            a <- float_of_volume available_volume ;;
            v <- float_of_str order_volume ;;
            vol_all_sell_orders env chat_data open rest
              (Computed (PyFloat.sub a v)) order_currency
          else
            vol_all_sell_orders env chat_data open rest available_volume
              order_currency
      end
  end.

(** The volume of the BUY part of [trade_vol_all]: the funds of the
    currency to buy from, less the value of the open buy orders, divided by
    the price. *)
Definition vol_all_buy_volume (env : Env) (chat_data : dict_ref)
    (res_balance res_orders : json) : M PyFloat.float :=
  balance <- getitem res_balance "result" ;;
  two <- cd_get chat_data "two" ;;
  funds <- getitem_at balance two ;;
  avail_buy_from_cur <- float_of_json funds ;;
  result <- getitem res_orders "result" ;;
  open <- getitem result "open" ;;
  avail_buy_from_cur <-
    (if truthy open then
       ids <- iterate open ;;
       vol_all_buy_orders open ids avail_buy_from_cur
     else ret avail_buy_from_cur) ;;
  price <- cd_get chat_data "price" ;;
  p <- float_of_json price ;;
  match PyFloat.div avail_buy_from_cur p with
  | None => raise ZeroDivisionError
  | Some q => ret q
  end.

(** The volume of the SELL part of [trade_vol_all]: the balance of the
    currency to sell, less the volume of its open sell orders. *)
Definition vol_all_sell_volume (env : Env) (chat_data : dict_ref)
    (res_balance res_orders : json) : M PyFloat.float :=
  balance <- getitem res_balance "result" ;;
  one <- cd_get chat_data "one" ;;
  available_volume <- getitem_at balance one ;;
  result <- getitem res_orders "result" ;;
  open <- getitem result "open" ;;
  available_volume <-
    (if truthy open then
       ids <- iterate open ;;
       vol_all_sell_orders env chat_data open ids (FromBalance available_volume) None
     else ret (FromBalance available_volume)) ;;
  float_of_volume available_volume.

(** Volume type 'ALL' chosen - meaning that all available funds will be
    used *)
Definition trade_vol_all (env : Env) (update : Update) (chat_data : dict_ref)
    : M handler_result :=
  reply_text (emo_wa +:+ " Calculating volume...") None false ;;
  res_balance <- query env "Balance" None true ;;
  failed <- handle_api_error res_balance update "" ;;
  if failed then ret ReturnsNone
  else
    res_orders <- query env "OpenOrders" None true ;;
    failed <- handle_api_error res_orders update "" ;;
    if failed then ret ReturnsNone
    else
      (* BUY *)
      buysell <- cd_str chat_data "buysell" ;;
      returned <-
        (if String.eqb (PyStr.upper buysell) (clean BUY) then
           volume <- vol_all_buy_volume env chat_data res_balance res_orders ;;
           cd_set chat_data "volume" (JStr (PyFloat.format_8f volume)) ;;
           zero <- cd_is chat_data "volume" "0.00000000" ;;
           if zero then
             two <- cd_get chat_data "two" ;;
             alt <- altname env two ;;
             let msg := emo_er +:+ " Available " +:+ alt +:+ " volume is 0" in
             kb <- keyboard_cmds ;;
             reply_text msg (Some kb) false ;;
             ret (Some END)
           else
             trade_show_conf env update chat_data ;;
             ret None
         else ret None) ;;
      match returned with
      | Some r => ret r
      | None =>
          (* SELL *)
          buysell <- cd_str chat_data "buysell" ;;
          returned <-
            (if String.eqb (PyStr.upper buysell) (clean SELL) then
               volume <- vol_all_sell_volume env chat_data res_balance res_orders ;;
               cd_set chat_data "volume" (JStr (PyFloat.format_8f volume)) ;;
               zero <- cd_is chat_data "volume" "0.00000000" ;;
               if zero then
                 currency <- cd_str chat_data "currency" ;;
                 let msg := emo_er +:+ " Available " +:+ currency +:+
                            " volume is 0" in
                 kb <- keyboard_cmds ;;
                 reply_text msg (Some kb) false ;;
                 ret (Some END)
               else
                 trade_show_conf env update chat_data ;;
                 ret None
             else ret None) ;;
          match returned with
          | Some r => ret r
          | None => ret (Goto TRADE_CONFIRM)
          end
      end.

(** The user has to confirm placing the order *)
Definition trade_confirm (env : Env) (update : Update) (chat_data : dict_ref)
    : M handler_result :=
  if String.eqb (PyStr.upper (text update)) (clean NO) then
    cancel update (Some chat_data)
  else
    reply_text (emo_wa +:+ " Placing order...") None false ;;
    market <- cd_truth chat_data "market_price" ;;
    req_data <-
      (if market then
         ret [("ordertype", JStr "market"); ("trading_agreement", JStr "agree")]
       else
         price <- cd_get chat_data "price" ;;
         ret [("ordertype", JStr "limit"); ("price", price)]) ;;
    buysell <- cd_str chat_data "buysell" ;;
    volume <- cd_get chat_data "volume" ;;
    currency <- cd_str chat_data "currency" ;;
    pair <- pair_of env currency ;;
    let req_data := (req_data ++ [("type", JStr (PyStr.lower buysell));
                                  ("volume", volume);
                                  ("pair", JStr pair)])%list in
    res_add_order <- query env "AddOrder" (Some (JDict req_data)) true ;;
    failed <- handle_api_error res_add_order update "" ;;
    if failed then ret ReturnsNone
    else
      result <- getitem res_add_order "result" ;;
      txids <- getitem result "txid" ;;
      returned <-
        (if truthy txids then
           order_txid <- first_item txids ;;
           let req_data := JDict [("txid", order_txid)] in
           res_query_order <- query env "QueryOrders" (Some req_data) true ;;
           failed <- handle_api_error res_query_order update "" ;;
           if failed then ret true
           else
             result <- getitem res_query_order "result" ;;
             info <- getitem_at result order_txid ;;
             (if truthy info then
                descr <- getitem info "descr" ;;
                order_desc <- getitem descr "order" ;;
                id <- as_str order_txid ;;
                desc <- trim_zeros_str order_desc ;;
                let msg := emo_fi +:+ " Order placed:" +:+ LF +:+ id +:+ LF +:+ desc in
                kb <- keyboard_cmds ;;
                reply_text (bold msg) (Some kb) true ;;
                if check_trade (config env) then
                  run_repeating (check_trade_time (config env)) order_txid
                else ret tt
              else
                id <- as_str order_txid ;;
                reply_text ("No order with TXID " +:+ id) None false) ;;
             ret false
         else
           reply_text "Undefined state: no error and no TXID" None false ;;
           ret false) ;;
      if returned then ret ReturnsNone
      else
        clear_chat_data (Some chat_data) ;;
        ret END.

(** *** The orders conversation *)

Definition set_orders (l : list (string * json)) : M unit :=
  fun w => (Ok tt, mkWorld (attempts w) (events w) (chat_data w) (jobs w) l).

Definition get_orders : M (list (string * json)) :=
  fun w => (Ok (orders w), w).

(** The loop of [orders_cmd] that caches and shows the open orders. *)
Fixpoint orders_cmd_show (open : list (string * json)) : M unit :=
  match open with
  | [] => ret tt
  | (order_id, order_details) :: rest =>
      cached <- get_orders ;;
      set_orders (cached ++ [(order_id, order_details)]) ;;
      descr <- getitem order_details "descr" ;;
      order <- getitem descr "order" ;;
      order_desc <- trim_zeros_str order ;;
      reply_text (bold (order_id +:+ LF +:+ order_desc)) None true ;;
      orders_cmd_show rest
  end.

(** Show and manage orders *)
Definition orders_cmd : Env -> Update -> M handler_result :=
  restrict_access (fun env update =>
    reply_text (emo_wa +:+ " Retrieving orders...") None false ;;
    res_data <- query env "OpenOrders" None true ;;
    failed <- handle_api_error res_data update "" ;;
    if failed then ret ReturnsNone
    else
      set_orders [] ;;
      result <- getitem res_data "result" ;;
      open <- getitem result "open" ;;
      if truthy open then
        l <- items open ;;
        orders_cmd_show l ;;
        kb <- keyboard [clean CLOSE_ORDER; clean CLOSE_ALL] 2 (Some [clean CANCEL]) ;;
        reply_text "What do you want to do?" (Some kb) false ;;
        ret (Goto ORDERS_CLOSE)
      else
        reply_text (bold "No open orders") None true ;;
        ret END).

(** Choose what to do with the open orders *)
Definition orders_choose_order (env : Env) (update : Update) : M handler_result :=
  cached <- get_orders ;;
  match cached with
  | [] =>
      reply_text "No open orders" None false ;;
      ret END
  | _ =>
      kb <- keyboard (map fst cached) 1 (Some [clean CANCEL]) ;;
      reply_text "Which order to close?" (Some kb) false ;;
      ret (Goto ORDERS_CLOSE_ORDER)
  end.

(** The loop of [orders_close_all]: [x] is the index of the first order of
    [rest] in the cached list, [len] the length of that list. *)
Fixpoint close_each (env : Env) (update : Update) (len x : nat)
    (rest : list (string * json)) (closed_orders : list string)
    : M (list string) :=
  match rest with
  | [] => ret closed_orders
  | (order_id, _) :: rest' =>
      res_data <- query env "CancelOrder"
                    (Some (JDict [("txid", JStr order_id)])) true ;;
      failed <- handle_api_error res_data update
                  ("Order not closed:" +:+ LF +:+ order_id +:+ LF) ;;
      if failed then
        (if negb (x + 1 =? len)%nat then
           reply_text (emo_wa +:+ " Closing next order...") None false
         else ret tt) ;;
        close_each env update len (S x) rest' closed_orders
      else close_each env update len (S x) rest' (closed_orders ++ [order_id])
  end.

(** Close all open orders *)
Definition orders_close_all (env : Env) (update : Update) : M handler_result :=
  reply_text (emo_wa +:+ " Closing orders...") None false ;;
  cached <- get_orders ;;
  match cached with
  | [] =>
      kb <- keyboard_cmds ;;
      reply_text (bold "No open orders") (Some kb) true ;;
      ret END
  | _ =>
      closed_orders <- close_each env update (length cached) 0 cached [] ;;
      match closed_orders with
      | [] =>
          reply_text (bold "No orders closed") None true ;;
          ret ReturnsNone
      | _ =>
          let msg := bold (" Orders closed:" +:+ LF +:+ PyStr.join LF closed_orders) in
          kb <- keyboard_cmds ;;
          reply_text (emo_fi +:+ msg) (Some kb) true ;;
          ret END
      end
  end.

(** Close the specified order *)
Definition orders_close_order (env : Env) (update : Update) : M handler_result :=
  reply_text (emo_wa +:+ " Closing order...") None false ;;
  let req_data := JDict [("txid", JStr (text update))] in
  res_data <- query env "CancelOrder" (Some req_data) true ;;
  failed <- handle_api_error res_data update "" ;;
  if failed then ret ReturnsNone
  else
    let msg := emo_fi +:+ " " +:+ bold ("Order closed:" +:+ LF +:+ text update) in
    kb <- keyboard_cmds ;;
    reply_text msg (Some kb) true ;;
    ret END.

(** *** The order monitor *)

(** [job.schedule_removal()] for the job at index [job] of the queue *)
Definition schedule_removal (job : nat) : M unit :=
  fun w => match jobs w !! job with
           | Some j =>
               (Ok tt, mkWorld (attempts w) (events w ++ [Removal (job_txid j)])
                               (chat_data w)
                               (<[job := mkJob (job_txid j) (job_interval j) true]> (jobs w))
                               (orders w))
           | None => (Err IndexError, w)
           end.

(** [job.context["order_txid"]] *)
Definition job_context (job : nat) : M json :=
  fun w => match jobs w !! job with
           | Some j => (Ok (job_txid j), w)
           | None => (Err IndexError, w)
           end.

(** [btfy] applied to a value of the reply *)
Definition btfy_json (j : json) : M string :=
  match j with
  | JStr s => ret (btfy s)
  | _ => raise AttributeError
  end.

Definition json_is (j : json) (s : string) : bool :=
  match j with
  | JStr s' => String.eqb s' s
  | _ => false
  end.

(** Check order state and send message if order closed *)
Definition order_state_check (env : Env) (job : nat) : M unit :=
  order_txid <- job_context job ;;
  let req_data := JDict [("txid", order_txid)] in
  res_data <- query env "QueryOrders" (Some req_data) true ;;
  err <- getitem res_data "error" ;;
  if truthy err then
    e0 <- first_item err ;;
    error <- btfy_json e0 ;;
    logger ERROR error ;;
    if send_error (config env) then
      let src := "Order state check:" +:+ LF in
      send_owner (src +:+ emo_er +:+ " " +:+ error) None false
    else ret tt
  else
    result <- getitem res_data "result" ;;
    order_info <- getitem_at result order_txid ;;
    status <- getitem order_info "status" ;;
    if json_is status "canceled" then schedule_removal job
    else
      status <- getitem order_info "status" ;;
      if json_is status "closed" then
        id <- as_str order_txid ;;
        descr <- getitem order_info "descr" ;;
        order <- getitem descr "order" ;;
        desc <- trim_zeros_str order ;;
        let msg := " Trade executed:" +:+ LF +:+ id +:+ LF +:+ desc in
        send_owner (bold (emo_no +:+ msg)) None true ;;
        schedule_removal job
      else ret tt.

(** One firing of the timer of the job at index [job]: a job scheduled for
    removal does not run its callback again. *)
Definition tick (env : Env) (job : nat) : M unit :=
  fun w => match jobs w !! job with
           | Some j => if job_removed j then (Ok tt, w)
                       else order_state_check env job w
           | None => (Ok tt, w)
           end.

(** *** The trade conversation handler *)

(** A pattern [^(w1|...|wn)$] compiled with [re.IGNORECASE], for words
    without regular-expression operators and a text without line feed. *)
Definition comp_words (words : list string) (text : string) : bool :=
  existsb (fun w => String.eqb (PyStr.upper text) (PyStr.upper w)) words.

(** The pattern [^(?=.*?\d)\d*[.,]?\d*$]: digits with at most one
    separator and at least one digit. *)
Definition comp_number (text : string) : bool :=
  let '(_, c1, r1) := PyFloat.read_digits 0 0 text in
  let '(c2, r2) :=
    match r1 with
    | String a r =>
        if Ascii.eqb a "." || Ascii.eqb a "," then
          let '(_, c, r') := PyFloat.read_digits 0 0 r in (c, r')
        else (O, r1)
    | EmptyString => (O, r1)
    end in
  (0 <? c1 + c2)%nat && String.eqb r2 EmptyString.

(** [CommandHandler(name, ...)]: the text is the command [/name]. *)
Definition is_command (name text : string) : bool :=
  match PyStr.split " " text with
  | t :: _ => String.eqb (PyStr.lower t) ("/" +:+ name)
  | [] => false
  end.

(** Returns regex representation of OR for all coins in config
    'used_pairs' *)
Definition regex_coin_or (env : Env) : list string := coin_buttons env.

(** Returns regex representation of OR for all fiat currencies in config
    'used_pairs' *)
Definition regex_asset_or (env : Env) : list string := map snd (assets env).

(** The first handler of a list whose pattern accepts the text. *)
Fixpoint first_match {A : Type} (handlers : list (bool * A)) : option A :=
  match handlers with
  | [] => None
  | (true, h) :: _ => Some h
  | (false, _) :: rest => first_match rest
  end.

(** The [states] table of [trade_handler]; handlers registered with
    [pass_chat_data=True] are given the scratch dictionary. *)
Definition trade_states (env : Env) (state : WorkflowEnum) (update : Update)
    : list (bool * M handler_result) :=
  let t := text update in
  match state with
  | TRADE_BUY_SELL =>
      [(comp_words ["BUY"; "SELL"] t, trade_buy_sell env update ChatData);
       (comp_words ["CANCEL"] t, cancel update (Some ChatData))]
  | TRADE_CURRENCY =>
      [(comp_words (regex_coin_or env) t, trade_currency env update ChatData);
       (comp_words ["CANCEL"] t, cancel update (Some ChatData));
       (comp_words ["ALL"] t, trade_sell_all env update)]
  | TRADE_SELL_ALL_CONFIRM =>
      [(comp_words ["YES"; "NO"] t, trade_sell_all_confirm env update)]
  | TRADE_PRICE =>
      [(comp_number t || comp_words ["MARKET PRICE"] t,
        trade_price env update ChatData);
       (comp_words ["CANCEL"] t, cancel update (Some ChatData))]
  | TRADE_VOL_TYPE =>
      [(comp_words (regex_asset_or env) t, trade_vol_asset env update ChatData);
       (comp_words ["VOLUME"] t, trade_vol_volume env update ChatData);
       (comp_words ["ALL"] t, trade_vol_all env update ChatData);
       (comp_words ["CANCEL"] t, cancel update (Some ChatData))]
  | TRADE_VOLUME =>
      [(comp_number t, trade_volume env update ChatData);
       (comp_words ["CANCEL"] t, cancel update (Some ChatData))]
  | TRADE_VOLUME_ASSET =>
      [(comp_number t, trade_volume_asset env update ChatData);
       (comp_words ["CANCEL"] t, cancel update (Some ChatData))]
  | TRADE_CONFIRM =>
      [(comp_words ["YES"; "NO"] t, trade_confirm env update ChatData)]
  | _ => []
  end.

(** The handler [trade_handler] picks for an update: an entry point when
    no conversation is running, else the first matching handler of the
    current state, else the [/cancel] fallback. *)
Definition trade_handler (env : Env) (state : option WorkflowEnum)
    (update : Update) : option (M handler_result) :=
  match state with
  | None =>
      if is_command "trade" (text update) then Some (trade_cmd env update)
      else None
  | Some s =>
      match first_match (trade_states env s update) with
      | Some h => Some h
      | None =>
          if is_command "cancel" (text update)
          then Some (cancel update (Some ChatData)) else None
      end
  end.

(** One update through the conversation: [None] and a raised exception
    leave the state as it is, [END] closes the conversation. *)
Definition converse (env : Env) (state : option WorkflowEnum)
    (update : Update) (w : World) : option WorkflowEnum * World :=
  match trade_handler env state update with
  | None => (state, w)
  | Some h =>
      match h w with
      | (Ok (Goto s), w') => (Some s, w')
      | (Ok END, w') => (None, w')
      | (Ok ReturnsNone, w') => (state, w')
      | (Err _, w') => (state, w')
      end
  end.

Fixpoint converse_all (env : Env) (state : option WorkflowEnum)
    (updates : list Update) (w : World) : option WorkflowEnum * World :=
  match updates with
  | [] => (state, w)
  | u :: rest =>
      let '(state', w') := converse env state u w in
      converse_all env state' rest w'
  end.

End Bot.

(** * Specification vocabulary *)

Import Bot.

(** What a call leaves untouched: the scratch dictionary, the job queue
    and the cached orders. *)
Definition same_state (w w' : World) : Prop :=
  chat_data w' = chat_data w /\ jobs w' = jobs w /\ orders w' = orders w.

(** An exception that [query] does not answer at once. *)
Definition retryable (o : outcome) : Prop :=
  match o with
  | Returns _ => False
  | Raises _ ex_str => Kraken.fatal_reply ex_str = None
  end.

Definition failure_text (o : outcome) : string :=
  match o with
  | Returns _ => EmptyString
  | Raises ex_name ex_str => ex_name +:+ ":" +:+ ex_str
  end.

(** A world that has issued [n] requests and nothing else. *)
Definition probe (n : nat) : World := mkWorld n [] ∅ [] [].

(** What a call of [kraken.query] that starts as request number [n]
    returns, the events it leaves, and the number of requests issued when it
    returns. *)
Definition run_query (env : Env) (r : request) (n : nat) : json * list event * nat :=
  let '(res, w') :=
    Kraken.query env (req_method r) (req_data r) (req_private r) None (probe n) in
  (match res with Ok j => j | Err _ => JNull end, events w', attempts w').

Definition extend (w : World) (evs : list event) (n : nat) : World :=
  mkWorld n (events w ++ evs) (chat_data w) (jobs w) (orders w).

Definition messages (evs : list event) : list message :=
  omap (fun e => match e with Sent m => Some m | _ => None end) evs.

(** The calls of [kraken.query] made by handlers: the debug lines of calls
    that carry no retry counter. *)
Definition calls (evs : list event) : list request :=
  omap (fun e => match e with Called r None => Some r | _ => None end) evs.

Definition removals (evs : list event) : list json :=
  omap (fun e => match e with Removal t => Some t | _ => None end) evs.

Definition schedules (evs : list event) : list json :=
  omap (fun e => match e with Scheduled t => Some t | _ => None end) evs.

Definition client_event (e : event) : Prop :=
  match e with
  | Called _ (Some _) | Attempt _ _ | Log EXCEPTION _ => True
  | _ => False
  end.

(** The first error of a reply: [Some None] when the error list is empty,
    [None] when the reply is not of the shape the exchange documents. *)
Definition reply_error (j : json) : option (option string) :=
  match j with
  | JDict d =>
      match assoc "error" d with
      | Some (JList []) => Some None
      | Some (JList (JStr e :: _)) => Some (Some e)
      | _ => None
      end
  | _ => None
  end.

(** Every reply the exchange returns carries an error list of strings. *)
Definition well_formed_transport (env : Env) : Prop :=
  forall n r j, transport env n r = Returns j -> reply_error j <> None.

(** The two events of a reported error. *)
Definition error_report (text : string) : list event :=
  [Sent (mkMessage ToChat (Utils.btfy text) None false); Log ERROR (Utils.btfy text)].

Definition cancel_request (order_id : string) : request :=
  mkRequest "CancelOrder" (Some (JDict [("txid", JStr order_id)])) true.

(** The replies of the exchange client to the cancel calls for [ids], made
    one after the other from request number [n] on. *)
Fixpoint cancel_replies (env : Env) (ids : list string) (n : nat)
    : list (string * json) :=
  match ids with
  | [] => []
  | id :: rest =>
      let '(j, _, n') := run_query env (cancel_request id) n in
      (id, j) :: cancel_replies env rest n'
  end.

Definition succeeded (reply : json) : bool :=
  match reply_error reply with
  | Some None => true
  | _ => false
  end.

(** The orders whose cancel call came back without an error. *)
Definition closed_of (rs : list (string * json)) : list string :=
  map fst (List.filter (fun p => succeeded (snd p)) rs).

(** The messages of [orders_close_all] about failures: one report for each
    order whose cancel call failed, followed by a notice unless the order
    is the last of the [len] cached ones. *)
Fixpoint close_reports (len x : nat) (rs : list (string * json)) : list message :=
  match rs with
  | [] => []
  | (id, reply) :: rs' =>
      match reply_error reply with
      | Some (Some e) =>
          mkMessage ToChat
            (Utils.btfy (("Order not closed:" +:+ LF +:+ id +:+ LF) +:+ e)) None false
          :: (if (x + 1 =? len)%nat then []
              else [mkMessage ToChat (Utils.emo_wa +:+ " Closing next order...") None false])
          ++ close_reports len (S x) rs'
      | _ => close_reports len (S x) rs'
      end
  end.

Definition close_summary (closed : list string) : message :=
  match closed with
  | [] => mkMessage ToChat (Utils.bold "No orders closed") None true
  | _ => mkMessage ToChat
           (Utils.emo_fi +:+
            Utils.bold (" Orders closed:" +:+ LF +:+ PyStr.join LF closed))
           (Some (ReplyKeyboardMarkup [["/trade"; "/orders"]; ["/balance"; "/bot"]]))
           true
  end.

Definition query_orders_request (order_txid : json) : request :=
  mkRequest "QueryOrders" (Some (JDict [("txid", order_txid)])) true.

(** The entry of the polled order in a reply without errors. *)
Definition polled_order (reply : json) (txid : string) : option json :=
  match reply with
  | JDict d =>
      match assoc "error" d with
      | Some err =>
          if truthy err then None
          else match assoc "result" d with
               | Some (JDict result) => assoc txid result
               | _ => None
               end
      | None => None
      end
  | _ => None
  end.

(** The status the poll found; [None] for a failed poll. *)
Definition polled_status (reply : json) (txid : string) : option json :=
  match polled_order reply txid with
  | Some (JDict info) => assoc "status" info
  | _ => None
  end.

(** The description of the polled order, with its zeros trimmed. *)
Definition polled_description (reply : json) (txid : string) : option string :=
  match polled_order reply txid with
  | Some (JDict info) =>
      match assoc "descr" info with
      | Some (JDict descr) =>
          match assoc "order" descr with
          | Some (JStr s) => match Utils.trim_zeros s with
                             | Ok d => Some d
                             | Err _ => None
                             end
          | Some (JFloat x) =>
              Some (PyStr.rstrip_char "." (PyStr.rstrip_char "0" (PyFloat.format_8f x)))
          | _ => None
          end
      | _ => None
      end
  | _ => None
  end.

Definition executed_message (txid desc : string) : message :=
  mkMessage ToOwner
    (Utils.bold (Utils.emo_no +:+ " Trade executed:" +:+ LF +:+ txid +:+ LF +:+ desc))
    None true.

Definition remove_job (i : nat) (js : list Job) : list Job :=
  match js !! i with
  | Some j => <[i := mkJob (job_txid j) (job_interval j) true]> js
  | None => js
  end.

(** The world after [k] firings of the timer of job [i]. *)
Fixpoint ticks (env : Env) (i k : nat) (w : World) : World :=
  match k with
  | O => w
  | S k' => ticks env i k' (snd (tick env i w))
  end.

Definition set_scratch (w : World) (k : string) (v : json) : World :=
  mkWorld (attempts w) (events w) (<[k := v]> (chat_data w)) (jobs w) (orders w).

(** What the user gets when the volume is below the minimum. *)
Definition too_low_events (limit : string) : list event :=
  [Sent (mkMessage ToChat (Utils.emo_er +:+ " Volume to low. Must be > " +:+ limit)
           None false);
   Log WARNING (Utils.emo_er +:+ " Volume to low. Must be > " +:+ limit);
   Sent (mkMessage ToChat "Enter new volume"
           (Some (ReplyKeyboardMarkup [["CANCEL"]])) false)].

(** The handler goes on with the confirmation display from the world [w1]
    and, when the display returns, enters the confirmation step. *)
Definition proceeds_to_confirmation (env : Env) (update : Update)
    (run : res handler_result * World) (w1 : World) : Prop :=
  run = match trade_show_conf env update ChatData w1 with
        | (Ok _, w2) => (Ok (Goto TRADE_CONFIRM), w2)
        | (Err e, w2) => (Err e, w2)
        end.

(** Every run of [c] relates the world it starts in to the world it
    ends in, whether it returns or raises. *)
Definition preserves (R : World -> World -> Prop) {A : Type} (c : M A) : Prop :=
  forall w r w', c w = (r, w') -> R w w'.

(** The scratch dictionary is the same but for the entry [price]. *)
Definition scratch_kept (w w' : World) : Prop :=
  forall k, k <> "price" -> chat_data w' !! k = chat_data w !! k.

Definition balance_request : request := mkRequest "Balance" None true.
Definition open_orders_request : request := mkRequest "OpenOrders" None true.

Definition add_order_request (pair : string) (amount : json) : request :=
  mkRequest "AddOrder"
    (Some (JDict [("type", JStr "sell"); ("trading_agreement", JStr "agree");
                  ("pair", JStr pair); ("ordertype", JStr "market");
                  ("volume", amount)])) true.

(** The open orders of a reply to [OpenOrders]. *)
Definition open_orders_of (reply : json) : option (list (string * json)) :=
  match reply with
  | JDict d =>
      match assoc "result" d with
      | Some (JDict result) =>
          match assoc "open" result with
          | Some (JDict open) => Some open
          | _ => None
          end
      | _ => None
      end
  | _ => None
  end.

Definition not_closed_report (id e : string) : message :=
  mkMessage ToChat
    (Utils.btfy (("Not possible to close order" +:+ LF +:+ id +:+ LF) +:+ e))
    None false.

(** An entry of the balance that the sell-all loop passes over without a
    word: a fiat currency, or a balance that reads [0.0000000000]. *)
Definition passed_over (kv : string * json) : Prop :=
  PyStr.startswith (fst kv) "Z" = true \/ snd kv = JStr "0.0000000000".

(** An entry of the balance for which the loop asks the exchange to sell
    on [pair]: a coin of the assets table with a balance that is not below
    its minimum order size. *)
Definition for_sale (env : Env) (code : string) (amount : json) (pair : string)
    : Prop :=
  PyStr.startswith code "Z" = false
  /\ amount <> JStr "0.0000000000"
  /\ exists a limit fa l,
       assoc code (assets env) = Some a
       /\ limits env !! a = Some limit
       /\ to_float amount = Ok fa
       /\ PyFloat.of_string limit = Some l
       /\ PyFloat.ltb fa l = false
       /\ pairs env !! a = Some pair.

(** The balances of a reply to [Balance]. *)
Definition balances_of (reply : json) : option (list (string * json)) :=
  match reply with
  | JDict d =>
      match assoc "result" d with
      | Some (JDict result) => Some result
      | _ => None
      end
  | _ => None
  end.

(** The event log of [w'] continues the one of [w]. *)
Definition grows (w w' : World) : Prop :=
  exists evs, events w' = (events w ++ evs)%list.

(** ** Vocabulary of the further properties *)

(** What a user other than the configured one gets: with
    [show_access_denied] the refusal, a notice to the owner and a warning
    in the log; without it, nothing. *)
Definition denial (env : Env) (update : Update) : list event :=
  if show_access_denied (config env) then
    [Sent (mkMessage ToChat "Access denied" None false);
     Sent (mkMessage ToOwner ("Access denied for user " +:+ str_of_Z (chat_id update))
             None false);
     Log WARNING ("Access denied for user " +:+ str_of_Z (chat_id update))]
  else [].

Definition digit_or_dot (a : ascii) : bool := PyStr.is_digit a || Ascii.eqb a ".".

Fixpoint count_char (c : ascii) (s : string) : nat :=
  match s with
  | EmptyString => 0
  | String a s' => (if Ascii.eqb a c then 1 else 0) + count_char c s'
  end.

(** The shapes of a text of digits and dots. *)
Inductive shape : string -> nat -> nat -> Prop :=
| shape_plain ds :
    PyStr.all_chars PyStr.is_digit ds = true ->
    shape ds (String.length ds) 0
| shape_dot ds1 ds2 rest :
    PyStr.all_chars PyStr.is_digit ds1 = true ->
    PyStr.all_chars PyStr.is_digit ds2 = true ->
    match rest with
    | EmptyString => True
    | String a r => a = "."%char /\ PyStr.all_chars digit_or_dot r = true
    end ->
    shape (ds1 +:+ String "." (ds2 +:+ rest))
          (String.length ds1 + String.length ds2 + String.length (PyStr.remove_char "." rest))
          (S (count_char "." rest)).

(** The text before [btfy] put a blank after each colon. *)
Fixpoint unspace_colons (s : string) : string :=
  match s with
  | EmptyString => EmptyString
  | String a s' =>
      String a (if Ascii.eqb a ":" then
                  match s' with
                  | String " " r => unspace_colons r
                  | _ => unspace_colons s'
                  end
                else unspace_colons s')
  end.

(** The scratch dictionary is the same but for the entries [keys]. *)
Definition kept_but (keys : list string) (w w' : World) : Prop :=
  forall k, k ∉ keys -> chat_data w' !! k = chat_data w !! k.





(** * An example exchange *)
Module Demo.

Definition ok (result : json) : json :=
  JDict [("error", JList []); ("result", result)].

Definition failed (msg : string) : json :=
  JDict [("error", JList [JStr msg])].

Definition order (status desc : string) : json :=
  JDict [("status", JStr status); ("descr", JDict [("order", JStr desc)])].

Definition cfg (R : Z) : Config :=
  mkConfig "1" R true 10 true true [("XBT", "EUR")].

Definition demo_assets : list (string * string) :=
  [("XXBT", "XBT"); ("ZEUR", "EUR")].

Definition demo_pairs : gmap string string := {["XBT" := "XXBTZEUR"]}.

Definition with_minimum : gmap string string := {["XBT" := "0.002"]}.

Definition w0 : World := mkWorld 0 [] ∅ [] [].

Definition say (s : string) : Update := mkUpdate 1 s.

(** Every request times out. *)
Definition timeouts (R : Z) : Env :=
  mkEnv (cfg R) demo_assets demo_pairs with_minimum
    (fun _ _ => Raises "ConnectionError" "timed out").

(** The service is down. *)
Definition unavailable (R : Z) : Env :=
  mkEnv (cfg R) demo_assets demo_pairs with_minimum
    (fun _ _ => Raises "Exception" "EService:Unavailable").

(** Two open orders; the exchange refuses every cancel request, reports a
    balance of bitcoin and euro, and accepts nothing else. *)
Definition open_orders : list (string * json) :=
  [("OAAAAA-BBBBB-CCCCCC", order "open" "sell 0.50000000 XBTEUR @ limit 30000.0");
   ("ODDDDD-EEEEE-FFFFFF", order "open" "sell 1.50000000 XBTEUR @ limit 35000.0")].

Definition two_open : json := ok (JDict [("open", JDict open_orders)]).

Definition balances : json :=
  ok (JDict [("ZEUR", JStr "100.0000"); ("XXBT", JStr "1.0000000000")]).

Definition refusing_transport (n : nat) (r : request) : outcome :=
  if String.eqb (req_method r) "OpenOrders" then Returns two_open
  else if String.eqb (req_method r) "Balance" then Returns balances
  else Returns (failed "EOrder:Unknown order").

Definition refusing : Env :=
  mkEnv (cfg 0) demo_assets demo_pairs with_minimum refusing_transport.

(** The same exchange with no table of minimum order sizes. *)
Definition no_minimum : Env :=
  mkEnv (cfg 0) demo_assets demo_pairs ∅ refusing_transport.

(** A limit order for bitcoin, at the volume entry. *)
Definition limit_order (side : string) : World :=
  mkWorld 0 []
    (<["buysell" := JStr side]> (<["currency" := JStr "XBT"]>
     (<["one" := JStr "XXBT"]> (<["two" := JStr "ZEUR"]>
     (<["market_price" := JBool false]> (<["price" := JStr "20000"]> ∅))))))
    [] [].

(** The cache of [orders_cmd] with the two open orders. *)
Definition cached : World := mkWorld 0 [] ∅ [] open_orders.

(** The first cancel request is refused, the later ones are accepted. *)
Definition first_refused : Env :=
  mkEnv (cfg 0) demo_assets demo_pairs with_minimum
    (fun n _ => if (n =? 0)%nat then Returns (failed "EOrder:Unknown order")
                else Returns (ok (JDict [("count", JInt 1)]))).

(** An order that the exchange reports as closed. *)
Definition executed : Env :=
  mkEnv (cfg 0) demo_assets demo_pairs with_minimum
    (fun _ _ => Returns (ok (JDict [("OAAAAA-BBBBB-CCCCCC",
                   order "closed" "buy 0.10000000 XBTEUR @ limit 20000.0")]))).

Definition monitored : World :=
  mkWorld 0 [] ∅ [mkJob (JStr "OAAAAA-BBBBB-CCCCCC") 10 false] [].

Definition minimum_xbt : PyFloat.float :=
  Eval vm_compute in PyFloat.of_decimal false 2 (-3).

Definition volume_0001 : PyFloat.float :=
  Eval vm_compute in PyFloat.of_decimal false 1 (-3).

Definition minus_one : PyFloat.float :=
  Eval vm_compute in PyFloat.of_decimal true 1 0.

(** The events of a call that is answered at the first request. *)
Definition answered (r : request) (reply : json) : list event :=
  [Called r None; Attempt r (Returns reply)].

(** No open order, and bitcoin and ether to sell: the exchange refuses
    the first add-order request and accepts the second. *)
Definition coin_assets : list (string * string) :=
  [("XXBT", "XBT"); ("XETH", "ETH"); ("ZEUR", "EUR")].

Definition coin_pairs : gmap string string :=
  <["ETH" := "XETHZEUR"]> {["XBT" := "XXBTZEUR"]}.

Definition coin_minimums : gmap string string :=
  <["ETH" := "0.02"]> {["XBT" := "0.002"]}.

Definition none_open : json := ok (JDict [("open", JDict [])]).

Definition coins : list (string * json) :=
  [("ZEUR", JStr "100.0000"); ("XXBT", JStr "1.0000000000");
   ("XETH", JStr "2.0000000000")].

Definition coin_balances : json := ok (JDict coins).

Definition placed : json :=
  ok (JDict [("txid", JList [JStr "OGGGGG-HHHHH-IIIIII"])]).

Definition first_sale_refused : Env :=
  mkEnv (cfg 0) coin_assets coin_pairs coin_minimums
    (fun n r =>
       if String.eqb (req_method r) "OpenOrders" then Returns none_open
       else if String.eqb (req_method r) "Balance" then Returns coin_balances
       else if (n =? 2)%nat then Returns (failed "EOrder:Insufficient funds")
       else Returns placed).

Definition one_coin : PyFloat.float :=
  Eval vm_compute in PyFloat.of_decimal false 10000000000 (-10).

Definition two_coins : PyFloat.float :=
  Eval vm_compute in PyFloat.of_decimal false 20000000000 (-10).

Definition minimum_eth : PyFloat.float :=
  Eval vm_compute in PyFloat.of_decimal false 2 (-2).

End Demo.

(** * Further examples *)
Module Cases.

(** The first two requests time out, the third is answered; one retry is
    configured. *)
Definition recovering : Env :=
  mkEnv (Demo.cfg 1) Demo.demo_assets Demo.demo_pairs Demo.with_minimum
    (fun n _ => if (n <? 2)%nat then Raises "ConnectionError" "timed out"
                else Returns (Demo.ok (JDict []))).

(** A message from a chat that is not the owner's. *)
Definition stranger (s : string) : Update := mkUpdate 2 s.

(** An order at market price, at the choice of the volume type. *)
Definition market_order : World :=
  mkWorld 0 []
    (<["buysell" := JStr "sell"]> (<["currency" := JStr "XBT"]>
     (<["one" := JStr "XXBT"]> (<["two" := JStr "ZEUR"]>
     (<["market_price" := JBool true]> ∅)))))
    [] [].

Definition half : PyFloat.float :=
  Eval vm_compute in PyFloat.of_decimal false 5 (-1).

Definition hundred : PyFloat.float :=
  Eval vm_compute in PyFloat.of_decimal false 100 0.

End Cases.

Module Placing.



End Placing.

(** * Properties *)

(** ** [build_menu] *)
Section BuildMenu.
Context {A : Type}.
Implicit Types (l : list A) (n k j : nat).

Lemma slice_chunk l n j :
  slice l (Z.of_nat j * Z.of_nat n) (Z.of_nat j * Z.of_nat n + Z.of_nat n)
  = take n (drop (j * n) l).
Proof.
  unfold slice. f_equal; [lia | f_equal; lia].
Qed.

Lemma concat_chunks l n k :
  concat (map (fun j => take n (drop (j * n) l)) (seq 0 k)) = take (k * n) l.
Proof.
  induction k as [|k IH].
  - reflexivity.
  - rewrite seq_S, map_app, concat_app, IH. simpl.
    rewrite app_nil_r, take_take_drop. f_equal. lia.
Qed.

Lemma chunk_count_covers (L n : nat) :
  (0 < n)%nat ->
  (L <= Z.to_nat ((Z.of_nat L + Z.of_nat n - 1) / Z.of_nat n) * n)%nat.
Proof.
  intros Hn.
  assert (H := Z.mul_succ_div_gt (Z.of_nat L + Z.of_nat n - 1) (Z.of_nat n)).
  assert (0 <= (Z.of_nat L + Z.of_nat n - 1) / Z.of_nat n) by (apply Z.div_pos; lia).
  nia.
Qed.

Lemma chunk_count_tight (L n j : nat) :
  (0 < n)%nat ->
  (S j < Z.to_nat ((Z.of_nat L + Z.of_nat n - 1) / Z.of_nat n))%nat ->
  (S j * n < L)%nat.
Proof.
  intros Hn Hj.
  assert (H := Z.mul_div_le (Z.of_nat L + Z.of_nat n - 1) (Z.of_nat n)).
  nia.
Qed.

Lemma menu_rows_chunks l (n : nat) (K : nat) :
  map (fun i => slice l i (i + Z.of_nat n))
      (map (fun k => Z.of_nat k * Z.of_nat n) (seq 0 K))
  = map (fun j => take n (drop (j * n) l)) (seq 0 K).
Proof.
  rewrite map_map. apply map_ext. intros j. apply slice_chunk.
Qed.

Lemma chunk_lookup l n K i row :
  map (fun j => take n (drop (j * n) l)) (seq 0 K) !! i = Some row ->
  (i < K)%nat /\ row = take n (drop (i * n) l).
Proof.
  intros H. rewrite list_lookup_fmap in H.
  destruct (seq 0 K !! i) as [j|] eqn:E; [|discriminate].
  apply lookup_seq in E as [-> ?]. simpl in H. split; [lia | congruence].
Qed.

(** C10. For [n_cols >= 1], [build_menu] returns the header row (when one
    is given, that is neither [None] nor empty), then rows whose
    concatenation is the button list in its order, each row but possibly
    the last of exactly [n_cols] buttons and none empty or longer, then the
    footer row (when given); header and footer are the arguments
    themselves. *)
Theorem build_menu_rows (buttons : list A) (n_cols : Z)
    (header_buttons footer_buttons : option (list A)) :
  1 <= n_cols ->
  exists rows : list (list A),
    build_menu buttons n_cols header_buttons footer_buttons
      = Ok (given header_buttons ++ rows ++ given footer_buttons)%list
    /\ concat rows = buttons
    /\ (forall i row, rows !! i = Some row -> (S i < length rows)%nat ->
          Z.of_nat (length row) = n_cols)
    /\ (forall i row, rows !! i = Some row ->
          (0 < length row)%nat /\ Z.of_nat (length row) <= n_cols)
    /\ (forall h, header_buttons = Some h -> h <> [] -> given header_buttons = [h])
    /\ (forall f, footer_buttons = Some f -> f <> [] -> given footer_buttons = [f])
    /\ (header_buttons = None -> given header_buttons = [])
    /\ (footer_buttons = None -> given footer_buttons = []).
Proof.
  intros Hn.
  set (n := Z.to_nat n_cols).
  assert (Hnn : n_cols = Z.of_nat n) by lia.
  assert (Hpos : (0 < n)%nat) by lia.
  set (K := Z.to_nat ((Z.of_nat (length buttons) + Z.of_nat n - 1) / Z.of_nat n)).
  exists (map (fun j => take n (drop (j * n) buttons)) (seq 0 K)).
  repeat split.
  - unfold build_menu, range.
    destruct (n_cols =? 0) eqn:E0; [lia|].
    destruct (n_cols <? 0) eqn:E1; [lia|].
    rewrite Hnn, menu_rows_chunks. reflexivity.
  - rewrite concat_chunks. apply take_ge.
    apply chunk_count_covers; assumption.
  - intros i row Hrow Hi. rewrite length_map, length_seq in Hi.
    apply chunk_lookup in Hrow as [_ ->].
    rewrite length_take, length_drop.
    pose proof (chunk_count_tight (length buttons) n i Hpos Hi). lia.
  - apply chunk_lookup in H as [Hi ->].
    rewrite length_take, length_drop.
    assert (i * n < length buttons)%nat; [|lia].
    destruct i as [|i]; [|pose proof (chunk_count_tight (length buttons) n i Hpos Hi); lia].
    destruct (length buttons) eqn:EL; [|lia].
    subst K. rewrite Z.div_small in Hi by lia. simpl in Hi. lia.
  - apply chunk_lookup in H as [Hi ->].
    rewrite length_take. lia.
  - intros h -> Hh. destruct h; [congruence | reflexivity].
  - intros f -> Hf. destruct f; [congruence | reflexivity].
  - intros ->. reflexivity.
  - intros ->. reflexivity.
Qed.

End BuildMenu.

Lemma build_menu_rows_witness :
  1 <= 2 /\
  exists rows : list (list string),
    build_menu ["BUY"; "SELL"; "ALL"] 2 None (Some ["CANCEL"])
      = Ok (given None ++ rows ++ given (Some ["CANCEL"]))%list
    /\ concat rows = ["BUY"; "SELL"; "ALL"]
    /\ (forall i row, rows !! i = Some row -> (S i < length rows)%nat ->
          Z.of_nat (length row) = 2)
    /\ (forall i row, rows !! i = Some row ->
          (0 < length row)%nat /\ Z.of_nat (length row) <= 2)
    /\ (forall h, @None (list string) = Some h -> h <> [] -> given (@None (list string)) = [h])
    /\ (forall f, Some ["CANCEL"] = Some f -> f <> [] -> given (Some ["CANCEL"]) = [f])
    /\ (@None (list string) = None -> given (@None (list string)) = [])
    /\ (Some ["CANCEL"] = None -> given (Some ["CANCEL"]) = []).
Proof.
  split; [lia|].
  apply (build_menu_rows ["BUY"; "SELL"; "ALL"] 2 None (Some ["CANCEL"])). lia.
Defined.

(** ** [Kraken.query] *)

(** The body of [query], one level unfolded. *)
Lemma query_unfold env method data private retries w :
  Kraken.query env method data private retries w =
  match Kraken.perform env (mkRequest method data private) retries w with
  | (Returns reply, w1) => (Ok reply, w1)
  | (Raises ex_name ex_str, w1) =>
      match Kraken.fatal_reply ex_str with
      | Some reply => (Ok reply, w1)
      | None =>
          if Kraken._retries env =? 0 then
            (Ok (Kraken.error_reply (ex_name +:+ ":" +:+ ex_str)), w1)
          else
            match retries with
            | None =>
                Kraken.query env method data private (Some (Kraken._retries env)) w1
            | Some n =>
                if 0 <? n then Kraken.query env method data private (Some (n - 1)) w1
                else (Ok (Kraken.error_reply (ex_name +:+ ":" +:+ ex_str)), w1)
            end
      end
  end.
Proof.
  rewrite Kraken.query_equation_1.
  destruct (Kraken.perform _ _ _ _) as [[reply|ex_name ex_str] w1]; simpl; [reflexivity|].
  destruct (Kraken.fatal_reply ex_str); simpl; [reflexivity|].
  destruct (Kraken._retries env =? 0); simpl; [reflexivity|].
  destruct retries as [n|]; simpl; [|reflexivity].
  destruct (Z_gt_dec n 0) as [H|H]; simpl.
  - destruct (0 <? n) eqn:E; [reflexivity | lia].
  - destruct (0 <? n) eqn:E; [lia | reflexivity].
Qed.

Lemma same_state_refl w : same_state w w.
Proof. repeat split. Qed.

Lemma same_state_trans w1 w2 w3 :
  same_state w1 w2 -> same_state w2 w3 -> same_state w1 w3.
Proof. unfold same_state. intros (?&?&?) (?&?&?). repeat split; congruence. Qed.

Lemma perform_spec env r retries w :
  exists w',
    Kraken.perform env r retries w = (transport env (attempts w) r, w')
    /\ attempts w' = S (attempts w)
    /\ events w' = (events w ++ Called r retries :: Attempt r (transport env (attempts w) r) ::
                      match transport env (attempts w) r with
                      | Returns _ => []
                      | Raises _ _ => [Log EXCEPTION "Kraken exception:"]
                      end)%list
    /\ same_state w w'.
Proof.
  unfold Kraken.perform.
  destruct (transport env (attempts w) r) eqn:E; eexists; (split; [reflexivity|]);
    simpl; repeat split; rewrite <- ?app_assoc; reflexivity.
Qed.

Section Query.
Variable env : Env.
Variables (method : string) (data : option json) (private : bool).
Local Abbreviation r := (mkRequest method data private).

(** A call that already carries a counter [k] makes [k + 1] requests when
    all of them fail. *)
Lemma query_counter_exhausts (k : nat) : forall w,
  Kraken._retries env <> 0 ->
  (forall i, (attempts w <= i)%nat -> retryable (transport env i r)) ->
  exists w',
    Kraken.query env method data private (Some (Z.of_nat k)) w
      = (Ok (Kraken.error_reply (failure_text (transport env (attempts w + k) r))), w')
    /\ attempts w' = (attempts w + S k)%nat
    /\ same_state w w'.
Proof.
  induction k as [|k IH]; intros w HR Hfail.
  - rewrite query_unfold.
    destruct (perform_spec env r (Some (Z.of_nat 0)) w) as (w1 & -> & Ha & _ & Hs).
    specialize (Hfail (attempts w) (Nat.le_refl _)).
    rewrite Nat.add_0_r.
    destruct (transport env (attempts w) r) as [|ex_name ex_str]; [contradiction|].
    simpl in Hfail. rewrite Hfail.
    destruct (Z.eqb_spec (Kraken._retries env) 0) as [E|E]; [contradiction|].
    simpl. exists w1. split; [reflexivity|]. split; [lia | exact Hs].
  - rewrite query_unfold.
    destruct (perform_spec env r (Some (Z.of_nat (S k))) w) as (w1 & -> & Ha & _ & Hs).
    pose proof (Hfail (attempts w) (Nat.le_refl _)) as H0.
    destruct (transport env (attempts w) r) as [|ex_name ex_str]; [contradiction|].
    simpl in H0. rewrite H0.
    destruct (Z.eqb_spec (Kraken._retries env) 0) as [E|E]; [contradiction|].
    destruct (Z.ltb_spec 0 (Z.of_nat (S k))) as [E1|E1]; [|lia].
    replace (Z.of_nat (S k) - 1) with (Z.of_nat k) by lia.
    destruct (IH w1 HR) as (w' & Hq & Ha' & Hs').
    { intros i Hi. apply Hfail. lia. }
    exists w'. rewrite Hq, Ha', Ha. split; [|split].
    + replace (S (attempts w) + k)%nat with (attempts w + S k)%nat by lia.
      reflexivity.
    + lia.
    + apply (same_state_trans _ _ _ Hs Hs').
Qed.

(** C1. With a retry budget [R >= 1] and every request failing with an
    exception that is not answered at once, a call of [query] makes
    [R + 2] requests (the first one, one that starts the retrying with the
    full counter, and one for each of the [R] decrements), and then returns
    the error of the last failure: its type name, a colon and its
    message. *)
Theorem query_exhausts_budget (w : World) :
  1 <= retries (config env) ->
  (forall i, (attempts w <= i)%nat -> retryable (transport env i r)) ->
  exists w',
    Kraken.query env method data private None w
      = (Ok (Kraken.error_reply
               (failure_text
                  (transport env (attempts w + Z.to_nat (retries (config env)) + 1) r))),
         w')
    /\ attempts w' = (attempts w + Z.to_nat (retries (config env)) + 2)%nat
    /\ same_state w w'.
Proof.
  intros HR Hfail.
  rewrite query_unfold.
  destruct (perform_spec env r None w) as (w1 & -> & Ha & _ & Hs).
  pose proof (Hfail (attempts w) (Nat.le_refl _)) as H0.
  destruct (transport env (attempts w) r) as [|ex_name ex_str]; [contradiction|].
  simpl in H0. rewrite H0. unfold Kraken._retries.
  destruct (Z.eqb_spec (retries (config env)) 0) as [E|E]; [lia|].
  destruct (query_counter_exhausts (Z.to_nat (retries (config env))) w1) as (w' & Hq & Ha' & Hs').
  { unfold Kraken._retries. lia. }
  { intros i Hi. apply Hfail. lia. }
  rewrite Z2Nat.id in Hq by lia.
  exists w'. rewrite Hq, Ha', Ha. split; [|split].
  - replace (S (attempts w) + Z.to_nat (retries (config env)))%nat
      with (attempts w + Z.to_nat (retries (config env)) + 1)%nat by lia.
    reflexivity.
  - lia.
  - apply (same_state_trans _ _ _ Hs Hs').
Qed.

(** C7. Whatever the retry budget and the counter passed, a failure whose
    message contains [Incorrect padding] or [Service:Unavailable] is
    answered with an error after the one request, and so is any failure
    when the budget is 0: one request, one exception logged, no retry. *)
Theorem query_no_retry (retries_arg : option Z) (w : World) (ex_name ex_str : string) :
  transport env (attempts w) r = Raises ex_name ex_str ->
  PyStr.contains "Incorrect padding" ex_str = true
  \/ PyStr.contains "Service:Unavailable" ex_str = true
  \/ retries (config env) = 0 ->
  exists w',
    Kraken.query env method data private retries_arg w
      = (Ok (Kraken.error_reply
               (if PyStr.contains "Incorrect padding" ex_str then
                  "Incorrect padding: please verify that your Kraken API keys are valid"
                else if PyStr.contains "Service:Unavailable" ex_str then
                  "Service: Unavailable"
                else ex_name +:+ ":" +:+ ex_str)), w')
    /\ attempts w' = S (attempts w)
    /\ events w' = (events w ++ [Called r retries_arg;
                                 Attempt r (Raises ex_name ex_str);
                                 Log EXCEPTION "Kraken exception:"])%list
    /\ same_state w w'.
Proof.
  intros Hraise Hcase.
  rewrite query_unfold.
  destruct (perform_spec env r retries_arg w) as (w1 & -> & Ha & He & Hs).
  rewrite Hraise in *.
  exists w1. split; [|auto].
  unfold Kraken.fatal_reply.
  destruct (PyStr.contains "Incorrect padding" ex_str); [reflexivity|].
  destruct (PyStr.contains "Service:Unavailable" ex_str); [reflexivity|].
  destruct Hcase as [H|[H|H]]; try discriminate.
  unfold Kraken._retries. rewrite H. reflexivity.
Qed.

End Query.

(** ** The exchange client seen from a handler *)

Lemma extend_extend w evs1 n1 evs2 n2 :
  extend (extend w evs1 n1) evs2 n2 = extend w (evs1 ++ evs2) n2.
Proof. unfold extend. simpl. rewrite <- app_assoc. reflexivity. Qed.

Lemma perform_extend env r retries_arg w :
  Kraken.perform env r retries_arg w =
  (transport env (attempts w) r,
   extend w (Called r retries_arg :: Attempt r (transport env (attempts w) r) ::
             match transport env (attempts w) r with
             | Returns _ => []
             | Raises _ _ => [Log EXCEPTION "Kraken exception:"]
             end) (S (attempts w))).
Proof.
  unfold Kraken.perform, extend, emit.
  destruct (transport env (attempts w) r); simpl; rewrite <- ?app_assoc; reflexivity.
Qed.

(** Two worlds that have issued the same number of requests get the same
    reply, and the same events are added to both. *)
Lemma query_frame env method data private : forall (b : nat) retries_arg w1 w2,
  Kraken.budget (Kraken._retries env) retries_arg = b ->
  attempts w1 = attempts w2 ->
  exists j evs n,
    Kraken.query env method data private retries_arg w1 = (Ok j, extend w1 evs n)
    /\ Kraken.query env method data private retries_arg w2 = (Ok j, extend w2 evs n).
Proof.
  induction b as [b IH] using lt_wf_ind. intros retries_arg w1 w2 Hb Hn.
  rewrite !query_unfold, !perform_extend. rewrite <- Hn.
  set (r := mkRequest method data private).
  destruct (transport env (attempts w1) r) as [reply|ex_name ex_str].
  { do 3 eexists. split; reflexivity. }
  set (evs0 := [Called r retries_arg; Attempt r (Raises ex_name ex_str);
                Log EXCEPTION "Kraken exception:"]).
  assert (Hrec : forall rt, (Kraken.budget (Kraken._retries env) rt < b)%nat ->
     exists j evs n,
       Kraken.query env method data private rt (extend w1 evs0 (S (attempts w1)))
         = (Ok j, extend w1 evs n)
       /\ Kraken.query env method data private rt (extend w2 evs0 (S (attempts w1)))
         = (Ok j, extend w2 evs n)).
  { intros rt Hlt.
    destruct (IH _ Hlt rt (extend w1 evs0 (S (attempts w1)))
                (extend w2 evs0 (S (attempts w1))) eq_refl eq_refl)
      as (j & evs & n & Hq1 & Hq2).
    exists j, (evs0 ++ evs)%list, n. rewrite Hq1, Hq2, !extend_extend.
    split; reflexivity. }
  destruct (Kraken.fatal_reply ex_str).
  { do 3 eexists. split; reflexivity. }
  destruct (Z.eqb_spec (Kraken._retries env) 0) as [E|E].
  { do 3 eexists. split; reflexivity. }
  destruct retries_arg as [k|].
  - destruct (Z.ltb_spec 0 k).
    + apply Hrec. subst b. simpl. lia.
    + do 3 eexists. split; reflexivity.
  - apply Hrec. subst b. simpl. lia.
Qed.

(** [kraken.query] never raises; it returns what [run_query] says and
    touches nothing but the request counter and the event log. *)
Lemma query_run env method data private w :
  Bot.query env method data private w =
  let '(j, evs, n) := run_query env (mkRequest method data private) (attempts w) in
  (Ok j, extend w evs n).
Proof.
  unfold Bot.query, run_query. simpl.
  destruct (query_frame env method data private _ None (probe (attempts w)) w
              eq_refl eq_refl) as (j & evs & n & -> & ->).
  reflexivity.
Qed.

(** *** Reading the event log *)

Lemma client_events_silent evs :
  Forall client_event evs ->
  messages evs = [] /\ calls evs = [] /\ removals evs = [] /\ schedules evs = [].
Proof.
  induction 1 as [|e evs He _ (IH1 & IH2 & IH3 & IH4)]; [repeat split|].
  unfold messages, calls, removals, schedules in *.
  destruct e as [r [k|]| | [] | | |]; simpl in *; try contradiction;
    repeat split; assumption.
Qed.

Lemma query_events env method data private : forall (b : nat) retries_arg w,
  Kraken.budget (Kraken._retries env) retries_arg = b ->
  exists j evs n,
    Kraken.query env method data private retries_arg w = (Ok j, extend w evs n)
    /\ (exists tl, evs = Called (mkRequest method data private) retries_arg :: tl
                   /\ Forall client_event tl)
    /\ (well_formed_transport env -> reply_error j <> None)
    /\ (attempts w < n)%nat.
Proof.
  induction b as [b IH] using lt_wf_ind. intros retries_arg w Hb.
  rewrite query_unfold, perform_extend.
  set (r := mkRequest method data private).
  destruct (transport env (attempts w) r) as [reply|ex_name ex_str] eqn:Ht.
  { do 3 eexists. split; [reflexivity|]. split; [|split; [|simpl; lia]].
    - eexists. split; [reflexivity|]. repeat constructor.
    - intros Hwf. apply (Hwf _ _ _ Ht). }
  set (evs0 := [Called r retries_arg; Attempt r (Raises ex_name ex_str);
                Log EXCEPTION "Kraken exception:"]).
  assert (Hdone : forall msg, exists j evs n,
     (Ok (Kraken.error_reply msg), extend w evs0 (S (attempts w)))
       = (Ok j, extend w evs n)
     /\ (exists tl, evs = Called r retries_arg :: tl /\ Forall client_event tl)
     /\ (well_formed_transport env -> reply_error j <> None)
     /\ (attempts w < n)%nat).
  { intros msg. do 3 eexists. split; [reflexivity|]. split; [|split; [|lia]].
    - eexists. split; [reflexivity|]. repeat constructor.
    - intros _. discriminate. }
  assert (Hrec : forall k, (Kraken.budget (Kraken._retries env) (Some k) < b)%nat ->
     exists j evs n,
       Kraken.query env method data private (Some k) (extend w evs0 (S (attempts w)))
         = (Ok j, extend w evs n)
       /\ (exists tl, evs = Called r retries_arg :: tl /\ Forall client_event tl)
       /\ (well_formed_transport env -> reply_error j <> None)
       /\ (attempts w < n)%nat).
  { intros k Hlt.
    destruct (IH _ Hlt (Some k) (extend w evs0 (S (attempts w))) eq_refl)
      as (j & evs & n & Hq & (tl & -> & Htl) & Hwf & Hn).
    exists j, (evs0 ++ Called r (Some k) :: tl)%list, n.
    rewrite Hq, extend_extend. split; [reflexivity|]. split; [|split; [assumption|]].
    - eexists. split; [reflexivity|]. repeat constructor. assumption.
    - simpl in Hn. lia. }
  destruct (Kraken.fatal_reply ex_str) as [reply|] eqn:Hf.
  { unfold Kraken.fatal_reply in Hf.
    destruct (PyStr.contains "Incorrect padding" ex_str);
      [injection Hf as <-; apply Hdone|].
    destruct (PyStr.contains "Service:Unavailable" ex_str);
      [injection Hf as <-; apply Hdone | discriminate]. }
  destruct (Z.eqb_spec (Kraken._retries env) 0) as [E|E]; [apply Hdone|].
  destruct retries_arg as [k|].
  - destruct (Z.ltb_spec 0 k); [|apply Hdone].
    apply Hrec. subst b. simpl. lia.
  - apply Hrec. subst b. simpl. lia.
Qed.

(** What a handler sees of one call of [kraken.query]. *)
Lemma run_query_spec env r n0 j evs n :
  run_query env r n0 = (j, evs, n) ->
  calls evs = [r] /\ messages evs = [] /\ removals evs = [] /\ schedules evs = []
  /\ (well_formed_transport env -> reply_error j <> None)
  /\ (n0 < n)%nat.
Proof.
  unfold run_query. destruct r as [method data private]. simpl.
  destruct (query_events env method data private _ None (probe n0) eq_refl)
    as (j' & evs' & n' & -> & (tl & -> & Htl) & Hwf & Hn).
  simpl. intros [= <- <- <-].
  destruct (client_events_silent tl Htl) as (H1 & H2 & H3 & H4).
  repeat split; try assumption.
  change (calls (Called (mkRequest method data private) None :: tl))
    with (mkRequest method data private :: calls tl).
  rewrite H2. reflexivity.
Qed.

(** *** Running the monad *)

Lemma bind_unfold {A B} (c : M A) (k : A -> M B) w :
  bind c k w = match c w with
               | (Ok a, w') => k a w'
               | (Err e, w') => (Err e, w')
               end.
Proof. reflexivity. Qed.

Lemma extend_nil w : extend w [] (attempts w) = w.
Proof. destruct w. unfold extend. simpl. rewrite app_nil_r. reflexivity. Qed.

Lemma reply_text_run t m md w :
  reply_text t m md w = (Ok tt, extend w [Sent (mkMessage ToChat t m md)] (attempts w)).
Proof. reflexivity. Qed.

Lemma send_owner_run t m md w :
  send_owner t m md w = (Ok tt, extend w [Sent (mkMessage ToOwner t m md)] (attempts w)).
Proof. reflexivity. Qed.

Lemma logger_run l s w :
  logger l s w = (Ok tt, extend w [Log l s] (attempts w)).
Proof. reflexivity. Qed.

Lemma keyboard_cmds_run w :
  keyboard_cmds w =
  (Ok (ReplyKeyboardMarkup [["/trade"; "/orders"]; ["/balance"; "/bot"]]), w).
Proof. reflexivity. Qed.

Lemma keyboard_confirm_run w :
  keyboard_confirm w = (Ok (ReplyKeyboardMarkup [["YES"; "NO"]]), w).
Proof. reflexivity. Qed.

Lemma cancel_keyboard_run w :
  cancel_keyboard w = (Ok (ReplyKeyboardMarkup [["CANCEL"]]), w).
Proof. reflexivity. Qed.

Lemma handle_api_error_none j update additional_msg w :
  reply_error j = Some None ->
  handle_api_error j update additional_msg w = (Ok false, w).
Proof.
  unfold reply_error, handle_api_error. intros H.
  destruct j as [| | | | |l|d]; try discriminate.
  rewrite bind_unfold. simpl.
  destruct (assoc "error" d) as [[| | | | |[|[]]|]|]; try discriminate.
  reflexivity.
Qed.

Lemma handle_api_error_some j update additional_msg w e :
  reply_error j = Some (Some e) ->
  handle_api_error j update additional_msg w
  = (Ok true, extend w (error_report (additional_msg +:+ e)) (attempts w)).
Proof.
  unfold reply_error, handle_api_error. intros H.
  destruct j as [| | | | |l|d]; try discriminate.
  rewrite bind_unfold. simpl.
  destruct (assoc "error" d) as [[| | | | |[|[]]|]|]; try discriminate.
  injection H as <-.
  cbv beta iota zeta delta [bind ret as_str reply_text logger tell emit error_report extend].
  simpl. rewrite <- app_assoc. reflexivity.
Qed.

(** ** Close-all *)

Lemma messages_app a b : messages (a ++ b) = (messages a ++ messages b)%list.
Proof. apply omap_app. Qed.

Lemma calls_app a b : calls (a ++ b) = (calls a ++ calls b)%list.
Proof. apply omap_app. Qed.

Lemma close_each_spec env update len :
  well_formed_transport env ->
  forall rest x closed w,
  exists evs n,
    close_each env update len x rest closed w
      = (Ok (closed ++ closed_of (cancel_replies env (map fst rest) (attempts w)))%list,
         extend w evs n)
    /\ calls evs = map cancel_request (map fst rest)
    /\ messages evs = close_reports len x (cancel_replies env (map fst rest) (attempts w)).
Proof.
  intros Hwf rest. induction rest as [|[order_id details] rest IH]; intros x closed w.
  - exists [], (attempts w). simpl. rewrite extend_nil, app_nil_r. repeat split.
  - simpl. rewrite bind_unfold, query_run.
    fold (cancel_request order_id).
    destruct (run_query env (cancel_request order_id) (attempts w)) as [[j evs1] n1] eqn:Hrun.
    destruct (run_query_spec _ _ _ _ _ _ Hrun) as (Hc & Hm & _ & _ & Hj & _).
    specialize (Hj Hwf). rewrite bind_unfold.
    unfold closed_of. simpl. unfold succeeded at 1.
    destruct (reply_error j) as [[e|]|] eqn:Hre; [| |contradiction].
    + rewrite (handle_api_error_some _ _ _ _ _ Hre), extend_extend. simpl attempts.
      rewrite bind_unfold.
      destruct (x + 1 =? len)%nat eqn:Ex; cbn [negb]; cbv beta iota.
      * unfold ret at 1. cbv beta iota.
        destruct (IH (S x) closed (extend w (evs1 ++ error_report
                    (("Order not closed:" +:+ LF +:+ order_id +:+ LF) +:+ e)) n1))
          as (evs & n & Hq & Hcalls & Hmsgs).
        simpl attempts in *. rewrite Hq, extend_extend.
        eexists _, n. split; [reflexivity|].
        rewrite !calls_app, !messages_app, Hc, Hm, Hcalls, Hmsgs. split; reflexivity.
      * rewrite reply_text_run, extend_extend. simpl attempts.
        destruct (IH (S x) closed (extend w ((evs1 ++ error_report
                    (("Order not closed:" +:+ LF +:+ order_id +:+ LF) +:+ e)) ++
                    [Sent (mkMessage ToChat (Utils.emo_wa +:+ " Closing next order...")
                             None false)]) n1))
          as (evs & n & Hq & Hcalls & Hmsgs).
        simpl attempts in *. rewrite Hq, extend_extend.
        eexists _, n. split; [reflexivity|].
        rewrite !calls_app, !messages_app, Hc, Hm, Hcalls, Hmsgs. split; reflexivity.
    + rewrite (handle_api_error_none _ _ _ _ Hre).
      destruct (IH (S x) (closed ++ [order_id])%list (extend w evs1 n1))
        as (evs & n & Hq & Hcalls & Hmsgs).
      simpl attempts in *.
      exists (evs1 ++ evs)%list, n. rewrite Hq, extend_extend, <- app_assoc.
      split; [reflexivity|]. split.
      * rewrite calls_app, Hc, Hcalls. reflexivity.
      * rewrite messages_app, Hm, Hmsgs. reflexivity.
Qed.

Lemma cancel_replies_ids env ids : forall n, map fst (cancel_replies env ids n) = ids.
Proof.
  induction ids as [|id ids IH]; intros n; simpl; [reflexivity|].
  destruct (run_query env (cancel_request id) n) as [[j evs] n']. simpl.
  rewrite IH. reflexivity.
Qed.

Lemma closed_of_spec rs id :
  id ∈ closed_of rs <->
  exists reply, (id, reply) ∈ rs /\ reply_error reply = Some None.
Proof.
  unfold closed_of. rewrite list_elem_of_fmap. split.
  - intros ([id' reply] & -> & Hin). apply list_elem_of_In, filter_In in Hin as [Hin Hs].
    exists reply. split; [apply list_elem_of_In, Hin|].
    unfold succeeded in Hs. simpl in Hs.
    destruct (reply_error reply) as [[|]|]; try discriminate. reflexivity.
  - intros (reply & Hin & Hre). exists (id, reply). split; [reflexivity|].
    apply list_elem_of_In, filter_In. split; [apply list_elem_of_In, Hin|].
    unfold succeeded. simpl. rewrite Hre. reflexivity.
Qed.

(** C6. With a non-empty cache of open orders and an exchange whose
    replies carry an error list, [orders_close_all] calls the exchange
    client once for every cached order, in order, whatever the earlier
    calls returned; it sends one failure report for each order whose call
    came back with an error; and its last message lists exactly the orders
    whose call came back without one. *)
Theorem orders_close_all_tolerant env update w :
  well_formed_transport env ->
  orders w <> [] ->
  let ids := map fst (orders w) in
  let rs := cancel_replies env ids (attempts w) in
  exists evs n,
    orders_close_all env update w
      = (Ok (match closed_of rs with [] => ReturnsNone | _ => END end),
         extend w evs n)
    /\ calls evs = map cancel_request ids
    /\ messages evs
       = (mkMessage ToChat (Utils.emo_wa +:+ " Closing orders...") None false
          :: close_reports (length ids) 0 rs ++ [close_summary (closed_of rs)])%list
    /\ map fst rs = ids
    /\ (forall id, id ∈ closed_of rs <->
          exists reply, (id, reply) ∈ rs /\ reply_error reply = Some None).
Proof.
  intros Hwf Hne ids rs.
  unfold orders_close_all.
  rewrite bind_unfold, reply_text_run. rewrite bind_unfold.
  unfold get_orders at 1. cbv beta iota.
  change (orders (extend w _ _)) with (orders w).
  destruct (orders w) as [|o os] eqn:Ho; [contradiction|].
  rewrite bind_unfold.
  destruct (close_each_spec env update (length (o :: os)) Hwf (o :: os) 0 []
              (extend w [Sent (mkMessage ToChat (Utils.emo_wa +:+ " Closing orders...")
                                 None false)] (attempts w)))
    as (evs & n & Hq & Hcalls & Hmsgs).
  simpl attempts in Hq, Hmsgs.
  change ([] ++ ?l)%list with l in Hq. rewrite Hq, extend_extend. cbv beta iota.
  fold ids in Hcalls, Hmsgs |- *. fold rs in Hmsgs |- *.
  assert (Hlen : length (o :: os) = length ids) by (unfold ids; rewrite length_map; reflexivity).
  rewrite Hlen in Hmsgs.
  destruct (closed_of rs) as [|c cs] eqn:Hcl.
  - rewrite bind_unfold, reply_text_run, extend_extend.
    eexists _, n. split; [reflexivity|].
    rewrite !calls_app, !messages_app, Hcalls, Hmsgs.
    split; [rewrite app_nil_r; reflexivity|]. split; [reflexivity|].
    split; [apply cancel_replies_ids|]. rewrite <- Hcl. apply closed_of_spec.
  - rewrite bind_unfold, keyboard_cmds_run. rewrite bind_unfold, reply_text_run, extend_extend.
    eexists _, n. split; [reflexivity|].
    rewrite !calls_app, !messages_app, Hcalls, Hmsgs.
    split; [rewrite app_nil_r; reflexivity|]. split; [reflexivity|].
    split; [apply cancel_replies_ids|]. rewrite <- Hcl. apply closed_of_spec.
Qed.

(** ** The order monitor *)

Ltac run_monad :=
  cbv beta iota zeta delta
    [bind ret raise lift tell emit getitem getitem_at first_item as_str
     job_context schedule_removal logger send_owner reply_text btfy_json
     json_is trim_zeros_str].

Ltac split_match :=
  match goal with
  | |- context [match ?x with _ => _ end] =>
      lazymatch x with
      | context [match _ with _ => _ end] => fail
      | _ => destruct x eqn:?
      end
  end.

Ltac clean_eqs :=
  repeat match goal with
  | H : Some _ = Some _ |- _ => injection H as H
  | H : JStr _ = JStr _ |- _ => injection H as H
  | H : Ok _ = Ok _ |- _ => injection H as H
  | H : String.eqb _ _ = true |- _ => apply String.eqb_eq in H
  | H : ?x = _ |- _ => is_var x; subst x
  | H : _ = ?x |- _ => is_var x; subst x
  end.

Lemma order_state_check_run env i txid interval w :
  jobs w !! i = Some (mkJob (JStr txid) interval false) ->
  let '(reply, evs_q, n) :=
    run_query env (query_orders_request (JStr txid)) (attempts w) in
  exists r evs js,
    order_state_check env i w
      = (r, mkWorld n (events w ++ evs_q ++ evs) (chat_data w) js (orders w))
    /\ (polled_status reply txid = Some (JStr "canceled") ->
          r = Ok tt /\ messages evs = [] /\ removals evs = [JStr txid]
          /\ js = remove_job i (jobs w))
    /\ (polled_status reply txid = Some (JStr "closed") ->
          forall desc, polled_description reply txid = Some desc ->
          r = Ok tt /\ messages evs = [executed_message txid desc]
          /\ removals evs = [JStr txid] /\ js = remove_job i (jobs w))
    /\ (polled_status reply txid = Some (JStr "closed") ->
        polled_description reply txid = None ->
          removals evs = [] /\ js = jobs w)
    /\ (polled_status reply txid <> Some (JStr "canceled") ->
        polled_status reply txid <> Some (JStr "closed") ->
          removals evs = [] /\ js = jobs w).
Proof.
  intros Hjob.
  destruct (run_query env (query_orders_request (JStr txid)) (attempts w))
    as [[reply evs_q] n] eqn:Hrun.
  unfold order_state_check.
  rewrite bind_unfold. unfold job_context at 1. rewrite Hjob. cbv beta iota. simpl job_txid.
  rewrite bind_unfold, query_run. fold (query_orders_request (JStr txid)). rewrite Hrun.
  cbv beta iota.
  unfold polled_status, polled_description, polled_order, remove_job.
  rewrite Hjob. run_monad. unfold extend.
  repeat first
    [ progress cbn [attempts events chat_data jobs orders job_txid job_interval]
    | rewrite Hjob
    | split_match ].
  all: first
    [ eexists _, [], _; split; [rewrite ?app_nil_r; reflexivity|]
    | eexists _, _, _; split; [rewrite <- ?app_assoc; reflexivity|] ].
  all: repeat split; intros; clean_eqs; try discriminate; try congruence;
       try reflexivity.
Qed.

(** One firing of the timer, for a job already removed and for an active one. *)
Lemma tick_run env i j w :
  jobs w !! i = Some j ->
  (job_removed j = true -> tick env i w = (Ok tt, w))
  /\ (job_removed j = false ->
      forall txid, job_txid j = JStr txid ->
      let '(reply, evs_q, n) :=
        run_query env (query_orders_request (JStr txid)) (attempts w) in
      exists r evs js,
        tick env i w
          = (r, mkWorld n (events w ++ evs_q ++ evs) (chat_data w) js (orders w))
        /\ (polled_status reply txid = Some (JStr "canceled") ->
              r = Ok tt /\ messages evs = [] /\ removals evs = [JStr txid]
              /\ js = remove_job i (jobs w))
        /\ (polled_status reply txid = Some (JStr "closed") ->
              forall desc, polled_description reply txid = Some desc ->
              r = Ok tt /\ messages evs = [executed_message txid desc]
              /\ removals evs = [JStr txid] /\ js = remove_job i (jobs w))
        /\ (polled_status reply txid = Some (JStr "closed") ->
            polled_description reply txid = None ->
              removals evs = [] /\ js = jobs w)
        /\ (polled_status reply txid <> Some (JStr "canceled") ->
            polled_status reply txid <> Some (JStr "closed") ->
              removals evs = [] /\ js = jobs w)).
Proof.
  intros Hjob. split.
  - intros Hrem. unfold tick. rewrite Hjob, Hrem. reflexivity.
  - intros Hact txid Htx. unfold tick. rewrite Hjob, Hact.
    destruct j as [t iv rm]. simpl in *. subst t rm.
    apply (order_state_check_run env i txid iv w Hjob).
Qed.

(** Over any number of ticks the job of an order is removed at most once,
    and once it is removed the ticks leave the world as it is. *)
Lemma ticks_remove_once env i txid interval : forall k w,
  (exists rm, jobs w !! i = Some (mkJob (JStr txid) interval rm)) ->
  exists evs,
    events (ticks env i k w) = (events w ++ evs)%list
    /\ (length (removals evs) <= 1)%nat
    /\ (removals evs <> [] ->
        jobs (ticks env i k w) !! i = Some (mkJob (JStr txid) interval true)).
Proof.
  assert (Hdone : forall k w,
            jobs w !! i = Some (mkJob (JStr txid) interval true) ->
            ticks env i k w = w).
  { induction k as [|k IH]; intros w Hj; [reflexivity|]. simpl.
    destruct (tick_run env i _ w Hj) as [H _].
    rewrite (H eq_refl). simpl. apply IH, Hj. }
  induction k as [|k IH]; intros w [rm Hj].
  - exists []. simpl. rewrite app_nil_r. repeat split; [lia | congruence].
  - destruct rm.
    { rewrite (Hdone _ _ Hj). exists []. rewrite app_nil_r.
      repeat split; [simpl; lia | intros; assumption]. }
    simpl.
    destruct (tick_run env i _ w Hj) as [_ H].
    specialize (H eq_refl txid eq_refl).
    destruct (run_query env (query_orders_request (JStr txid)) (attempts w))
      as [[reply evs_q] n] eqn:Hrun.
    destruct (run_query_spec _ _ _ _ _ _ Hrun) as (_ & _ & Hrq & _).
    destruct H as (r & evs & js & -> & Hcan & Hclo & Hclo' & Hoth). simpl snd.
    assert (Hcases :
      (removals evs = [] /\ js = jobs w)
      \/ (removals evs = [JStr txid] /\ js = remove_job i (jobs w))).
    { destruct (polled_status reply txid) as [[| | | |s| |]|];
        try (left; apply Hoth; discriminate).
      destruct (String.eqb_spec s "canceled") as [->|Hs1].
      { right. destruct (Hcan eq_refl) as (_ & _ & ? & ?). auto. }
      destruct (String.eqb_spec s "closed") as [->|Hs2].
      { destruct (polled_description reply txid) as [desc|] eqn:Hd.
        - right. destruct (Hclo eq_refl desc eq_refl) as (_ & _ & ? & ?). auto.
        - left. apply Hclo'; reflexivity. }
      left. apply Hoth; congruence. }
    destruct Hcases as [[Hr ->]|[Hr ->]].
    + destruct (IH (mkWorld n (events w ++ evs_q ++ evs) (chat_data w) (jobs w) (orders w)))
        as (evs' & He & Hl & Hj').
      { exists false. exact Hj. }
      exists ((evs_q ++ evs) ++ evs')%list. rewrite He. simpl.
      rewrite <- !app_assoc. split; [reflexivity|].
      unfold removals in *. rewrite !omap_app. rewrite Hrq, Hr. simpl.
      split; assumption.
    + assert (Hj2 : remove_job i (jobs w) !! i = Some (mkJob (JStr txid) interval true)).
      { unfold remove_job. rewrite Hj. simpl.
        apply list_lookup_insert_eq. apply lookup_lt_Some in Hj. exact Hj. }
      rewrite Hdone by exact Hj2.
      exists (evs_q ++ evs)%list. simpl. split; [reflexivity|].
      unfold removals in *. rewrite omap_app, Hrq, Hr. simpl.
      split; [lia | intros _; exact Hj2].
Qed.

(** While every poll fails or finds another status than [closed] and
    [canceled], the job stays active and nothing is removed, however many
    ticks there are. *)
Lemma ticks_keep_polling env i txid interval :
  (forall n, let '(reply, _, _) :=
               run_query env (query_orders_request (JStr txid)) n in
             polled_status reply txid <> Some (JStr "canceled")
             /\ polled_status reply txid <> Some (JStr "closed")) ->
  forall k w,
  jobs w !! i = Some (mkJob (JStr txid) interval false) ->
  exists evs,
    events (ticks env i k w) = (events w ++ evs)%list
    /\ removals evs = []
    /\ jobs (ticks env i k w) !! i = Some (mkJob (JStr txid) interval false).
Proof.
  intros Hpoll. induction k as [|k IH]; intros w Hj.
  - exists []. simpl. rewrite app_nil_r. repeat split. exact Hj.
  - simpl.
    destruct (tick_run env i _ w Hj) as [_ H].
    specialize (H eq_refl txid eq_refl). specialize (Hpoll (attempts w)).
    destruct (run_query env (query_orders_request (JStr txid)) (attempts w))
      as [[reply evs_q] n] eqn:Hrun.
    destruct (run_query_spec _ _ _ _ _ _ Hrun) as (_ & _ & Hrq & _).
    destruct H as (r & evs & js & -> & _ & _ & _ & Hoth). simpl snd.
    destruct Hpoll as [H1 H2]. destruct (Hoth H1 H2) as [Hr ->].
    destruct (IH (mkWorld n (events w ++ evs_q ++ evs) (chat_data w) (jobs w) (orders w)) Hj)
      as (evs' & He & Hr' & Hj').
    exists ((evs_q ++ evs) ++ evs')%list. rewrite He. simpl.
    rewrite <- !app_assoc. split; [reflexivity|]. split; [|exact Hj'].
    unfold removals in *. rewrite !omap_app, Hrq, Hr, Hr'. reflexivity.
Qed.

(** C5. For the monitor job of an order: a tick of a job scheduled for
    removal does nothing. A tick of an active job polls the order; on
    status [canceled] it removes the job and sends nothing; on status
    [closed] (the description of the order being readable) it sends the
    owner the trade-executed message with the order id and the description
    and removes the job; on a failed poll, on any other status, and when
    the tick raises, it removes nothing and the job stays active. Over any
    number of ticks the job is removed at most once, and never while no
    poll finds [closed] or [canceled]. *)
Theorem monitor_removes_once_on_terminal_status env i txid interval rm w :
  jobs w !! i = Some (mkJob (JStr txid) interval rm) ->
  (rm = true -> tick env i w = (Ok tt, w))
  /\ (rm = false ->
      let '(reply, evs_q, n) :=
        run_query env (query_orders_request (JStr txid)) (attempts w) in
      exists r evs js,
        tick env i w
          = (r, mkWorld n (events w ++ evs_q ++ evs) (chat_data w) js (orders w))
        /\ (polled_status reply txid = Some (JStr "canceled") ->
              r = Ok tt /\ messages evs = [] /\ removals evs = [JStr txid]
              /\ js = remove_job i (jobs w))
        /\ (polled_status reply txid = Some (JStr "closed") ->
              forall desc, polled_description reply txid = Some desc ->
              r = Ok tt /\ messages evs = [executed_message txid desc]
              /\ removals evs = [JStr txid] /\ js = remove_job i (jobs w))
        /\ (polled_status reply txid = Some (JStr "closed") ->
            polled_description reply txid = None ->
              removals evs = [] /\ js = jobs w)
        /\ (polled_status reply txid <> Some (JStr "canceled") ->
            polled_status reply txid <> Some (JStr "closed") ->
              removals evs = [] /\ js = jobs w))
  /\ (forall k, exists evs,
        events (ticks env i k w) = (events w ++ evs)%list
        /\ (length (removals evs) <= 1)%nat
        /\ (removals evs <> [] ->
            jobs (ticks env i k w) !! i = Some (mkJob (JStr txid) interval true)))
  /\ ((forall n, let '(reply, _, _) :=
                   run_query env (query_orders_request (JStr txid)) n in
                 polled_status reply txid <> Some (JStr "canceled")
                 /\ polled_status reply txid <> Some (JStr "closed")) ->
      rm = false ->
      forall k, exists evs,
        events (ticks env i k w) = (events w ++ evs)%list
        /\ removals evs = []
        /\ jobs (ticks env i k w) !! i = Some (mkJob (JStr txid) interval false)).
Proof.
  intros Hjob.
  destruct (tick_run env i _ w Hjob) as [H1 H2]. simpl in H1, H2.
  split; [exact H1|]. split; [|split].
  - intros Hrm. apply (H2 Hrm txid eq_refl).
  - intros k. apply ticks_remove_once. exists rm. exact Hjob.
  - intros Hpoll -> k. apply (ticks_keep_polling env i txid interval Hpoll k w Hjob).
Qed.

(** ** The minimum order size in the volume handlers *)

Lemma SFcompare_antisym x y :
  SFcompare y x = option_map CompOpp (SFcompare x y).
Proof.
  destruct x as [sx|sx| |sx mx ex], y as [sy|sy| |sy my ey]; simpl;
    try reflexivity;
    try (destruct sx; reflexivity); try (destruct sy; reflexivity);
    try (destruct sx, sy; reflexivity).
  destruct sx, sy; simpl; try reflexivity;
    rewrite (Z.compare_antisym ex ey); destruct (ex ?= ey); simpl; try reflexivity;
    rewrite (Pos.compare_cont_antisym _ _ Eq); simpl;
    try rewrite CompOpp_involutive; reflexivity.
Qed.

Lemma leb_not_ltb l v : PyFloat.leb l v = true -> PyFloat.ltb v l = false.
Proof.
  unfold PyFloat.leb, SFleb, PyFloat.ltb, SFltb. rewrite (SFcompare_antisym l v).
  destruct (SFcompare l v) as [[]|]; simpl; congruence.
Qed.

Ltac run_scratch :=
  cbv beta iota zeta delta
    [bind ret raise lift tell emit cd_get cd_set cd_str cd_is cd_truth cd_mem
     logger reply_text float_of_json float_of_str set_scratch extend];
  cbn [attempts events chat_data jobs orders].

Lemma check_limit_low env update w c limit l vol v :
  chat_data w !! "currency" = Some (JStr c) ->
  chat_data w !! "volume" = Some (JStr vol) ->
  limits env !! c = Some limit ->
  PyFloat.of_string limit = Some l ->
  PyFloat.of_string vol = Some v ->
  PyFloat.ltb v l = true ->
  check_limit_and_confirm env update ChatData w
  = (Ok (Goto TRADE_VOLUME), extend w (too_low_events limit) (attempts w)).
Proof.
  intros Hc Hv Hlim Hl Hvol Hlt.
  unfold check_limit_and_confirm. run_scratch.
  rewrite Hc, Hlim. run_scratch. rewrite Hv. simpl to_float. rewrite Hvol, Hl.
  cbv beta iota. rewrite Hlt. rewrite cancel_keyboard_run. run_scratch.
  unfold too_low_events. rewrite <- !app_assoc. reflexivity.
Qed.

Lemma check_limit_high env update w c limit l vol v :
  chat_data w !! "currency" = Some (JStr c) ->
  chat_data w !! "volume" = Some (JStr vol) ->
  limits env !! c = Some limit ->
  PyFloat.of_string limit = Some l ->
  PyFloat.of_string vol = Some v ->
  PyFloat.ltb v l = false ->
  proceeds_to_confirmation env update
    (check_limit_and_confirm env update ChatData w) w.
Proof.
  intros Hc Hv Hlim Hl Hvol Hlt.
  unfold proceeds_to_confirmation, check_limit_and_confirm. run_scratch.
  rewrite Hc, Hlim. run_scratch. rewrite Hv. simpl to_float. rewrite Hvol, Hl.
  cbv beta iota. rewrite Hlt.
  destruct (trade_show_conf env update ChatData w) as [[[]|e] w2]; reflexivity.
Qed.

Lemma check_limit_unknown env update w c :
  chat_data w !! "currency" = Some (JStr c) ->
  limits env !! c = None ->
  proceeds_to_confirmation env update
    (check_limit_and_confirm env update ChatData w)
    (extend w [Log WARNING ("No minimum order limit in config for coin " +:+ c)]
       (attempts w)).
Proof.
  intros Hc Hlim.
  unfold proceeds_to_confirmation, check_limit_and_confirm. run_scratch.
  rewrite Hc, Hlim. run_scratch.
  destruct (trade_show_conf env update ChatData _) as [[[]|e] w2]; reflexivity.
Qed.

Lemma trade_volume_run env update w amount :
  PyFloat.of_string (PyStr.replace_char "," "." (text update)) = Some amount ->
  trade_volume env update ChatData w
  = check_limit_and_confirm env update ChatData
      (set_scratch w "volume" (JStr (PyFloat.format_8f amount))).
Proof.
  intros Ha. unfold trade_volume. run_scratch. simpl to_float. rewrite Ha. reflexivity.
Qed.

Lemma trade_volume_asset_run env update w amount price p q :
  PyFloat.of_string (PyStr.replace_char "," "." (text update)) = Some amount ->
  chat_data w !! "price" = Some price ->
  to_float price = Ok p ->
  PyFloat.div amount p = Some q ->
  trade_volume_asset env update ChatData w
  = check_limit_and_confirm env update ChatData
      (set_scratch w "volume" (JStr (PyFloat.format_8f q))).
Proof.
  intros Ha Hp Hf Hq. unfold trade_volume_asset. run_scratch. simpl to_float.
  rewrite Ha. cbv beta iota. rewrite Hp, Hf. cbv beta iota. rewrite Hq. reflexivity.
Qed.

(** C8. With a minimum order size configured for the traded currency, the
    two volume handlers compare the volume they computed (rounded to eight
    decimals) with the minimum: a volume strictly below it is rejected, the
    user is told and the conversation returns to the volume entry; a volume
    equal to or above it is accepted and the handler goes on to the
    confirmation. *)
Theorem volume_handlers_check_minimum env update w c limit l :
  chat_data w !! "currency" = Some (JStr c) ->
  limits env !! c = Some limit ->
  PyFloat.of_string limit = Some l ->
  (forall amount v,
     PyFloat.of_string (PyStr.replace_char "," "." (text update)) = Some amount ->
     PyFloat.of_string (PyFloat.format_8f amount) = Some v ->
     let w1 := set_scratch w "volume" (JStr (PyFloat.format_8f amount)) in
     (PyFloat.ltb v l = true ->
        trade_volume env update ChatData w
        = (Ok (Goto TRADE_VOLUME), extend w1 (too_low_events limit) (attempts w)))
     /\ (PyFloat.leb l v = true ->
        proceeds_to_confirmation env update (trade_volume env update ChatData w) w1))
  /\ (forall amount price p q v,
     PyFloat.of_string (PyStr.replace_char "," "." (text update)) = Some amount ->
     chat_data w !! "price" = Some price ->
     to_float price = Ok p ->
     PyFloat.div amount p = Some q ->
     PyFloat.of_string (PyFloat.format_8f q) = Some v ->
     let w1 := set_scratch w "volume" (JStr (PyFloat.format_8f q)) in
     (PyFloat.ltb v l = true ->
        trade_volume_asset env update ChatData w
        = (Ok (Goto TRADE_VOLUME), extend w1 (too_low_events limit) (attempts w)))
     /\ (PyFloat.leb l v = true ->
        proceeds_to_confirmation env update
          (trade_volume_asset env update ChatData w) w1)).
Proof.
  intros Hc Hlim Hl.
  assert (Hc1 : forall vol, chat_data (set_scratch w "volume" (JStr vol)) !! "currency"
                            = Some (JStr c)).
  { intros vol. simpl. rewrite lookup_insert_ne by discriminate. exact Hc. }
  assert (Hv1 : forall vol, chat_data (set_scratch w "volume" (JStr vol)) !! "volume"
                            = Some (JStr vol)).
  { intros vol. simpl. apply lookup_insert_eq. }
  split.
  - intros amount v Ha Hv w1. rewrite (trade_volume_run _ _ _ _ Ha). split; intros Hcmp.
    + change (attempts w) with (attempts w1).
      apply (check_limit_low env update w1 c limit l (PyFloat.format_8f amount) v);
        subst w1; auto.
    + apply (check_limit_high env update w1 c limit l (PyFloat.format_8f amount) v);
        subst w1; auto using leb_not_ltb.
  - intros amount price p q v Ha Hp Hf Hq Hv w1.
    rewrite (trade_volume_asset_run _ _ _ _ _ _ _ Ha Hp Hf Hq). split; intros Hcmp.
    + change (attempts w) with (attempts w1).
      apply (check_limit_low env update w1 c limit l (PyFloat.format_8f q) v);
        subst w1; auto.
    + apply (check_limit_high env update w1 c limit l (PyFloat.format_8f q) v);
        subst w1; auto using leb_not_ltb.
Qed.

(** C4 (as the code has it). With no minimum order size configured for the
    traded currency, the two volume handlers write a warning to the log,
    send the user nothing about it, and go on to the confirmation. *)
Theorem volume_handlers_unknown_minimum env update w c :
  chat_data w !! "currency" = Some (JStr c) ->
  limits env !! c = None ->
  let warning := [Log WARNING ("No minimum order limit in config for coin " +:+ c)] in
  (forall amount,
     PyFloat.of_string (PyStr.replace_char "," "." (text update)) = Some amount ->
     proceeds_to_confirmation env update (trade_volume env update ChatData w)
       (extend (set_scratch w "volume" (JStr (PyFloat.format_8f amount)))
          warning (attempts w)))
  /\ (forall amount price p q,
     PyFloat.of_string (PyStr.replace_char "," "." (text update)) = Some amount ->
     chat_data w !! "price" = Some price ->
     to_float price = Ok p ->
     PyFloat.div amount p = Some q ->
     proceeds_to_confirmation env update (trade_volume_asset env update ChatData w)
       (extend (set_scratch w "volume" (JStr (PyFloat.format_8f q)))
          warning (attempts w))).
Proof.
  intros Hc Hlim warning.
  assert (Hc1 : forall vol, chat_data (set_scratch w "volume" (JStr vol)) !! "currency"
                            = Some (JStr c)).
  { intros vol. simpl. rewrite lookup_insert_ne by discriminate. exact Hc. }
  split.
  - intros amount Ha. rewrite (trade_volume_run _ _ _ _ Ha).
    apply (check_limit_unknown env update _ c (Hc1 _) Hlim).
  - intros amount price p q Ha Hp Hf Hq.
    rewrite (trade_volume_asset_run _ _ _ _ _ _ _ Ha Hp Hf Hq).
    apply (check_limit_unknown env update _ c (Hc1 _) Hlim).
Qed.

(** ** What a computation leaves as it is *)

Section Preserves.
Variable R : World -> World -> Prop.
Hypothesis R_refl : forall w, R w w.
Hypothesis R_trans : forall w1 w2 w3, R w1 w2 -> R w2 w3 -> R w1 w3.

Lemma preserves_ret {A} (a : A) : preserves R (ret a).
Proof. intros w r w' [= <- <-]. apply R_refl. Qed.

Lemma preserves_raise {A} e : preserves R (@raise A e).
Proof. intros w r w' [= <- <-]. apply R_refl. Qed.

Lemma preserves_lift {A} (x : res A) : preserves R (lift x).
Proof. intros w r w' [= <- <-]. apply R_refl. Qed.

Lemma preserves_bind {A B} (c : M A) (k : A -> M B) :
  preserves R c -> (forall a, preserves R (k a)) -> preserves R (bind c k).
Proof.
  intros Hc Hk w r w'. rewrite bind_unfold.
  destruct (c w) as [[a|e] w1] eqn:E.
  - intros H. apply (R_trans _ w1); [apply (Hc _ _ _ E) | apply (Hk a _ _ _ H)].
  - intros [= <- <-]. apply (Hc _ _ _ E).
Qed.

Lemma preserves_for_each {A} (l : list A) (body : A -> M unit) :
  (forall x, preserves R (body x)) -> preserves R (for_each l body).
Proof.
  intros Hb. induction l as [|x l IH]; simpl.
  - apply preserves_ret.
  - apply preserves_bind; [apply Hb | intros _; exact IH].
Qed.

End Preserves.

Lemma scratch_kept_refl w : scratch_kept w w.
Proof. intros k _. reflexivity. Qed.

Lemma scratch_kept_trans w1 w2 w3 :
  scratch_kept w1 w2 -> scratch_kept w2 w3 -> scratch_kept w1 w3.
Proof. intros H1 H2 k Hk. rewrite (H2 k Hk). apply (H1 k Hk). Qed.

Lemma readonly_kept {A} (c : M A) : preserves eq c -> preserves scratch_kept c.
Proof. intros H w r w' E. rewrite (H _ _ _ E). apply scratch_kept_refl. Qed.

Create HintDb readonly.

Ltac solve_rel :=
  first [ exact scratch_kept_refl | exact scratch_kept_trans
        | exact (@eq_refl World) | exact (@eq_trans World) ].

Ltac preserves_step :=
  match goal with
  | |- preserves _ (bind _ _) => apply preserves_bind; [solve_rel | | intros ?]
  | |- preserves _ (ret _) => apply preserves_ret; solve_rel
  | |- preserves _ (raise _) => apply preserves_raise; solve_rel
  | |- preserves _ (lift _) => apply preserves_lift; solve_rel
  | |- preserves _ (if ?b then _ else _) => destruct b
  | |- preserves _ (match ?x with _ => _ end) => destruct x
  | |- preserves eq _ => solve [auto with readonly]
  | |- preserves scratch_kept _ => solve [apply readonly_kept; auto with readonly]
  end.

(** Computations that only read. *)
Lemma getitem_readonly j k : preserves eq (getitem j k).
Proof. unfold getitem. repeat preserves_step. Qed.
#[local] Hint Resolve getitem_readonly : readonly.

Lemma getitem_at_readonly j k : preserves eq (getitem_at j k).
Proof. unfold getitem_at. repeat preserves_step. Qed.
#[local] Hint Resolve getitem_at_readonly : readonly.

Lemma first_item_readonly j : preserves eq (first_item j).
Proof. unfold first_item. repeat preserves_step. Qed.
#[local] Hint Resolve first_item_readonly : readonly.

Lemma as_str_readonly j : preserves eq (as_str j).
Proof. unfold as_str. repeat preserves_step. Qed.
#[local] Hint Resolve as_str_readonly : readonly.

Lemma iterate_readonly j : preserves eq (iterate j).
Proof. unfold iterate. repeat preserves_step. Qed.
#[local] Hint Resolve iterate_readonly : readonly.

Lemma float_of_json_readonly j : preserves eq (float_of_json j).
Proof. unfold float_of_json. repeat preserves_step. Qed.
#[local] Hint Resolve float_of_json_readonly : readonly.

Lemma cd_get_readonly d k : preserves eq (cd_get d k).
Proof. intros w r w'. unfold cd_get. destruct (chat_data w !! k); intros [= <- <-]; reflexivity. Qed.
#[local] Hint Resolve cd_get_readonly : readonly.

Lemma cd_str_readonly d k : preserves eq (cd_str d k).
Proof. unfold cd_str. repeat preserves_step. Qed.
#[local] Hint Resolve cd_str_readonly : readonly.

Lemma cd_truth_readonly d k : preserves eq (cd_truth d k).
Proof. unfold cd_truth. repeat preserves_step. Qed.
#[local] Hint Resolve cd_truth_readonly : readonly.

Lemma cd_is_readonly d k s : preserves eq (cd_is d k s).
Proof. unfold cd_is. repeat preserves_step. Qed.
#[local] Hint Resolve cd_is_readonly : readonly.

Lemma altname_readonly env code : preserves eq (altname env code).
Proof. unfold altname. repeat preserves_step. Qed.
#[local] Hint Resolve altname_readonly : readonly.

Lemma pair_of_readonly env coin : preserves eq (pair_of env coin).
Proof. unfold pair_of. repeat preserves_step. Qed.
#[local] Hint Resolve pair_of_readonly : readonly.

Lemma token_readonly l n : preserves eq (token l n).
Proof. unfold token. repeat preserves_step. Qed.
#[local] Hint Resolve token_readonly : readonly.

Lemma trim_zeros_str_readonly v : preserves eq (trim_zeros_str v).
Proof. unfold trim_zeros_str. repeat preserves_step. Qed.
#[local] Hint Resolve trim_zeros_str_readonly : readonly.

Lemma keyboard_readonly b n f : preserves eq (keyboard b n f).
Proof. unfold keyboard. repeat preserves_step. Qed.
#[local] Hint Resolve keyboard_readonly : readonly.

Lemma order_desc_list_readonly open order : preserves eq (order_desc_list open order).
Proof.
  unfold order_desc_list. repeat preserves_step.
Qed.
#[local] Hint Resolve order_desc_list_readonly : readonly.

Lemma vol_all_buy_orders_readonly open ids : forall avail,
  preserves eq (vol_all_buy_orders open ids avail).
Proof.
  induction ids as [|order rest IH]; intros avail; simpl; unfold float_of_str;
    repeat preserves_step; auto.
Qed.
#[local] Hint Resolve vol_all_buy_orders_readonly : readonly.

Lemma order_currency_in_readonly rest l : forall oc,
  preserves eq (order_currency_in rest l oc).
Proof.
  induction rest as [|[a alt] rest IH]; intros oc; simpl;
    repeat preserves_step; auto.
Qed.
#[local] Hint Resolve order_currency_in_readonly : readonly.

Lemma float_of_volume_readonly v : preserves eq (float_of_volume v).
Proof. unfold float_of_volume. repeat preserves_step. Qed.
#[local] Hint Resolve float_of_volume_readonly : readonly.

Lemma vol_all_sell_orders_readonly env open ids : forall av oc,
  preserves eq (vol_all_sell_orders env ChatData open ids av oc).
Proof.
  induction ids as [|order rest IH]; intros av oc; simpl; unfold float_of_str;
    repeat preserves_step; auto.
Qed.
#[local] Hint Resolve vol_all_sell_orders_readonly : readonly.

Lemma vol_all_buy_volume_readonly env res_balance res_orders :
  preserves eq (vol_all_buy_volume env ChatData res_balance res_orders).
Proof.
  unfold vol_all_buy_volume. repeat preserves_step.
Qed.
#[local] Hint Resolve vol_all_buy_volume_readonly : readonly.

Lemma vol_all_sell_volume_readonly env res_balance res_orders :
  preserves eq (vol_all_sell_volume env ChatData res_balance res_orders).
Proof.
  unfold vol_all_sell_volume. repeat preserves_step.
Qed.
#[local] Hint Resolve vol_all_sell_volume_readonly : readonly.

(** Computations that leave the scratch dictionary alone, but for [price]. *)
Lemma tell_kept e : preserves scratch_kept (tell e).
Proof. intros w r w' [= <- <-] k _. reflexivity. Qed.

Lemma reply_text_kept t m md : preserves scratch_kept (reply_text t m md).
Proof. apply tell_kept. Qed.

Lemma logger_kept l s : preserves scratch_kept (logger l s).
Proof. apply tell_kept. Qed.

Lemma cd_set_price_kept d v : preserves scratch_kept (cd_set d "price" v).
Proof.
  intros w r w' [= <- <-] k Hk. simpl. apply lookup_insert_ne. congruence.
Qed.

Lemma query_kept env method data private :
  preserves scratch_kept (Bot.query env method data private).
Proof.
  intros w r w'. rewrite query_run.
  destruct (run_query _ _ _) as [[j evs] n]. intros [= <- <-] k _. reflexivity.
Qed.

Create HintDb kept.
#[local] Hint Resolve tell_kept reply_text_kept logger_kept cd_set_price_kept
  query_kept : kept.

Ltac kept := repeat first [preserves_step | solve [auto with kept]].

Lemma handle_api_error_kept j update msg :
  preserves scratch_kept (handle_api_error j update msg).
Proof. unfold handle_api_error. kept. Qed.
#[local] Hint Resolve handle_api_error_kept : kept.

Lemma trade_show_conf_kept env update :
  preserves scratch_kept (trade_show_conf env update ChatData).
Proof. unfold trade_show_conf, keyboard_confirm. kept. Qed.

(** A negative volume is written with a minus sign. *)
Lemma format_8f_negative x :
  PyFloat.ltb x PyFloat.zero = true ->
  exists s, PyFloat.format_8f x = String "-" s.
Proof.
  unfold PyFloat.ltb, SFltb, PyFloat.zero.
  destruct x as [[]|[]| |[] m e]; simpl; try discriminate; intros _; eexists; reflexivity.
Qed.

(** ** All available funds *)

Lemma cd_str_run w k s :
  chat_data w !! k = Some (JStr s) -> cd_str ChatData k w = (Ok s, w).
Proof. intros H. unfold cd_str. rewrite bind_unfold. unfold cd_get. rewrite H. reflexivity. Qed.

Lemma cd_set_run w k v : cd_set ChatData k v w = (Ok tt, set_scratch w k v).
Proof. reflexivity. Qed.

Lemma cd_is_set_run w k s t :
  cd_is ChatData k t (set_scratch w k (JStr s)) = (Ok (String.eqb s t), set_scratch w k (JStr s)).
Proof.
  unfold cd_is. rewrite bind_unfold. unfold cd_get. simpl chat_data.
  rewrite lookup_insert_eq. reflexivity.
Qed.

Lemma trade_vol_all_prefix env update w res_balance evs1 n1 res_orders evs2 n2
    (k : json -> json -> M handler_result) :
  run_query env balance_request (attempts w) = (res_balance, evs1, n1) ->
  reply_error res_balance = Some None ->
  run_query env open_orders_request n1 = (res_orders, evs2, n2) ->
  reply_error res_orders = Some None ->
  (reply_text (Utils.emo_wa +:+ " Calculating volume...") None false ;;
   res_balance <- Bot.query env "Balance" None true ;;
   failed <- handle_api_error res_balance update "" ;;
   if failed then ret ReturnsNone
   else
     res_orders <- Bot.query env "OpenOrders" None true ;;
     failed <- handle_api_error res_orders update "" ;;
     if failed then ret ReturnsNone else k res_balance res_orders) w
  = k res_balance res_orders
      (extend w (Sent (mkMessage ToChat (Utils.emo_wa +:+ " Calculating volume...")
                         None false) :: evs1 ++ evs2) n2).
Proof.
  intros H1 He1 H2 He2.
  rewrite bind_unfold, reply_text_run.
  rewrite bind_unfold, query_run. simpl attempts. fold balance_request. rewrite H1.
  rewrite bind_unfold, (handle_api_error_none _ _ _ _ He1).
  rewrite bind_unfold, query_run. simpl attempts. fold open_orders_request. rewrite H2.
  rewrite bind_unfold, (handle_api_error_none _ _ _ _ He2).
  rewrite !extend_extend. reflexivity.
Qed.

(** C9. In [trade_vol_all], once the balance and the open orders are
    fetched and a volume is resolved, the handler goes on to the
    confirmation with that volume, formatted to eight decimals, unless the
    formatted volume is exactly the text [0.00000000]; the branch that
    reports that nothing is available is therefore taken only for that
    text. A strictly negative volume is formatted with a minus sign, so it
    is never that text and the handler goes on to the confirmation with the
    negative volume. *)
Theorem vol_all_stops_only_at_zero_text env update w b
    res_balance evs1 n1 res_orders evs2 n2 :
  chat_data w !! "buysell" = Some (JStr b) ->
  run_query env balance_request (attempts w) = (res_balance, evs1, n1) ->
  reply_error res_balance = Some None ->
  run_query env open_orders_request n1 = (res_orders, evs2, n2) ->
  reply_error res_orders = Some None ->
  let w2 := extend w (Sent (mkMessage ToChat (Utils.emo_wa +:+ " Calculating volume...")
                              None false) :: evs1 ++ evs2) n2 in
  (PyStr.upper b = "BUY" ->
   forall x w3,
     vol_all_buy_volume env ChatData res_balance res_orders w2 = (Ok x, w3) ->
     (PyFloat.format_8f x <> "0.00000000" ->
        proceeds_to_confirmation env update (trade_vol_all env update ChatData w)
          (set_scratch w2 "volume" (JStr (PyFloat.format_8f x))))
     /\ (PyFloat.ltb x PyFloat.zero = true ->
        (exists s, PyFloat.format_8f x = String "-" s)
        /\ proceeds_to_confirmation env update (trade_vol_all env update ChatData w)
             (set_scratch w2 "volume" (JStr (PyFloat.format_8f x)))))
  /\ (PyStr.upper b = "SELL" ->
   forall x w3,
     vol_all_sell_volume env ChatData res_balance res_orders w2 = (Ok x, w3) ->
     (PyFloat.format_8f x <> "0.00000000" ->
        proceeds_to_confirmation env update (trade_vol_all env update ChatData w)
          (set_scratch w2 "volume" (JStr (PyFloat.format_8f x))))
     /\ (PyFloat.ltb x PyFloat.zero = true ->
        (exists s, PyFloat.format_8f x = String "-" s)
        /\ proceeds_to_confirmation env update (trade_vol_all env update ChatData w)
             (set_scratch w2 "volume" (JStr (PyFloat.format_8f x))))).
Proof.
  intros Hb H1 He1 H2 He2 w2.
  assert (Hrun : forall k, _ = k res_balance res_orders w2)
    by (intros k; apply (trade_vol_all_prefix env update w _ _ _ _ _ _ k H1 He1 H2 He2)).
  assert (Hb2 : chat_data w2 !! "buysell" = Some (JStr b)) by exact Hb.
  assert (Hneg : forall x, PyFloat.ltb x PyFloat.zero = true ->
                           PyFloat.format_8f x <> "0.00000000").
  { intros x Hx. destruct (format_8f_negative x Hx) as [s ->]. discriminate. }
  split.
  - intros HB x w3 Hvol.
    assert (w3 = w2) as -> by (symmetry; apply (vol_all_buy_volume_readonly _ _ _ _ _ _ Hvol)).
    assert (Hgo : PyFloat.format_8f x <> "0.00000000" ->
              proceeds_to_confirmation env update (trade_vol_all env update ChatData w)
                (set_scratch w2 "volume" (JStr (PyFloat.format_8f x)))).
    { intros Hz. unfold proceeds_to_confirmation, trade_vol_all. rewrite Hrun.
      rewrite bind_unfold, (cd_str_run _ _ _ Hb2), HB.
      change (String.eqb "BUY" (clean BUY)) with true. cbv iota.
      rewrite bind_unfold, bind_unfold, Hvol. cbv beta iota.
      rewrite bind_unfold, cd_set_run. cbv beta iota.
      rewrite bind_unfold, cd_is_set_run. cbv beta iota.
      destruct (String.eqb_spec (PyFloat.format_8f x) "0.00000000") as [E|_];
        [contradiction|].
      rewrite bind_unfold.
      pose proof (trade_show_conf_kept env update
                    (set_scratch w2 "volume" (JStr (PyFloat.format_8f x)))) as Hk.
      destruct (trade_show_conf env update ChatData _) as [[[]|e] w5]; [|reflexivity].
      specialize (Hk _ _ eq_refl "buysell" ltac:(discriminate)).
      simpl chat_data in Hk. rewrite lookup_insert_ne in Hk by discriminate.
      unfold ret at 1. cbv beta iota.
      rewrite bind_unfold, (cd_str_run w5 "buysell" b) by (rewrite Hk; exact Hb).
      rewrite HB. change (String.eqb "BUY" (clean SELL)) with false. reflexivity. }
    split; [exact Hgo|]. intros Hx. split; [apply format_8f_negative, Hx|].
    apply Hgo, Hneg, Hx.
  - intros HS x w3 Hvol.
    assert (w3 = w2) as -> by (symmetry; apply (vol_all_sell_volume_readonly _ _ _ _ _ _ Hvol)).
    assert (Hgo : PyFloat.format_8f x <> "0.00000000" ->
              proceeds_to_confirmation env update (trade_vol_all env update ChatData w)
                (set_scratch w2 "volume" (JStr (PyFloat.format_8f x)))).
    { intros Hz. unfold proceeds_to_confirmation, trade_vol_all. rewrite Hrun.
      rewrite bind_unfold, (cd_str_run _ _ _ Hb2), HS.
      change (String.eqb "SELL" (clean BUY)) with false. cbv iota.
      rewrite bind_unfold. unfold ret at 1. cbv beta iota.
      rewrite bind_unfold, (cd_str_run _ _ _ Hb2), HS.
      change (String.eqb "SELL" (clean SELL)) with true. cbv iota.
      rewrite bind_unfold, bind_unfold, Hvol. cbv beta iota.
      rewrite bind_unfold, cd_set_run. cbv beta iota.
      rewrite bind_unfold, cd_is_set_run. cbv beta iota.
      destruct (String.eqb_spec (PyFloat.format_8f x) "0.00000000") as [E|_];
        [contradiction|].
      rewrite bind_unfold.
      destruct (trade_show_conf env update ChatData _) as [[[]|e] w5]; reflexivity. }
    split; [exact Hgo|]. intros Hx. split; [apply format_8f_negative, Hx|].
    apply Hgo, Hneg, Hx.
Qed.

(** ** Sell all *)

Lemma messages_error_report t :
  messages (error_report t) = [mkMessage ToChat (Utils.btfy t) None false].
Proof. reflexivity. Qed.

Lemma calls_error_report t : calls (error_report t) = [].
Proof. reflexivity. Qed.

Lemma sell_all_close_orders_stops env update : forall pre id post w e,
  map (fun p => reply_error (snd p)) (cancel_replies env (pre ++ [id]) (attempts w))
    = (map (fun _ => Some None) pre ++ [Some (Some e)])%list ->
  exists evs n,
    sell_all_close_orders env update (map JStr (pre ++ id :: post)) w
      = (Ok true, extend w evs n)
    /\ calls evs = map cancel_request (pre ++ [id])
    /\ messages evs = [not_closed_report id e].
Proof.
  induction pre as [|p pre IH]; intros id post w e Hrs;
    cbn [app map sell_all_close_orders]; cbn [app map cancel_replies] in Hrs.
  - rewrite bind_unfold, query_run. fold (cancel_request id).
    destruct (run_query env (cancel_request id) (attempts w)) as [[j evs1] n1] eqn:Hrun.
    destruct (run_query_spec _ _ _ _ _ _ Hrun) as (Hc & Hm & _).
    simpl in Hrs. injection Hrs as Hre. cbv beta iota.
    rewrite bind_unfold. unfold as_str at 1, ret at 1. cbv beta iota.
    rewrite bind_unfold, (handle_api_error_some _ _ _ _ _ Hre), extend_extend.
    cbv beta iota. unfold ret. simpl attempts.
    eexists _, n1. split; [reflexivity|].
    rewrite calls_app, messages_app, Hc, Hm, calls_error_report, messages_error_report.
    split; reflexivity.
  - rewrite bind_unfold, query_run. fold (cancel_request p).
    destruct (run_query env (cancel_request p) (attempts w)) as [[j evs1] n1] eqn:Hrun.
    destruct (run_query_spec _ _ _ _ _ _ Hrun) as (Hc & Hm & _).
    simpl in Hrs. injection Hrs as Hre Hrs. cbv beta iota.
    rewrite bind_unfold. unfold as_str at 1, ret at 1. cbv beta iota.
    rewrite bind_unfold, (handle_api_error_none _ _ _ _ Hre). cbv beta iota.
    destruct (IH id post (extend w evs1 n1) e Hrs) as (evs & n & Hq & Hcalls & Hmsgs).
    rewrite Hq, extend_extend.
    eexists _, n. split; [reflexivity|].
    rewrite calls_app, messages_app, Hc, Hm, Hcalls, Hmsgs. split; reflexivity.
Qed.

Lemma grows_refl w : grows w w.
Proof. exists []. rewrite app_nil_r. reflexivity. Qed.

Lemma grows_trans w1 w2 w3 : grows w1 w2 -> grows w2 w3 -> grows w1 w3.
Proof.
  intros [e1 H1] [e2 H2]. exists (e1 ++ e2)%list. rewrite H2, H1, app_assoc. reflexivity.
Qed.

Lemma readonly_grows {A} (c : M A) : preserves eq c -> preserves grows c.
Proof. intros H w r w' E. rewrite (H _ _ _ E). apply grows_refl. Qed.

Lemma tell_grows e : preserves grows (tell e).
Proof. intros w r w' [= <- <-]. exists [e]. reflexivity. Qed.

Lemma query_grows env method data private :
  preserves grows (Bot.query env method data private).
Proof.
  intros w r w'. rewrite query_run.
  destruct (run_query _ _ _) as [[j evs] n]. intros [= <- <-]. exists evs. reflexivity.
Qed.

Lemma run_repeating_grows interval txid : preserves grows (run_repeating interval txid).
Proof. intros w r w' [= <- <-]. eexists. reflexivity. Qed.

Ltac grows_step :=
  match goal with
  | |- preserves grows (bind _ _) =>
      apply (preserves_bind grows grows_trans); [|intros ?]
  | |- preserves grows (ret _) => apply (preserves_ret grows grows_refl)
  | |- preserves grows (raise _) => apply (preserves_raise grows grows_refl)
  | |- preserves grows (lift _) => apply (preserves_lift grows grows_refl)
  | |- preserves grows (tell _) => apply tell_grows
  | |- preserves grows (reply_text _ _ _) => apply tell_grows
  | |- preserves grows (logger _ _) => apply tell_grows
  | |- preserves grows (Bot.query _ _ _ _) => apply query_grows
  | |- preserves grows (run_repeating _ _) => apply run_repeating_grows
  | |- preserves grows (if ?b then _ else _) => destruct b
  | |- preserves grows (match ?x with _ => _ end) => destruct x
  | |- preserves grows _ => solve [apply readonly_grows; auto with readonly]
  end.

Lemma handle_api_error_grows j update msg :
  preserves grows (handle_api_error j update msg).
Proof. unfold handle_api_error. repeat grows_step. Qed.

Lemma sell_all_asset_grows env update code amount :
  preserves grows (sell_all_asset env update code amount).
Proof.
  unfold sell_all_asset, float_of_str.
  repeat first [apply handle_api_error_grows | grows_step].
Qed.

Lemma for_each_passed_over env update pre : forall rest w,
  Forall passed_over pre ->
  for_each (pre ++ rest) (fun kv => sell_all_asset env update (fst kv) (snd kv)) w
  = for_each rest (fun kv => sell_all_asset env update (fst kv) (snd kv)) w.
Proof.
  induction pre as [|[code amount] pre IH]; intros rest w Hpre; [reflexivity|].
  apply Forall_cons in Hpre as [Hkv Hpre].
  cbn [app for_each]. rewrite bind_unfold. cbn [fst snd].
  assert (Hone : sell_all_asset env update code amount w = (Ok tt, w)).
  { unfold sell_all_asset. destruct Hkv as [HZ|Hzero]; cbn [fst snd] in *.
    - rewrite HZ. reflexivity.
    - destruct (PyStr.startswith code "Z"); [reflexivity|]. rewrite Hzero. reflexivity. }
  rewrite Hone. apply IH, Hpre.
Qed.

(** A coin for sale whose add-order call comes back with an error: the
    error is reported and the turn of the loop ends there. *)
Lemma sell_all_asset_refused env update w1 code amount pair reply evs n e :
  for_sale env code amount pair ->
  run_query env (add_order_request pair amount) (attempts w1) = (reply, evs, n) ->
  reply_error reply = Some (Some e) ->
  sell_all_asset env update code amount w1
  = (Ok tt, extend w1 (evs ++ error_report e) n).
Proof.
  intros (HZ & Hamt & a & limit & fa & l & Ha & Hlim & Hfa & Hl & Hlt & Hpair) Hrun Hre.
  unfold sell_all_asset. rewrite HZ.
  assert (Hz : match amount with
               | JStr a0 => String.eqb a0 "0.0000000000"
               | _ => false
               end = false).
  { destruct amount; try reflexivity.
    destruct (String.eqb_spec s "0.0000000000"); [subst; contradiction | reflexivity]. }
  rewrite Hz. rewrite bind_unfold. unfold altname. rewrite Ha.
  unfold ret at 1. cbv beta iota. rewrite Hlim.
  rewrite bind_unfold. unfold float_of_json at 1, lift. rewrite Hfa. cbv beta iota.
  rewrite bind_unfold. unfold float_of_str, float_of_json, lift. simpl to_float.
  rewrite Hl. cbv beta iota. rewrite Hlt.
  rewrite bind_unfold. unfold pair_of. rewrite Hpair. unfold ret at 1. cbv beta iota.
  rewrite bind_unfold, query_run. fold (add_order_request pair amount).
  rewrite Hrun. cbv beta iota.
  rewrite bind_unfold, (handle_api_error_some _ _ _ _ _ Hre), extend_extend.
  reflexivity.
Qed.

(** A coin for sale: the add-order call is made, whatever comes of it. *)
Lemma sell_all_asset_asks env update w1 code amount pair reply evs n :
  for_sale env code amount pair ->
  run_query env (add_order_request pair amount) (attempts w1) = (reply, evs, n) ->
  exists r w2 tail,
    sell_all_asset env update code amount w1 = (r, w2)
    /\ events w2 = (events w1 ++ evs ++ tail)%list.
Proof.
  intros (HZ & Hamt & a & limit & fa & l & Ha & Hlim & Hfa & Hl & Hlt & Hpair) Hrun.
  unfold sell_all_asset. rewrite HZ.
  assert (Hz : match amount with
               | JStr a0 => String.eqb a0 "0.0000000000"
               | _ => false
               end = false).
  { destruct amount; try reflexivity.
    destruct (String.eqb_spec s "0.0000000000"); [subst; contradiction | reflexivity]. }
  rewrite Hz. rewrite bind_unfold. unfold altname. rewrite Ha.
  unfold ret at 1. cbv beta iota. rewrite Hlim.
  rewrite bind_unfold. unfold float_of_json at 1, lift. rewrite Hfa. cbv beta iota.
  rewrite bind_unfold. unfold float_of_str, float_of_json, lift. simpl to_float.
  rewrite Hl. cbv beta iota. rewrite Hlt.
  rewrite bind_unfold. unfold pair_of. rewrite Hpair. unfold ret at 1. cbv beta iota.
  rewrite bind_unfold, query_run. fold (add_order_request pair amount).
  rewrite Hrun. cbv beta iota.
  lazymatch goal with
  | |- exists r w2 tail, ?k ?w0 = (r, w2) /\ _ =>
      assert (Hk : preserves grows k)
        by (repeat first [apply handle_api_error_grows | grows_step]);
      destruct (k w0) as [r w2] eqn:E;
      destruct (Hk _ _ _ E) as [tail Htail]
  end.
  exists r, w2, tail. split; [reflexivity|].
  rewrite Htail. unfold extend. cbn [events]. rewrite app_assoc. reflexivity.
Qed.

Lemma for_each_grows {A} (l : list A) (body : A -> M unit) :
  (forall x, preserves grows (body x)) -> preserves grows (for_each l body).
Proof. apply (preserves_for_each grows grows_refl grows_trans). Qed.

(** C2 (as the code has it). In the sell-all batch a failed cancel-order
    call is reported and ends the batch: the handler returns at once, the
    open orders after the failed one are not cancelled, and no balance is
    read and no asset sold. A failed add-order call is reported and the
    loop goes on with the next asset: with no open order to cancel and a
    balance in which two coins are for sale (the entries before and between
    them being fiat currencies or empty balances), the handler asks the
    exchange to sell the first coin, reports the error that comes back, and
    then asks it to sell the second coin, whatever that call and the rest
    of the balance bring. *)
Theorem sell_all_failures env update w :
  String.eqb (PyStr.upper (text update)) "NO" = false ->
  (forall res_open evs0 n0 open pre id post e,
     run_query env open_orders_request (attempts w) = (res_open, evs0, n0) ->
     reply_error res_open = Some None ->
     open_orders_of res_open = Some open ->
     map fst open = (pre ++ id :: post)%list ->
     map (fun p => reply_error (snd p)) (cancel_replies env (pre ++ [id]) n0)
       = (map (fun _ => Some None) pre ++ [Some (Some e)])%list ->
     exists evs n,
       trade_sell_all_confirm env update w = (Ok ReturnsNone, extend w evs n)
       /\ calls evs = open_orders_request :: map cancel_request (pre ++ [id])
       /\ messages evs
          = [mkMessage ToChat (Utils.emo_wa +:+ " Preparing to sell everything...")
               None false;
             not_closed_report id e])
  /\ (forall res_open evs0 n0 res_balance evs1 n1
             pre code amount mid code' amount' post
             pair reply evs2 n2 e pair' reply' evs3 n3,
     run_query env open_orders_request (attempts w) = (res_open, evs0, n0) ->
     reply_error res_open = Some None ->
     open_orders_of res_open = Some [] ->
     run_query env balance_request n0 = (res_balance, evs1, n1) ->
     reply_error res_balance = Some None ->
     balances_of res_balance
       = Some (pre ++ (code, amount) :: mid ++ (code', amount') :: post)%list ->
     Forall passed_over pre ->
     Forall passed_over mid ->
     for_sale env code amount pair ->
     run_query env (add_order_request pair amount) n1 = (reply, evs2, n2) ->
     reply_error reply = Some (Some e) ->
     for_sale env code' amount' pair' ->
     run_query env (add_order_request pair' amount') n2 = (reply', evs3, n3) ->
     exists r w' evs tail,
       trade_sell_all_confirm env update w = (r, w')
       /\ events w' = (events w ++ evs)%list
       /\ calls evs
          = ([open_orders_request; balance_request;
              add_order_request pair amount; add_order_request pair' amount']
             ++ calls tail)%list
       /\ messages evs
          = ([mkMessage ToChat (Utils.emo_wa +:+ " Preparing to sell everything...")
                None false;
              mkMessage ToChat (Utils.btfy e) None false]
             ++ messages tail)%list).
Proof.
  intros Hno. split.
  - intros res_open evs0 n0 open pre id post e Hrun Hre Hopen Hids Hrs.
    destruct (run_query_spec _ _ _ _ _ _ Hrun) as (Hc & Hm & _).
    unfold trade_sell_all_confirm.
    change (clean NO) with "NO". rewrite Hno.
    rewrite bind_unfold, reply_text_run. cbv beta iota.
    rewrite bind_unfold, query_run. simpl attempts. fold open_orders_request.
    rewrite Hrun. cbv beta iota.
    rewrite bind_unfold, (handle_api_error_none _ _ _ _ Hre). cbv beta iota.
    unfold open_orders_of in Hopen.
    destruct res_open as [| | | | | |d]; try discriminate.
    destruct (assoc "result" d) as [[| | | | | |result]|] eqn:Hres; try discriminate.
    destruct (assoc "open" result) as [[| | | | | |open']|] eqn:Hop; try discriminate.
    injection Hopen as ->.
    rewrite bind_unfold. unfold getitem at 1. rewrite Hres. unfold ret at 1. cbv beta iota.
    rewrite bind_unfold. unfold getitem at 1. rewrite Hop. unfold ret at 1. cbv beta iota.
    assert (Ht : truthy (JDict open) = true).
    { destruct open; [destruct pre; discriminate | reflexivity]. }
    rewrite Ht. rewrite bind_unfold, bind_unfold.
    unfold iterate at 1, ret at 1. cbv beta iota.
    replace (map (fun x : string * json => JStr (fst x)) open)
      with (map JStr (pre ++ id :: post)) by (rewrite <- Hids, map_map; reflexivity).
    rewrite extend_extend.
    destruct (sell_all_close_orders_stops env update pre id post
                (extend w ([Sent (mkMessage ToChat
                    (Utils.emo_wa +:+ " Preparing to sell everything...") None false)]
                    ++ evs0) n0) e Hrs) as (evs & n & Hq & Hcalls & Hmsgs).
    rewrite Hq, extend_extend. cbv beta iota. unfold ret.
    eexists _, n. split; [reflexivity|].
    rewrite !calls_app, !messages_app, Hc, Hm, Hcalls, Hmsgs. split; reflexivity.
  - intros res_open evs0 n0 res_balance evs1 n1 pre code amount mid code' amount' post
      pair reply evs2 n2 e pair' reply' evs3 n3
      Hrun0 Hre0 Hopen Hrun1 Hre1 Hbal Hpre Hmid Hsale Hrun2 Hre2 Hsale' Hrun3.
    destruct (run_query_spec _ _ _ _ _ _ Hrun0) as (Hc0 & Hm0 & _).
    destruct (run_query_spec _ _ _ _ _ _ Hrun1) as (Hc1 & Hm1 & _).
    destruct (run_query_spec _ _ _ _ _ _ Hrun2) as (Hc2 & Hm2 & _).
    destruct (run_query_spec _ _ _ _ _ _ Hrun3) as (Hc3 & Hm3 & _).
    unfold trade_sell_all_confirm.
    change (clean NO) with "NO". rewrite Hno.
    rewrite bind_unfold, reply_text_run. cbv beta iota.
    rewrite bind_unfold, query_run. simpl attempts. fold open_orders_request.
    rewrite Hrun0. cbv beta iota.
    rewrite bind_unfold, (handle_api_error_none _ _ _ _ Hre0). cbv beta iota.
    unfold open_orders_of in Hopen.
    destruct res_open as [| | | | | |d]; try discriminate.
    destruct (assoc "result" d) as [[| | | | | |result]|] eqn:Hres; try discriminate.
    destruct (assoc "open" result) as [[| | | | | |open']|] eqn:Hop; try discriminate.
    injection Hopen as ->.
    rewrite bind_unfold. unfold getitem at 1. rewrite Hres. unfold ret at 1. cbv beta iota.
    rewrite bind_unfold. unfold getitem at 1. rewrite Hop. unfold ret at 1. cbv beta iota.
    cbn [truthy]. rewrite bind_unfold. unfold ret at 1. cbv beta iota.
    rewrite extend_extend.
    rewrite bind_unfold, query_run. simpl attempts. fold balance_request.
    rewrite Hrun1. cbv beta iota. rewrite extend_extend.
    rewrite bind_unfold, (handle_api_error_none _ _ _ _ Hre1). cbv beta iota.
    unfold balances_of in Hbal.
    destruct res_balance as [| | | | | |db]; try discriminate.
    destruct (assoc "result" db) as [[| | | | | |balances]|] eqn:Hresb; try discriminate.
    injection Hbal as ->.
    rewrite bind_unfold. unfold getitem at 1. rewrite Hresb. unfold ret at 1. cbv beta iota.
    rewrite bind_unfold. unfold items at 1, ret at 1. cbv beta iota.
    rewrite bind_unfold.
    rewrite (for_each_passed_over env update pre _ _ Hpre).
    cbn [for_each]. rewrite bind_unfold. cbn [fst snd].
    match goal with
    | |- context [sell_all_asset env update code amount ?w1] =>
        rewrite (sell_all_asset_refused env update w1 code amount pair reply evs2 n2 e
                   Hsale Hrun2 Hre2)
    end.
    cbv beta iota. rewrite extend_extend.
    rewrite (for_each_passed_over env update mid _ _ Hmid).
    cbn [for_each]. rewrite bind_unfold. cbn [fst snd].
    match goal with
    | |- context [sell_all_asset env update code' amount' ?w2] =>
        destruct (sell_all_asset_asks env update w2 code' amount' pair' reply' evs3 n3
                    Hsale' Hrun3) as (r & w3 & tail & Hs & Hev)
    end.
    rewrite Hs. cbn [events extend] in Hev.
    assert (Hcalls : forall t,
      calls (((([Sent (mkMessage ToChat
                  (Utils.emo_wa +:+ " Preparing to sell everything...") None false)]
                ++ evs0) ++ evs1) ++ evs2 ++ error_report e) ++ evs3 ++ t)
      = ([open_orders_request; balance_request;
          add_order_request pair amount; add_order_request pair' amount']
         ++ calls t)%list).
    { intros t. rewrite !calls_app, Hc0, Hc1, Hc2, Hc3, calls_error_report. reflexivity. }
    assert (Hmsgs : forall t,
      messages (((([Sent (mkMessage ToChat
                  (Utils.emo_wa +:+ " Preparing to sell everything...") None false)]
                ++ evs0) ++ evs1) ++ evs2 ++ error_report e) ++ evs3 ++ t)
      = ([mkMessage ToChat (Utils.emo_wa +:+ " Preparing to sell everything...")
            None false;
          mkMessage ToChat (Utils.btfy e) None false]
         ++ messages t)%list).
    { intros t. rewrite !messages_app, Hm0, Hm1, Hm2, Hm3, messages_error_report.
      reflexivity. }
    destruct r as [[]|ex].
    + destruct (for_each post (fun kv => sell_all_asset env update (fst kv) (snd kv)) w3)
        as [[[]|ex] w4] eqn:E4;
        destruct (for_each_grows post _
                    (fun kv => sell_all_asset_grows env update (fst kv) (snd kv))
                    _ _ _ E4) as [tail4 Hev4].
      * rewrite bind_unfold, keyboard_cmds_run. cbv beta iota.
        rewrite bind_unfold, reply_text_run. cbv beta iota.
        eexists _, _, _, (tail ++ tail4 ++ [_])%list. split; [reflexivity|].
        cbn [events extend]. rewrite Hev4, Hev.
        split; [|split; [apply Hcalls | apply Hmsgs]].
        rewrite <- !app_assoc. reflexivity.
      * eexists _, _, _, (tail ++ tail4)%list. split; [reflexivity|].
        rewrite Hev4, Hev.
        split; [|split; [apply Hcalls | apply Hmsgs]].
        rewrite <- !app_assoc. reflexivity.
    + eexists _, _, _, tail. split; [reflexivity|].
      rewrite Hev.
      split; [|split; [apply Hcalls | apply Hmsgs]].
      rewrite <- !app_assoc. reflexivity.
Qed.

(** ** Cancelling *)

Lemma for_each_del_empties (a : nat) (e : list event) (j : list Job)
    (o : list (string * json)) :
  forall (keys : list string) (m : gmap string json),
  NoDup keys ->
  (forall k, k ∈ keys <-> is_Some (m !! k)) ->
  for_each keys (cd_del ChatData) (mkWorld a e m j o) = (Ok tt, mkWorld a e ∅ j o).
Proof.
  induction keys as [|k keys IH]; intros m Hnd Hkeys.
  - simpl. unfold ret. do 2 f_equal. apply map_empty. intros i.
    apply eq_None_not_Some. rewrite <- Hkeys. apply not_elem_of_nil.
  - simpl. rewrite bind_unfold. unfold cd_del at 1. simpl chat_data.
    destruct (proj1 (Hkeys k) ltac:(left)) as [v Hv]. rewrite Hv.
    simpl. apply IH.
    + apply NoDup_cons in Hnd. tauto.
    + apply NoDup_cons in Hnd as [Hk Hnd]. intros k'.
      destruct (decide (k' = k)) as [->|Hne].
      * rewrite lookup_delete_eq. split; [contradiction | intros [? ?]; discriminate].
      * rewrite lookup_delete_ne by congruence. rewrite <- Hkeys.
        rewrite elem_of_cons. tauto.
Qed.

(** [clear_chat_data] on the scratch dictionary leaves it empty. *)
Lemma clear_chat_data_empties w :
  clear_chat_data (Some ChatData) w
  = (Ok tt, mkWorld (attempts w) (events w) ∅ (jobs w) (orders w)).
Proof.
  unfold clear_chat_data. rewrite bind_unfold. unfold cd_keys at 1. cbv beta iota.
  destruct w as [a e m j o]. simpl.
  assert (H := for_each_del_empties a e j o (map fst (map_to_list m)) m
                 (NoDup_fst_map_to_list m)).
  assert (Hk : forall k, k ∈ map fst (map_to_list m) <-> is_Some (m !! k)).
  { intros k. rewrite list_elem_of_fmap. split.
    - intros ([k' v] & -> & Hin). apply elem_of_map_to_list in Hin. eauto.
    - intros [v Hv]. exists (k, v). split; [reflexivity|].
      apply elem_of_map_to_list. exact Hv. }
  specialize (H Hk).
  destruct (map fst (map_to_list m)) as [|k ks] eqn:E; [|exact H].
  simpl in H. unfold ret in *. injection H as <-. reflexivity.
Qed.

(** [cancel] with the scratch dictionary passed ends the conversation with
    an empty scratch dictionary. *)
Lemma cancel_clears update w :
  cancel update (Some ChatData) w
  = (Ok END,
     mkWorld (attempts w)
       (events w ++
        [Sent (mkMessage ToChat (Utils.emo_ca +:+ " Canceled...")
                 (Some (ReplyKeyboardMarkup [["/trade"; "/orders"]; ["/balance"; "/bot"]]))
                 false)])
       ∅ (jobs w) (orders w)).
Proof.
  unfold cancel. rewrite bind_unfold, clear_chat_data_empties. reflexivity.
Qed.

(** [cancel] without it leaves the scratch dictionary as it is. *)
Lemma cancel_without_scratch update w :
  cancel update None w
  = (Ok END,
     extend w
       [Sent (mkMessage ToChat (Utils.emo_ca +:+ " Canceled...")
                (Some (ReplyKeyboardMarkup [["/trade"; "/orders"]; ["/balance"; "/bot"]]))
                false)] (attempts w)).
Proof. reflexivity. Qed.

(** C3 (what the code does). Answering NO at the sell-all confirmation
    ends the conversation with the cancel message but leaves the scratch
    dictionary as it is: [trade_sell_all_confirm] is not given the
    dictionary and calls [cancel] without it. Answering NO at the order
    confirmation clears it. *)
Theorem sell_all_no_keeps_scratch env update w :
  PyStr.upper (text update) = "NO" ->
  let canceled :=
    Sent (mkMessage ToChat (Utils.emo_ca +:+ " Canceled...")
            (Some (ReplyKeyboardMarkup [["/trade"; "/orders"]; ["/balance"; "/bot"]]))
            false) in
  trade_sell_all_confirm env update w
    = (Ok END, mkWorld (attempts w) (events w ++ [canceled]) (chat_data w)
                 (jobs w) (orders w))
  /\ trade_confirm env update ChatData w
    = (Ok END, mkWorld (attempts w) (events w ++ [canceled]) ∅ (jobs w) (orders w)).
Proof.
  intros Hno canceled. split.
  - unfold trade_sell_all_confirm. rewrite Hno. change (clean NO) with "NO".
    rewrite String.eqb_refl. reflexivity.
  - unfold trade_confirm. rewrite Hno. change (clean NO) with "NO".
    rewrite String.eqb_refl. apply cancel_clears.
Qed.

(** * Further properties *)

(** ** More on [Kraken.query] *)

Section QueryReplies.
Variable env : Env.
Variables (method : string) (data : option json) (private : bool).
Local Abbreviation rq := (mkRequest method data private).

(** A call that carries the counter [c] returns the reply of the first
    request that does not raise, when at most [c] requests failed before. *)
Lemma query_counter_succeeds (k : nat) : forall (c : nat) w reply,
  Kraken._retries env <> 0 ->
  (k <= c)%nat ->
  (forall i, (i < k)%nat -> retryable (transport env (attempts w + i) rq)) ->
  transport env (attempts w + k) rq = Returns reply ->
  exists w',
    Kraken.query env method data private (Some (Z.of_nat c)) w = (Ok reply, w')
    /\ attempts w' = (attempts w + S k)%nat
    /\ same_state w w'.
Proof.
  induction k as [|k IH]; intros c w reply HR Hc Hfail Hok.
  - rewrite query_unfold.
    destruct (perform_spec env rq (Some (Z.of_nat c)) w) as (w1 & -> & Ha & _ & Hs).
    rewrite Nat.add_0_r in Hok. rewrite Hok.
    exists w1. split; [reflexivity|]. split; [lia | exact Hs].
  - rewrite query_unfold.
    destruct (perform_spec env rq (Some (Z.of_nat c)) w) as (w1 & -> & Ha & _ & Hs).
    pose proof (Hfail 0%nat ltac:(lia)) as H0. rewrite Nat.add_0_r in H0.
    destruct (transport env (attempts w) rq) as [|ex_name ex_str]; [contradiction|].
    simpl in H0. rewrite H0.
    destruct (Z.eqb_spec (Kraken._retries env) 0) as [E|E]; [contradiction|].
    destruct (Z.ltb_spec 0 (Z.of_nat c)) as [E1|E1]; [|lia].
    replace (Z.of_nat c - 1) with (Z.of_nat (c - 1)) by lia.
    destruct (IH (c - 1)%nat w1 reply HR) as (w' & Hq & Ha' & Hs').
    { lia. }
    { intros i Hi. rewrite Ha. replace (S (attempts w) + i)%nat
        with (attempts w + S i)%nat by lia. apply Hfail. lia. }
    { rewrite Ha. replace (S (attempts w) + k)%nat with (attempts w + S k)%nat by lia.
      exact Hok. }
    exists w'. split; [exact Hq|]. split; [lia|].
    apply (same_state_trans _ _ _ Hs Hs').
Qed.

(** Retrying stops at the first reply. When the first [k] requests of a
    call fail with exceptions that are retried and request [k] returns,
    [query] returns that reply after [k + 1] requests; [k] may be anything
    up to [retries + 1] when retrying is enabled, and must be 0 when it is
    not. *)
Theorem query_returns_first_reply (w : World) (k : nat) (reply : json) :
  k = 0%nat \/ (1 <= retries (config env) /\ Z.of_nat k <= retries (config env) + 1) ->
  (forall i, (i < k)%nat -> retryable (transport env (attempts w + i) rq)) ->
  transport env (attempts w + k) rq = Returns reply ->
  exists w',
    Kraken.query env method data private None w = (Ok reply, w')
    /\ attempts w' = (attempts w + k + 1)%nat
    /\ same_state w w'.
Proof.
  intros Hk Hfail Hok.
  rewrite query_unfold.
  destruct (perform_spec env rq None w) as (w1 & -> & Ha & _ & Hs).
  destruct k as [|k].
  - rewrite Nat.add_0_r in Hok. rewrite Hok.
    exists w1. split; [reflexivity|]. split; [lia | exact Hs].
  - destruct Hk as [Hk|[HR Hk]]; [discriminate|].
    pose proof (Hfail 0%nat ltac:(lia)) as H0. rewrite Nat.add_0_r in H0.
    destruct (transport env (attempts w) rq) as [|ex_name ex_str]; [contradiction|].
    simpl in H0. rewrite H0. unfold Kraken._retries.
    destruct (Z.eqb_spec (retries (config env)) 0) as [E|E]; [lia|].
    destruct (query_counter_succeeds k (Z.to_nat (retries (config env))) w1 reply)
      as (w' & Hq & Ha' & Hs').
    { unfold Kraken._retries. lia. }
    { lia. }
    { intros i Hi. rewrite Ha. replace (S (attempts w) + i)%nat
        with (attempts w + S i)%nat by lia. apply Hfail. lia. }
    { rewrite Ha. replace (S (attempts w) + k)%nat with (attempts w + S k)%nat by lia.
      exact Hok. }
    rewrite Z2Nat.id in Hq by lia.
    exists w'. split; [exact Hq|]. split; [lia|].
    apply (same_state_trans _ _ _ Hs Hs').
Qed.



End QueryReplies.

(** ** Access control *)

Lemma restrict_access_run (func : Env -> Update -> M handler_result) env update w :
  restrict_access func env update w
  = if String.eqb (str_of_Z (chat_id update)) (user_id (config env))
    then func env update w
    else (Ok ReturnsNone, extend w (denial env update) (attempts w)).
Proof.
  unfold restrict_access, denial.
  destruct (String.eqb (str_of_Z (chat_id update)) (user_id (config env)));
    [reflexivity|].
  cbn [negb]. destruct (show_access_denied (config env)).
  - cbv beta iota zeta delta [bind ret reply_text send_owner logger tell emit extend].
    cbn [attempts events chat_data jobs orders]. rewrite <- !app_assoc. reflexivity.
  - cbv beta iota zeta delta [bind ret]. rewrite extend_nil. reflexivity.
Qed.

(** A handler wrapped by [restrict_access] is not run for a chat other
    than the owner's: whatever the handler is, the call returns [None],
    issues no request, changes neither the scratch dictionary, nor the job
    queue, nor the cached orders, and leaves only the refusal in the event
    log (nothing at all when [show_access_denied] is off). For the owner's
    chat the wrapper is the handler itself. *)
Theorem restrict_access_denies (func : Env -> Update -> M handler_result)
    (env : Env) (update : Update) (w : World) :
  (str_of_Z (chat_id update) <> user_id (config env) ->
     restrict_access func env update w
     = (Ok ReturnsNone, extend w (denial env update) (attempts w)))
  /\ (str_of_Z (chat_id update) = user_id (config env) ->
     restrict_access func env update w = func env update w).
Proof.
  rewrite restrict_access_run. split; intros H.
  - destruct (String.eqb_spec (str_of_Z (chat_id update)) (user_id (config env)));
      [contradiction | reflexivity].
  - rewrite H, String.eqb_refl. reflexivity.
Qed.

(** The commands that open the two conversations are wrapped: a
    stranger's [/trade] or [/orders] gets the refusal, starts no
    conversation and reaches the exchange with no request. *)
Theorem strangers_start_nothing (env : Env) (update : Update) (w : World) :
  str_of_Z (chat_id update) <> user_id (config env) ->
  trade_cmd env update w = (Ok ReturnsNone, extend w (denial env update) (attempts w))
  /\ orders_cmd env update w = (Ok ReturnsNone, extend w (denial env update) (attempts w))
  /\ fst (converse env None update w) = None
  /\ calls (events (snd (converse env None update w))) = calls (events w).
Proof.
  intros H.
  assert (He : String.eqb (str_of_Z (chat_id update)) (user_id (config env)) = false)
    by (apply String.eqb_neq, H).
  assert (Ht : trade_cmd env update w
               = (Ok ReturnsNone, extend w (denial env update) (attempts w))).
  { unfold trade_cmd. rewrite restrict_access_run, He. reflexivity. }
  split; [exact Ht|]. split.
  { unfold orders_cmd. rewrite restrict_access_run, He. reflexivity. }
  unfold converse, trade_handler.
  destruct (is_command "trade" (text update)); [|split; reflexivity].
  rewrite Ht. split; [reflexivity|].
  cbn [snd]. unfold extend. cbn [events]. rewrite calls_app.
  unfold denial. destruct (show_access_denied (config env)); simpl; apply app_nil_r.
Qed.

(** ** Numbers in text *)



Lemma rstrip_by_id p s :
  PyStr.all_chars (fun a => negb (p a)) s = true -> PyStr.rstrip_by p s = s.
Proof.
  induction s as [|a s IH]; simpl; [reflexivity|].
  intros [Ha Hs]%andb_prop. rewrite (IH Hs).
  destruct s; [|reflexivity]. destruct (p a); [discriminate | reflexivity].
Qed.

Lemma all_chars_impl (p q : ascii -> bool) s :
  (forall a, p a = true -> q a = true) ->
  PyStr.all_chars p s = true -> PyStr.all_chars q s = true.
Proof.
  intros H. induction s as [|a s IH]; simpl; [reflexivity|].
  intros [Ha Hs]%andb_prop. rewrite (H a Ha), (IH Hs). reflexivity.
Qed.

Lemma all_chars_app p s t :
  PyStr.all_chars p (s +:+ t) = PyStr.all_chars p s && PyStr.all_chars p t.
Proof.
  induction s as [|a s IH]; simpl; [reflexivity|]. rewrite IH, andb_assoc. reflexivity.
Qed.

Lemma digit_or_dot_plain a :
  digit_or_dot a = true ->
  PyStr.is_space a = false /\ PyStr.lower_ascii a = a
  /\ a <> "-"%char /\ a <> "+"%char /\ a <> "i"%char /\ a <> "n"%char
  /\ a <> "e"%char /\ a <> "E"%char.
Proof.
  unfold digit_or_dot, PyStr.is_digit, PyStr.is_space, PyStr.lower_ascii.
  intros H.
  destruct (Ascii.eqb_spec a ".") as [E|Hd].
  { rewrite E. repeat split; try reflexivity; discriminate. }
  rewrite orb_false_r in H. apply andb_prop in H as [H1 H2].
  apply Nat.leb_le in H1, H2.
  assert (Hn : forall b, (nat_of_ascii b < 48 \/ 57 < nat_of_ascii b)%nat -> a <> b).
  { intros b Hb ->. lia. }
  repeat split.
  - destruct (Nat.eqb_spec (nat_of_ascii a) 32); [lia|].
    destruct (Nat.leb_spec 9 (nat_of_ascii a)); [|reflexivity].
    destruct (Nat.leb_spec (nat_of_ascii a) 13); [lia | reflexivity].
  - destruct (Nat.leb_spec 65 (nat_of_ascii a)); [|reflexivity].
    destruct (Nat.leb_spec (nat_of_ascii a) 90); [lia | reflexivity].
  - apply Hn. vm_compute. lia.
  - apply Hn. vm_compute. lia.
  - apply Hn. vm_compute. lia.
  - apply Hn. vm_compute. lia.
  - apply Hn. vm_compute. lia.
  - apply Hn. vm_compute. lia.
Qed.

Lemma strip_plain s :
  PyStr.all_chars digit_or_dot s = true -> PyStr.strip s = s.
Proof.
  intros H. unfold PyStr.strip.
  assert (Hl : PyStr.lstrip s = s).
  { destruct s as [|a s]; [reflexivity|]. simpl in *.
    apply andb_prop in H as [Ha _].
    destruct (digit_or_dot_plain a Ha) as (-> & _). reflexivity. }
  rewrite Hl. apply rstrip_by_id.
  revert H. apply all_chars_impl. intros a Ha.
  destruct (digit_or_dot_plain a Ha) as (-> & _). reflexivity.
Qed.

Lemma lower_plain s :
  PyStr.all_chars digit_or_dot s = true -> PyStr.lower s = s.
Proof.
  induction s as [|a s IH]; simpl; [reflexivity|].
  intros [Ha Hs]%andb_prop. unfold PyStr.lower in *. simpl. rewrite (IH Hs).
  destruct (digit_or_dot_plain a Ha) as (_ & -> & _). reflexivity.
Qed.

Lemma read_sign_plain s :
  PyStr.all_chars digit_or_dot s = true -> PyFloat.read_sign s = (false, s).
Proof.
  destruct s as [|a s]; [reflexivity|]. simpl.
  intros [Ha _]%andb_prop.
  destruct (digit_or_dot_plain a Ha) as (_ & _ & Hm & Hp & _).
  destruct a as [[] [] [] [] [] [] [] []]; try reflexivity; congruence.
Qed.

Lemma not_a_name s :
  PyStr.all_chars digit_or_dot s = true ->
  (String.eqb s "inf" || String.eqb s "infinity") = false /\ String.eqb s "nan" = false.
Proof.
  destruct s as [|a s]; [split; reflexivity|]. simpl.
  intros [Ha _]%andb_prop.
  destruct (digit_or_dot_plain a Ha) as (_ & _ & _ & _ & Hi & Hn & _).
  destruct (Ascii.eqb_spec a "i"); [contradiction|].
  destruct (Ascii.eqb_spec a "n"); [contradiction|]. split; reflexivity.
Qed.

(** [read_digits] takes the longest run of digits. *)
Lemma read_digits_run s : forall acc cnt,
  exists ds r v,
    s = ds +:+ r
    /\ PyStr.all_chars PyStr.is_digit ds = true
    /\ PyFloat.read_digits acc cnt s = (v, (cnt + String.length ds)%nat, r)
    /\ match r with
       | EmptyString => True
       | String a _ => PyStr.is_digit a = false
       end.
Proof.
  induction s as [|a s IH]; intros acc cnt.
  - exists "", "", acc. simpl. rewrite Nat.add_0_r. repeat split.
  - simpl. destruct (PyStr.is_digit a) eqn:Ea.
    + destruct (IH (10 * acc + PyFloat.digit_val a)%N (S cnt)) as (ds & r & v & -> & Hds & Hr & Hn).
      exists (String a ds), r, v. simpl. rewrite Ea, Hds.
      replace (cnt + S (String.length ds))%nat with (S cnt + String.length ds)%nat by lia.
      repeat split; assumption.
    + exists "", (String a s), acc. simpl. rewrite Nat.add_0_r. repeat split. exact Ea.
Qed.

Lemma read_digits_all ds : forall acc cnt,
  PyStr.all_chars PyStr.is_digit ds = true ->
  forall r, match r with
            | EmptyString => True
            | String a _ => PyStr.is_digit a = false
            end ->
  exists v, PyFloat.read_digits acc cnt (ds +:+ r) = (v, (cnt + String.length ds)%nat, r).
Proof.
  induction ds as [|a ds IH]; intros acc cnt Hds r Hr.
  - exists acc. simpl. rewrite Nat.add_0_r. destruct r as [|b r]; [reflexivity|].
    simpl. rewrite Hr. reflexivity.
  - simpl in *. apply andb_prop in Hds as [Ha Hds]. rewrite Ha.
    destruct (IH (10 * acc + PyFloat.digit_val a)%N (S cnt) Hds r Hr) as (v & ->).
    exists v. do 2 f_equal. lia.
Qed.








Lemma append_empty s : s +:+ "" = s.
Proof.
  induction s as [|a s IH]; [reflexivity|].
  change (String a s +:+ "") with (String a (s +:+ "")). rewrite IH. reflexivity.
Qed.


(** [float] reads a text of digits and dots exactly when it has a digit
    and at most one dot. *)
Lemma of_string_shape s digits dots :
  shape s digits dots ->
  (exists x, PyFloat.of_string s = Some x) <-> (0 < digits /\ dots <= 1)%nat.
Proof.
  intros Hs.
  assert (Hplain : PyStr.all_chars digit_or_dot s = true).
  { destruct Hs as [ds Hds|ds1 ds2 rest H1 H2 Hr].
    - revert Hds. apply all_chars_impl. intros a Ha. unfold digit_or_dot. rewrite Ha. reflexivity.
    - rewrite all_chars_app. simpl. rewrite all_chars_app.
      rewrite (all_chars_impl PyStr.is_digit digit_or_dot ds1), (all_chars_impl PyStr.is_digit digit_or_dot ds2);
        try assumption; try (intros a Ha; unfold digit_or_dot; rewrite Ha; reflexivity).
      simpl. destruct rest as [|a r]; [reflexivity|]. destruct Hr as [-> Hr].
      simpl. exact Hr. }
  unfold PyFloat.of_string.
  rewrite (strip_plain s Hplain), (read_sign_plain s Hplain), (lower_plain s Hplain).
  destruct (not_a_name s Hplain) as [-> ->].
  destruct Hs as [ds Hds|ds1 ds2 rest H1 H2 Hr].
  - destruct (read_digits_all ds 0%N 0%nat Hds "" I) as (v & Hv).
    rewrite append_empty in Hv.
    rewrite Hv. simpl.
    destruct (String.length ds) eqn:El; simpl.
    + split; [intros [x [=]] | lia].
    + split; [lia | intros _; eexists; reflexivity].
  - destruct (read_digits_all ds1 0%N 0%nat H1 (String "." (ds2 +:+ rest))) as (v1 & Hv1).
    { reflexivity. }
    rewrite Hv1.
    destruct (read_digits_all ds2 v1 0%nat H2 rest) as (v2 & Hv2).
    { destruct rest as [|a r]; [exact I|]. destruct Hr as [-> _]. reflexivity. }
    rewrite Hv2. simpl.
    destruct rest as [|a r].
    + simpl. rewrite Nat.add_0_r.
      destruct (String.length ds1 + String.length ds2)%nat eqn:El; simpl.
      * split; [intros [x [=]] | lia].
      * split; [lia | intros _; eexists; reflexivity].
    + destruct Hr as [-> Hr]. simpl.
      destruct (String.length ds1 + String.length ds2)%nat; simpl;
        (split; [intros [x [=]] | lia]).
Qed.

Lemma digits_are_plain s :
  PyStr.all_chars PyStr.is_digit s = true -> PyStr.all_chars digit_or_dot s = true.
Proof.
  apply all_chars_impl. intros a Ha. unfold digit_or_dot. rewrite Ha. reflexivity.
Qed.




Lemma space_colons_spaced text : forall i,
  String.get i (Utils.space_colons text) = Some ":"%char ->
  String.get (S i) (Utils.space_colons text) = Some " "%char.
Proof.
  induction text as [|a s IH]; intros i; simpl; [discriminate|].
  destruct (Ascii.eqb_spec a ":") as [->|Hne].
  - destruct i as [|[|i]]; simpl.
    + reflexivity.
    + discriminate.
    + apply IH.
  - destruct i as [|i]; simpl.
    + intros [= ->]. contradiction.
    + apply IH.
Qed.







Lemma unspace_space_colons s : unspace_colons (Utils.space_colons s) = s.
Proof.
  induction s as [|a s IH]; [reflexivity|]. simpl.
  destruct (Ascii.eqb a ":") eqn:E; simpl; rewrite E, IH; reflexivity.
Qed.

(** [btfy] puts the error sign and a blank before the text, stripped of
    surrounding white space, and a blank after each of its colons; it
    changes nothing else, so every colon of the result is followed by a
    blank and taking these blanks away gives the stripped text back. *)
Theorem btfy_spaces_colons (text : string) :
  exists body,
    Utils.btfy text = Utils.emo_er +:+ " " +:+ body
    /\ (forall i, String.get i body = Some ":"%char ->
                  String.get (S i) body = Some " "%char)
    /\ unspace_colons body = PyStr.strip text.
Proof.
  exists (Utils.space_colons (PyStr.strip text)). split; [reflexivity|]. split.
  - intros i. apply space_colons_spaced.
  - apply unspace_space_colons.
Qed.

(** ** What the number pattern lets through *)

Lemma replace_digits c d ds :
  PyStr.is_digit c = false ->
  PyStr.all_chars PyStr.is_digit ds = true ->
  PyStr.replace_char c d ds = ds.
Proof.
  intros Hc. induction ds as [|a ds IH]; simpl; [reflexivity|].
  intros [Ha Hds]%andb_prop. unfold PyStr.replace_char in *. simpl. rewrite (IH Hds).
  destruct (Ascii.eqb_spec a c) as [->|]; [congruence | reflexivity].
Qed.

Lemma upper_digits ds :
  PyStr.all_chars PyStr.is_digit ds = true -> PyStr.upper ds = ds.
Proof.
  induction ds as [|a ds IH]; simpl; [reflexivity|].
  intros [Ha Hds]%andb_prop. unfold PyStr.upper in *. simpl. rewrite (IH Hds).
  f_equal. unfold PyStr.upper_ascii, PyStr.is_digit in *.
  apply andb_prop in Ha as [H1 H2]. apply Nat.leb_le in H1, H2.
  destruct (Nat.leb_spec 97 (nat_of_ascii a)); [lia | reflexivity].
Qed.

Lemma map_chars_app f s t :
  PyStr.map_chars f (s +:+ t) = PyStr.map_chars f s +:+ PyStr.map_chars f t.
Proof.
  induction s as [|a s IH]; simpl; [reflexivity|]. rewrite IH. reflexivity.
Qed.

(** A text the pattern accepts: digits, then possibly a dot or a comma and
    digits, with a digit somewhere. *)
Lemma comp_number_parts t :
  comp_number t = true ->
  exists ds1 ds2,
    PyStr.all_chars PyStr.is_digit ds1 = true
    /\ PyStr.all_chars PyStr.is_digit ds2 = true
    /\ (0 < String.length ds1 + String.length ds2)%nat
    /\ (t = ds1 /\ ds2 = ""
        \/ t = ds1 +:+ String "." ds2 \/ t = ds1 +:+ String "," ds2).
Proof.
  unfold comp_number.
  destruct (read_digits_run t 0%N 0%nat) as (ds1 & r1 & v1 & -> & Hds1 & -> & Hr1).
  destruct r1 as [|a r].
  - simpl. rewrite Nat.add_0_r. intros [Hc _]%andb_prop. apply Nat.ltb_lt in Hc.
    exists ds1, "". rewrite append_empty. repeat split; try assumption.
    + simpl. lia.
    + left. split; reflexivity.
  - destruct (Ascii.eqb a "." || Ascii.eqb a ",") eqn:Esep.
    + destruct (read_digits_run r 0%N 0%nat) as (ds2 & r2 & v2 & -> & Hds2 & -> & Hr2).
      intros [Hc Hr]%andb_prop. apply Nat.ltb_lt in Hc. apply String.eqb_eq in Hr. subst r2.
      exists ds1, ds2. rewrite append_empty. simpl in Hc. repeat split; try assumption.
      right. apply orb_prop in Esep as [E|E]; apply Ascii.eqb_eq in E; subst a; tauto.
    + intros [_ Hr]%andb_prop. discriminate.
Qed.

Lemma comp_number_reads t :
  comp_number t = true ->
  (exists x, PyFloat.of_string (PyStr.replace_char "," "." t) = Some x)
  /\ (exists x, PyFloat.of_string (PyStr.replace_char "," "." (PyStr.upper t)) = Some x).
Proof.
  intros (ds1 & ds2 & H1 & H2 & Hn & Ht)%comp_number_parts.
  assert (Hdot : (0 < String.length ds1 + String.length ds2)%nat ->
                 exists x, PyFloat.of_string (ds1 +:+ String "." ds2) = Some x).
  { intros Hpos.
    pose proof (shape_dot ds1 ds2 "" H1 H2 I) as Hs. rewrite append_empty in Hs.
    apply (of_string_shape _ _ _ Hs). simpl. lia. }
  assert (Hone : (0 < String.length ds1)%nat -> exists x, PyFloat.of_string ds1 = Some x).
  { intros Hpos. apply (of_string_shape _ _ _ (shape_plain ds1 H1)). lia. }
  assert (Hc : PyStr.is_digit "," = false) by reflexivity.
  destruct Ht as [[-> ->]|[->| ->]].
  - rewrite (upper_digits _ H1), (replace_digits _ _ _ Hc H1).
    simpl in Hn. rewrite Nat.add_0_r in Hn. split; apply Hone, Hn.
  - unfold PyStr.upper, PyStr.replace_char. rewrite !map_chars_app. simpl.
    fold (PyStr.upper ds1) (PyStr.upper ds2).
    rewrite (upper_digits _ H1), (upper_digits _ H2).
    fold (PyStr.replace_char "," "." ds1) (PyStr.replace_char "," "." ds2).
    rewrite (replace_digits _ _ _ Hc H1), (replace_digits _ _ _ Hc H2).
    split; apply Hdot, Hn.
  - unfold PyStr.upper, PyStr.replace_char. rewrite !map_chars_app. simpl.
    fold (PyStr.upper ds1) (PyStr.upper ds2).
    rewrite (upper_digits _ H1), (upper_digits _ H2).
    fold (PyStr.replace_char "," "." ds1) (PyStr.replace_char "," "." ds2).
    rewrite (replace_digits _ _ _ Hc H1), (replace_digits _ _ _ Hc H2).
    split; apply Hdot, Hn.
Qed.

(** ** What a handler writes into the scratch dictionary *)


Lemma kept_but_refl keys w : kept_but keys w w.
Proof. intros k _. reflexivity. Qed.

Lemma kept_but_trans keys w1 w2 w3 :
  kept_but keys w1 w2 -> kept_but keys w2 w3 -> kept_but keys w1 w3.
Proof. intros H1 H2 k Hk. rewrite (H2 k Hk). apply (H1 k Hk). Qed.

Lemma readonly_kept_but keys {A} (c : M A) :
  preserves eq c -> preserves (kept_but keys) c.
Proof. intros H w r w' E. rewrite (H _ _ _ E). apply kept_but_refl. Qed.

Lemma tell_kept_but keys e : preserves (kept_but keys) (tell e).
Proof. intros w r w' [= <- <-] k _. reflexivity. Qed.

Lemma cd_set_kept_but keys d k v :
  k ∈ keys -> preserves (kept_but keys) (cd_set d k v).
Proof.
  intros Hk w r w' [= <- <-] k' Hk'. simpl. apply lookup_insert_ne.
  intros ->. contradiction.
Qed.

Lemma query_kept_but keys env method data private :
  preserves (kept_but keys) (Bot.query env method data private).
Proof.
  intros w r w'. rewrite query_run.
  destruct (run_query _ _ _) as [[j evs] n]. intros [= <- <-] k _. reflexivity.
Qed.

Lemma run_repeating_kept_but keys interval txid :
  preserves (kept_but keys) (run_repeating interval txid).
Proof. intros w r w' [= <- <-] k _. reflexivity. Qed.

Ltac kept_but_step :=
  match goal with
  | |- preserves (kept_but ?ks) (bind _ _) =>
      apply (preserves_bind (kept_but ks) (kept_but_trans ks)); [|intros ?]
  | |- preserves (kept_but ?ks) (ret _) =>
      apply (preserves_ret (kept_but ks) (kept_but_refl ks))
  | |- preserves (kept_but ?ks) (raise _) =>
      apply (preserves_raise (kept_but ks) (kept_but_refl ks))
  | |- preserves (kept_but ?ks) (lift _) =>
      apply (preserves_lift (kept_but ks) (kept_but_refl ks))
  | |- preserves (kept_but _) (tell _) => apply tell_kept_but
  | |- preserves (kept_but _) (reply_text _ _ _) => apply tell_kept_but
  | |- preserves (kept_but _) (send_owner _ _ _) => apply tell_kept_but
  | |- preserves (kept_but _) (logger _ _) => apply tell_kept_but
  | |- preserves (kept_but _) (Bot.query _ _ _ _) => apply query_kept_but
  | |- preserves (kept_but _) (run_repeating _ _) => apply run_repeating_kept_but
  | |- preserves (kept_but _) (cd_set _ _ _) =>
      apply cd_set_kept_but; solve [repeat constructor]
  | |- preserves (kept_but _) (if ?b then _ else _) => destruct b
  | |- preserves (kept_but _) (match ?x with _ => _ end) => destruct x
  | |- preserves (kept_but _) _ =>
      solve [apply readonly_kept_but; auto with readonly]
  end.

Lemma cd_mem_readonly d k : preserves eq (cd_mem d k).
Proof. intros w r w' [= <- <-]. reflexivity. Qed.

Lemma handle_api_error_kept_but keys j update msg :
  preserves (kept_but keys) (handle_api_error j update msg).
Proof. unfold handle_api_error. repeat kept_but_step. Qed.

Lemma trade_show_conf_kept_but env update :
  preserves (kept_but ["price"]) (trade_show_conf env update ChatData).
Proof.
  unfold trade_show_conf, keyboard_confirm.
  repeat first [apply handle_api_error_kept_but | kept_but_step].
Qed.


(** ** The price entry *)


(** ** Entering a volume *)

(** A text that the number pattern of the conversation accepts is handed
    to the volume handler of the state, and [float] reads it (a decimal
    comma turned into a dot) without a [ValueError]: [trade_volume] stores
    the volume and goes on to the check of the minimum. *)
Theorem accepted_numbers_are_read (env : Env) (update : Update) (w : World) :
  comp_number (text update) = true ->
  trade_handler env (Some TRADE_VOLUME) update
    = Some (trade_volume env update ChatData)
  /\ trade_handler env (Some TRADE_VOLUME_ASSET) update
    = Some (trade_volume_asset env update ChatData)
  /\ exists amount,
       PyFloat.of_string (PyStr.replace_char "," "." (text update)) = Some amount
       /\ trade_volume env update ChatData w
          = check_limit_and_confirm env update ChatData
              (set_scratch w "volume" (JStr (PyFloat.format_8f amount))).
Proof.
  intros H.
  split; [|split].
  - unfold trade_handler, trade_states. cbn [first_match]. rewrite H. reflexivity.
  - unfold trade_handler, trade_states. cbn [first_match]. rewrite H. reflexivity.
  - destruct (comp_number_reads _ H) as [[amount Ha] _].
    exists amount. split; [exact Ha|]. apply trade_volume_run, Ha.
Qed.

(** [trade_volume_asset] divides the entered amount by the recorded price.
    With no price recorded (an order at market price) it raises
    [KeyError], and with a price that reads as zero [ZeroDivisionError];
    either way nothing is sent and the scratch dictionary is not
    touched. *)
Theorem volume_in_currency_needs_a_price (env : Env) (update : Update) (w : World)
    (amount : PyFloat.float) :
  PyFloat.of_string (PyStr.replace_char "," "." (text update)) = Some amount ->
  (chat_data w !! "price" = None ->
     trade_volume_asset env update ChatData w = (Err (KeyError "price"), w))
  /\ (forall price s,
        chat_data w !! "price" = Some price ->
        to_float price = Ok (S754_zero s) ->
        trade_volume_asset env update ChatData w = (Err ZeroDivisionError, w)).
Proof.
  intros Ha. unfold trade_volume_asset. split.
  - intros Hp. run_scratch. simpl to_float. rewrite Ha. cbv beta iota.
    rewrite Hp. reflexivity.
  - intros price s Hp Hz. run_scratch. simpl to_float. rewrite Ha. cbv beta iota.
    rewrite Hp, Hz. reflexivity.
Qed.

(** ** The two assets of a pair *)

Lemma assoc_In {A} (k : string) (v : A) l : In (k, v) l -> is_Some (assoc k l).
Proof.
  induction l as [|[k' v'] l IH]; simpl; [contradiction|].
  intros [[= -> ->]|H].
  - rewrite String.eqb_refl. eauto.
  - destruct (String.eqb k k'); [eauto | apply IH, H].
Qed.

Lemma endswith_drop s p :
  PyStr.endswith s p = true ->
  PyStr.drop (String.length s - String.length p) s = p.
Proof.
  unfold PyStr.endswith. intros [_ H]%andb_prop. apply String.eqb_eq, H.
Qed.

Lemma assets_from_pair_in_sound all pair : forall rest,
  (forall a alt, In (a, alt) rest -> is_Some (assoc a all)) ->
  match assets_from_pair_in all rest pair with
  | (one, JNull) =>
      one = JNull
      /\ forall a alt, In (a, alt) rest -> PyStr.endswith pair a = false
  | (one, JStr to_asset) =>
      is_Some (assoc to_asset all)
      /\ PyStr.endswith pair to_asset = true
      /\ match one with
         | JNull =>
             assoc (PyStr.take (String.length to_asset) pair) all = None
         | JStr from_asset =>
             from_asset = PyStr.take (String.length to_asset) pair
             /\ is_Some (assoc from_asset all)
         | _ => False
         end
  | _ => False
  end.
Proof.
  induction rest as [|[asset alt] rest IH]; intros Hin; simpl.
  - split; [reflexivity|]. intros ? ? [].
  - destruct (PyStr.endswith pair asset) eqn:E.
    + rewrite (endswith_drop _ _ E).
      destruct (assoc (PyStr.take (String.length asset) pair) all) eqn:Ef.
      * split; [apply (Hin asset alt); left; reflexivity|].
        split; [exact E|]. split; [reflexivity|]. rewrite Ef. eauto.
      * split; [apply (Hin asset alt); left; reflexivity|].
        split; [exact E|]. exact Ef.
    + specialize (IH ltac:(intros a' alt' H; apply (Hin a' alt'); right; exact H)).
      destruct (assets_from_pair_in all rest pair) as [one [| | | |to_asset| |]];
        try contradiction; [|exact IH].
      destruct IH as [-> IH]. split; [reflexivity|].
      intros a' alt' [[= -> ->]|H]; [exact E | apply (IH a' alt' H)].
Qed.

(** [assets_from_pair] answers with codes of the assets table only. The
    to-asset is a code that ends the pair (none does when the answer is
    [None, None]); the from-asset is the beginning of the pair cut to the
    length of the to-asset, and is returned only when that text is a code
    of the table, so it always has the length of the to-asset. *)
Theorem assets_from_pair_sound (env : Env) (pair : string) :
  match assets_from_pair env pair with
  | (one, JNull) =>
      one = JNull
      /\ forall a alt, In (a, alt) (assets env) -> PyStr.endswith pair a = false
  | (one, JStr to_asset) =>
      is_Some (assoc to_asset (assets env))
      /\ PyStr.endswith pair to_asset = true
      /\ match one with
         | JNull =>
             assoc (PyStr.take (String.length to_asset) pair) (assets env) = None
         | JStr from_asset =>
             from_asset = PyStr.take (String.length to_asset) pair
             /\ is_Some (assoc from_asset (assets env))
         | _ => False
         end
  | _ => False
  end.
Proof.
  unfold assets_from_pair. apply assets_from_pair_in_sound.
  intros a alt H. apply (assoc_In a alt), H.
Qed.

(** ** The currency of the volume *)


(** ** A failed poll of the monitor *)

(** When the poll of an order comes back with an error, [order_state_check]
    writes the beautified error to the log, sends it to the owner only if
    [send_error] is set (under the heading "Order state check:", the error
    sign appearing twice, once from the heading line and once from [btfy]),
    and leaves the job queue as it is. *)
Theorem failed_poll_is_reported (env : Env) (i : nat) (txid : json) (interval : Z)
    (w : World) (reply : json) (evs : list event) (n : nat) (e : string) :
  jobs w !! i = Some (mkJob txid interval false) ->
  run_query env (query_orders_request txid) (attempts w) = (reply, evs, n) ->
  reply_error reply = Some (Some e) ->
  order_state_check env i w
  = (Ok tt,
     extend w
       (evs ++ Log ERROR (Utils.btfy e)
            :: if send_error (config env) then
                 [Sent (mkMessage ToOwner
                          (("Order state check:" +:+ LF) +:+ Utils.emo_er +:+ " "
                           +:+ Utils.btfy e) None false)]
               else []) n).
Proof.
  intros Hjob Hrun Hre.
  unfold order_state_check.
  rewrite bind_unfold. unfold job_context at 1. rewrite Hjob. cbv beta iota. simpl job_txid.
  rewrite bind_unfold, query_run. fold (query_orders_request txid). rewrite Hrun.
  cbv beta iota.
  unfold reply_error in Hre.
  destruct reply as [| | | | | |d]; try discriminate.
  destruct (assoc "error" d) as [[| | | | |[|[| | | |s| |] l]|]|] eqn:He; try discriminate.
  injection Hre as ->.
  rewrite bind_unfold. unfold getitem at 1. rewrite He. unfold ret at 1. cbv beta iota.
  cbn [truthy].
  rewrite bind_unfold. unfold first_item at 1, ret at 1. cbv beta iota.
  rewrite bind_unfold. unfold btfy_json at 1, ret at 1. cbv beta iota.
  rewrite bind_unfold, logger_run, extend_extend. cbv beta iota.
  destruct (send_error (config env)).
  - rewrite send_owner_run, extend_extend. rewrite <- app_assoc. reflexivity.
  - reflexivity.
Qed.

(** ** What the sell-all loop does not sell *)

(** One turn of the sell-all loop makes no request for a fiat currency
    (a code that starts with Z), for a balance that reads [0.0000000000],
    for a coin with no minimum order size configured (a warning in the log
    is all), and for a coin whose balance is below its minimum (the user is
    told and the loop goes on). A code that is missing from the assets
    table raises [KeyError]. *)
Theorem sell_all_passes_over (env : Env) (update : Update) (code : string)
    (amount : json) (w : World) :
  (PyStr.startswith code "Z" = true \/ amount = JStr "0.0000000000" ->
     sell_all_asset env update code amount w = (Ok tt, w))
  /\ (PyStr.startswith code "Z" = false -> amount <> JStr "0.0000000000" ->
      (assoc code (assets env) = None ->
         sell_all_asset env update code amount w = (Err (KeyError code), w))
      /\ (forall a,
            assoc code (assets env) = Some a -> limits env !! a = None ->
            sell_all_asset env update code amount w
            = (Ok tt,
               extend w [Log WARNING ("No minimum order limit in config for coin " +:+ a)]
                 (attempts w)))
      /\ (forall a limit fa l,
            assoc code (assets env) = Some a -> limits env !! a = Some limit ->
            to_float amount = Ok fa -> PyFloat.of_string limit = Some l ->
            PyFloat.ltb fa l = true ->
            sell_all_asset env update code amount w
            = (Ok tt,
               extend w
                 [Sent (mkMessage ToChat
                          ((Utils.emo_er +:+ " Volume to low. Must be > " +:+ limit)
                           +:+ LF +:+ Utils.emo_wa +:+ " Selling next asset...")
                          None false);
                  Log WARNING (Utils.emo_er +:+ " Volume to low. Must be > " +:+ limit)]
                 (attempts w)))).
Proof.
  split.
  - intros [HZ|Hzero]; unfold sell_all_asset.
    + rewrite HZ. reflexivity.
    + destruct (PyStr.startswith code "Z"); [reflexivity|]. rewrite Hzero. reflexivity.
  - intros HZ Hamt.
    assert (Hz : match amount with
                 | JStr a0 => String.eqb a0 "0.0000000000"
                 | _ => false
                 end = false).
    { destruct amount; try reflexivity.
      destruct (String.eqb_spec s "0.0000000000"); [subst; contradiction | reflexivity]. }
    split; [|split].
    + intros Ha. unfold sell_all_asset. rewrite HZ, Hz.
      rewrite bind_unfold. unfold altname. rewrite Ha. reflexivity.
    + intros a Ha Hlim. unfold sell_all_asset. rewrite HZ, Hz.
      rewrite bind_unfold. unfold altname. rewrite Ha. unfold ret at 1. cbv beta iota.
      rewrite Hlim. apply logger_run.
    + intros a limit fa l Ha Hlim Hfa Hl Hlt. unfold sell_all_asset. rewrite HZ, Hz.
      rewrite bind_unfold. unfold altname. rewrite Ha. unfold ret at 1. cbv beta iota.
      rewrite Hlim.
      rewrite bind_unfold. unfold float_of_json at 1, lift. rewrite Hfa. cbv beta iota.
      rewrite bind_unfold. unfold float_of_str, float_of_json, lift. simpl to_float.
      rewrite Hl. cbv beta iota. rewrite Hlt.
      rewrite bind_unfold, reply_text_run. cbv beta iota.
      rewrite logger_run, extend_extend. reflexivity.
Qed.

(** ** The way out of the trade conversation *)




(** ** Placing the order *)


(** ** The orders conversation *)






(** ** Choosing the order to close *)

Lemma single_chunks {A} (l : list A) :
  map (fun j => take 1 (drop (j * 1) l)) (seq 0 (length l)) = map (fun b => [b]) l.
Proof.
  induction l as [|a l IH]; [reflexivity|].
  cbn [length seq map]. f_equal.
  rewrite <- seq_shift, map_map. rewrite <- IH.
  apply map_ext. intros j. replace (S j * 1)%nat with (S (j * 1)) by lia. reflexivity.
Qed.

Lemma build_menu_single {A} (l : list A) (f : list A) :
  f <> [] ->
  build_menu l 1 None (Some f) = Ok (map (fun b => [b]) l ++ [f])%list.
Proof.
  intros Hf. unfold build_menu, range. cbn [Z.eqb Z.ltb Z.compare].
  replace ((Z.of_nat (length l) + 1 - 1) / 1) with (Z.of_nat (length l))
    by (rewrite Z.div_1_r; lia).
  rewrite Nat2Z.id.
  change 1 with (Z.of_nat 1) at 1 2.
  rewrite (menu_rows_chunks l 1 (length l)), single_chunks.
  destruct f; [contradiction | reflexivity].
Qed.

(** [orders_choose_order] offers one button for each cached order, in one
    column and in the order of the cache, and CANCEL below them; with an
    empty cache it says so and ends the conversation. *)
Theorem orders_choose_order_buttons (env : Env) (update : Update) (w : World) :
  orders_choose_order env update w
  = match orders w with
    | [] =>
        (Ok END,
         extend w [Sent (mkMessage ToChat "No open orders" None false)] (attempts w))
    | cached =>
        (Ok (Goto ORDERS_CLOSE_ORDER),
         extend w
           [Sent (mkMessage ToChat "Which order to close?"
                    (Some (ReplyKeyboardMarkup
                             (map (fun kv => [fst kv]) cached ++ [["CANCEL"]])))
                    false)] (attempts w))
    end.
Proof.
  unfold orders_choose_order. rewrite bind_unfold. unfold get_orders at 1.
  cbv beta iota.
  destruct (orders w) as [|o os] eqn:Ho; [reflexivity|].
  rewrite bind_unfold. unfold keyboard at 1. rewrite bind_unfold. unfold lift at 1.
  change (clean CANCEL) with "CANCEL".
  rewrite (build_menu_single (map fst (o :: os)) ["CANCEL"]) by discriminate.
  cbv beta iota. unfold ret at 1. cbv beta iota.
  rewrite map_map. reflexivity.
Qed.

(** * The theorems at work on the example exchange *)

Lemma query_exhausts_budget_witness :
  1 <= retries (config (Demo.timeouts 1))
  /\ (forall i, (attempts Demo.w0 <= i)%nat ->
        retryable (transport (Demo.timeouts 1) i (mkRequest "Balance" None true)))
  /\ exists w',
       Kraken.query (Demo.timeouts 1) "Balance" None true None Demo.w0
         = (Ok (Kraken.error_reply "ConnectionError:timed out"), w')
       /\ attempts w' = 3%nat.
Proof.
  assert (H1 : 1 <= retries (config (Demo.timeouts 1))) by (simpl; lia).
  assert (H2 : forall i, (attempts Demo.w0 <= i)%nat ->
            retryable (transport (Demo.timeouts 1) i (mkRequest "Balance" None true)))
    by (intros; reflexivity).
  split; [exact H1|]. split; [exact H2|].
  destruct (query_exhausts_budget (Demo.timeouts 1) "Balance" None true Demo.w0 H1 H2)
    as (w' & Hq & Ha & _).
  exists w'. split; [exact Hq | exact Ha].
Defined.

Lemma query_no_retry_witness :
  transport (Demo.unavailable 3) (attempts Demo.w0) (mkRequest "Balance" None true)
    = Raises "Exception" "EService:Unavailable"
  /\ exists w',
       Kraken.query (Demo.unavailable 3) "Balance" None true None Demo.w0
         = (Ok (Kraken.error_reply "Service: Unavailable"), w')
       /\ attempts w' = 1%nat.
Proof.
  assert (H1 : transport (Demo.unavailable 3) (attempts Demo.w0)
                 (mkRequest "Balance" None true)
               = Raises "Exception" "EService:Unavailable") by reflexivity.
  split; [exact H1|].
  destruct (query_no_retry (Demo.unavailable 3) "Balance" None true None Demo.w0
              "Exception" "EService:Unavailable" H1
              (or_intror (or_introl eq_refl))) as (w' & Hq & Ha & _).
  exists w'. split; [exact Hq | exact Ha].
Defined.

Lemma first_refused_well_formed : well_formed_transport Demo.first_refused.
Proof.
  intros n r j. unfold Demo.first_refused. simpl.
  destruct (n =? 0)%nat; intros [= <-]; discriminate.
Defined.

Lemma orders_close_all_tolerant_witness :
  well_formed_transport Demo.first_refused
  /\ orders Demo.cached <> []
  /\ exists evs n,
       orders_close_all Demo.first_refused (Demo.say "CLOSE ALL") Demo.cached
         = (Ok END, extend Demo.cached evs n)
       /\ calls evs = [cancel_request "OAAAAA-BBBBB-CCCCCC";
                       cancel_request "ODDDDD-EEEEE-FFFFFF"]
       /\ messages evs
          = [mkMessage ToChat (Utils.emo_wa +:+ " Closing orders...") None false;
             mkMessage ToChat
               (Utils.btfy (("Order not closed:" +:+ LF +:+ "OAAAAA-BBBBB-CCCCCC" +:+ LF)
                            +:+ "EOrder:Unknown order")) None false;
             mkMessage ToChat (Utils.emo_wa +:+ " Closing next order...") None false;
             close_summary ["ODDDDD-EEEEE-FFFFFF"]].
Proof.
  assert (H2 : orders Demo.cached <> []) by discriminate.
  split; [exact first_refused_well_formed|]. split; [exact H2|].
  destruct (orders_close_all_tolerant Demo.first_refused (Demo.say "CLOSE ALL")
              Demo.cached first_refused_well_formed H2)
    as (evs & n & Hq & Hc & Hm & _).
  exists evs, n. split; [exact Hq|]. split; [exact Hc | exact Hm].
Defined.

Lemma monitor_removes_once_witness :
  jobs Demo.monitored !! 0%nat = Some (mkJob (JStr "OAAAAA-BBBBB-CCCCCC") 10 false)
  /\ exists r evs js,
       tick Demo.executed 0 Demo.monitored
         = (r, mkWorld 1
                 (events Demo.monitored ++
                  Demo.answered (query_orders_request (JStr "OAAAAA-BBBBB-CCCCCC"))
                    (Demo.ok (JDict [("OAAAAA-BBBBB-CCCCCC",
                       Demo.order "closed" "buy 0.10000000 XBTEUR @ limit 20000.0")]))
                  ++ evs)
                 (chat_data Demo.monitored) js (orders Demo.monitored))
       /\ r = Ok tt
       /\ messages evs
          = [executed_message "OAAAAA-BBBBB-CCCCCC" "buy 0.1 XBTEUR @ limit 20000"]
       /\ removals evs = [JStr "OAAAAA-BBBBB-CCCCCC"]
       /\ js = [mkJob (JStr "OAAAAA-BBBBB-CCCCCC") 10 true].
Proof.
  assert (H : jobs Demo.monitored !! 0%nat
              = Some (mkJob (JStr "OAAAAA-BBBBB-CCCCCC") 10 false)) by reflexivity.
  split; [exact H|].
  destruct (monitor_removes_once_on_terminal_status Demo.executed 0
              "OAAAAA-BBBBB-CCCCCC" 10 false Demo.monitored H) as (_ & Hrun & _).
  destruct (Hrun eq_refl) as (r & evs & js & Hq & _ & Hclosed & _).
  destruct (Hclosed eq_refl "buy 0.1 XBTEUR @ limit 20000" eq_refl)
    as (Hr & Hm & Hrem & Hjs).
  exists r, evs, js. split; [exact Hq|]. repeat split; assumption.
Defined.

Lemma sell_all_no_keeps_scratch_witness :
  PyStr.upper (text (Demo.say "no")) = "NO"
  /\ chat_data (snd (trade_sell_all_confirm Demo.refusing (Demo.say "no")
                       (Demo.limit_order "sell")))
     = chat_data (Demo.limit_order "sell")
  /\ chat_data (snd (trade_confirm Demo.refusing (Demo.say "no") ChatData
                       (Demo.limit_order "sell"))) = ∅.
Proof.
  assert (H : PyStr.upper (text (Demo.say "no")) = "NO") by reflexivity.
  split; [exact H|].
  destruct (sell_all_no_keeps_scratch Demo.refusing (Demo.say "no")
              (Demo.limit_order "sell") H) as [H1 H2].
  rewrite H1, H2. split; reflexivity.
Defined.

(** C3, end to end. The conversation /trade, SELL, ALL, NO ends with the side of the order
    still in the scratch dictionary, where the next /trade finds it. *)
Lemma sell_all_no_leaves_buysell :
  let '(state, w') :=
    converse_all Demo.refusing None
      (map Demo.say ["/trade"; "SELL"; "ALL"; "NO"]) Demo.w0 in
  state = None /\ chat_data w' = {["buysell" := JStr "sell"]}.
Proof. vm_compute. split; reflexivity. Qed.

(** C2, at an input where it fails. With two open orders and an exchange
    that refuses to cancel, sell-all stops at the first order: the second order is never tried, no balance
    is read, and the conversation stays at the confirmation. *)
Lemma sell_all_stops_at_first_refusal :
  let '(r, w') :=
    trade_sell_all_confirm Demo.refusing (Demo.say "YES") Demo.w0 in
  r = Ok ReturnsNone
  /\ calls (events w')
     = [open_orders_request; cancel_request "OAAAAA-BBBBB-CCCCCC"]
  /\ messages (events w')
     = [mkMessage ToChat (Utils.emo_wa +:+ " Preparing to sell everything...")
          None false;
        not_closed_report "OAAAAA-BBBBB-CCCCCC" "EOrder:Unknown order"].
Proof. vm_compute. repeat split; reflexivity. Qed.

(** C4, at an input where it fails. With no minimum order size for
    bitcoin, a volume of 0.1 goes straight to the confirmation: the user is asked to place the order and is told
    nothing about the missing minimum. *)
Lemma volume_without_minimum_is_confirmed :
  let '(r, w') :=
    trade_volume Demo.no_minimum (Demo.say "0.1") ChatData (Demo.limit_order "buy") in
  r = Ok (Goto TRADE_CONFIRM)
  /\ chat_data w' !! "volume" = Some (JStr "0.10000000")
  /\ messages (events w')
     = [mkMessage ToChat
          (Utils.emo_qu +:+ " Place this order?" +:+ LF +:+
           "buy 0.1 XBT @ limit 20000 EUR" +:+ LF +:+ "(Value: 2000 EUR)")
          (Some (ReplyKeyboardMarkup [["YES"; "NO"]])) false].
Proof. vm_compute. repeat split; reflexivity. Qed.

Lemma volume_handlers_check_minimum_witness :
  chat_data (Demo.limit_order "buy") !! "currency" = Some (JStr "XBT")
  /\ limits Demo.refusing !! "XBT" = Some "0.002"
  /\ PyFloat.of_string "0.002" = Some Demo.minimum_xbt
  /\ PyFloat.of_string (PyStr.replace_char "," "." (text (Demo.say "0,001")))
     = Some Demo.volume_0001
  /\ PyFloat.of_string (PyFloat.format_8f Demo.volume_0001) = Some Demo.volume_0001
  /\ PyFloat.ltb Demo.volume_0001 Demo.minimum_xbt = true
  /\ trade_volume Demo.refusing (Demo.say "0,001") ChatData (Demo.limit_order "buy")
     = (Ok (Goto TRADE_VOLUME),
        extend (set_scratch (Demo.limit_order "buy") "volume" (JStr "0.00100000"))
          (too_low_events "0.002") 0).
Proof.
  assert (H1 : chat_data (Demo.limit_order "buy") !! "currency" = Some (JStr "XBT"))
    by reflexivity.
  assert (H2 : limits Demo.refusing !! "XBT" = Some "0.002") by reflexivity.
  assert (H3 : PyFloat.of_string "0.002" = Some Demo.minimum_xbt)
    by (vm_compute; reflexivity).
  assert (H4 : PyFloat.of_string (PyStr.replace_char "," "." (text (Demo.say "0,001")))
               = Some Demo.volume_0001) by (vm_compute; reflexivity).
  assert (H5 : PyFloat.of_string (PyFloat.format_8f Demo.volume_0001)
               = Some Demo.volume_0001) by (vm_compute; reflexivity).
  assert (H6 : PyFloat.ltb Demo.volume_0001 Demo.minimum_xbt = true)
    by (vm_compute; reflexivity).
  repeat (split; [assumption|]).
  destruct (volume_handlers_check_minimum Demo.refusing (Demo.say "0,001")
              (Demo.limit_order "buy") "XBT" "0.002" Demo.minimum_xbt H1 H2 H3)
    as [Hvol _].
  destruct (Hvol Demo.volume_0001 Demo.volume_0001 H4 H5) as [Hlow _].
  exact (Hlow H6).
Defined.

Lemma volume_handlers_unknown_minimum_witness :
  chat_data (Demo.limit_order "buy") !! "currency" = Some (JStr "XBT")
  /\ limits Demo.no_minimum !! "XBT" = None
  /\ PyFloat.of_string (PyStr.replace_char "," "." (text (Demo.say "0,001")))
     = Some Demo.volume_0001
  /\ proceeds_to_confirmation Demo.no_minimum (Demo.say "0,001")
       (trade_volume Demo.no_minimum (Demo.say "0,001") ChatData
          (Demo.limit_order "buy"))
       (extend (set_scratch (Demo.limit_order "buy") "volume" (JStr "0.00100000"))
          [Log WARNING "No minimum order limit in config for coin XBT"] 0).
Proof.
  assert (H1 : chat_data (Demo.limit_order "buy") !! "currency" = Some (JStr "XBT"))
    by reflexivity.
  assert (H2 : limits Demo.no_minimum !! "XBT" = None) by reflexivity.
  assert (H4 : PyFloat.of_string (PyStr.replace_char "," "." (text (Demo.say "0,001")))
               = Some Demo.volume_0001) by (vm_compute; reflexivity).
  repeat (split; [assumption|]).
  destruct (volume_handlers_unknown_minimum Demo.no_minimum (Demo.say "0,001")
              (Demo.limit_order "buy") "XBT" H1 H2) as [Hvol _].
  exact (Hvol Demo.volume_0001 H4).
Defined.

Lemma vol_all_stops_only_at_zero_text_witness :
  chat_data (Demo.limit_order "sell") !! "buysell" = Some (JStr "sell")
  /\ run_query Demo.refusing balance_request (attempts (Demo.limit_order "sell"))
     = (Demo.balances, Demo.answered balance_request Demo.balances, 1%nat)
  /\ reply_error Demo.balances = Some None
  /\ run_query Demo.refusing open_orders_request 1
     = (Demo.two_open, Demo.answered open_orders_request Demo.two_open, 2%nat)
  /\ reply_error Demo.two_open = Some None
  /\ PyStr.upper "sell" = "SELL"
  /\ PyFloat.ltb Demo.minus_one PyFloat.zero = true
  /\ proceeds_to_confirmation Demo.refusing (Demo.say "ALL")
       (trade_vol_all Demo.refusing (Demo.say "ALL") ChatData (Demo.limit_order "sell"))
       (set_scratch
          (extend (Demo.limit_order "sell")
             (Sent (mkMessage ToChat (Utils.emo_wa +:+ " Calculating volume...")
                      None false)
              :: Demo.answered balance_request Demo.balances ++
                 Demo.answered open_orders_request Demo.two_open) 2)
          "volume" (JStr "-1.00000000")).
Proof.
  assert (H1 : chat_data (Demo.limit_order "sell") !! "buysell" = Some (JStr "sell"))
    by reflexivity.
  assert (H2 : run_query Demo.refusing balance_request
                 (attempts (Demo.limit_order "sell"))
               = (Demo.balances, Demo.answered balance_request Demo.balances, 1%nat))
    by (vm_compute; reflexivity).
  assert (H3 : reply_error Demo.balances = Some None) by reflexivity.
  assert (H4 : run_query Demo.refusing open_orders_request 1
               = (Demo.two_open, Demo.answered open_orders_request Demo.two_open, 2%nat))
    by (vm_compute; reflexivity).
  assert (H5 : reply_error Demo.two_open = Some None) by reflexivity.
  assert (H6 : PyStr.upper "sell" = "SELL") by reflexivity.
  assert (H7 : PyFloat.ltb Demo.minus_one PyFloat.zero = true) by reflexivity.
  repeat (split; [assumption|]).
  destruct (vol_all_stops_only_at_zero_text Demo.refusing (Demo.say "ALL")
              (Demo.limit_order "sell") "sell" _ _ _ _ _ _ H1 H2 H3 H4 H5)
    as [_ Hsell].
  destruct (Hsell H6 Demo.minus_one _ ltac:(vm_compute; reflexivity)) as [_ Hneg].
  exact (proj2 (Hneg H7)).
Defined.

Lemma sell_all_failures_witness :
  String.eqb (PyStr.upper (text (Demo.say "YES"))) "NO" = false
  /\ (exists evs n,
       trade_sell_all_confirm Demo.refusing (Demo.say "YES") Demo.w0
         = (Ok ReturnsNone, extend Demo.w0 evs n)
       /\ calls evs = [open_orders_request; cancel_request "OAAAAA-BBBBB-CCCCCC"]
       /\ messages evs
          = [mkMessage ToChat (Utils.emo_wa +:+ " Preparing to sell everything...")
               None false;
             not_closed_report "OAAAAA-BBBBB-CCCCCC" "EOrder:Unknown order"])
  /\ (exists r w' evs tail,
       trade_sell_all_confirm Demo.first_sale_refused (Demo.say "YES") Demo.w0 = (r, w')
       /\ events w' = (events Demo.w0 ++ evs)%list
       /\ calls evs
          = ([open_orders_request; balance_request;
              add_order_request "XXBTZEUR" (JStr "1.0000000000");
              add_order_request "XETHZEUR" (JStr "2.0000000000")]
             ++ calls tail)%list
       /\ messages evs
          = ([mkMessage ToChat (Utils.emo_wa +:+ " Preparing to sell everything...")
                None false;
              mkMessage ToChat (Utils.btfy "EOrder:Insufficient funds") None false]
             ++ messages tail)%list).
Proof.
  assert (H : String.eqb (PyStr.upper (text (Demo.say "YES"))) "NO" = false)
    by reflexivity.
  split; [exact H|]. split.
  - destruct (sell_all_failures Demo.refusing (Demo.say "YES") Demo.w0 H) as [Hcancel _].
    apply (Hcancel Demo.two_open (Demo.answered open_orders_request Demo.two_open) 1%nat
             Demo.open_orders [] "OAAAAA-BBBBB-CCCCCC" ["ODDDDD-EEEEE-FFFFFF"]
             "EOrder:Unknown order").
    + vm_compute. reflexivity.
    + reflexivity.
    + reflexivity.
    + reflexivity.
    + vm_compute. reflexivity.
  - destruct (sell_all_failures Demo.first_sale_refused (Demo.say "YES") Demo.w0 H)
      as [_ Hadd].
    apply (Hadd Demo.none_open (Demo.answered open_orders_request Demo.none_open) 1%nat
             Demo.coin_balances (Demo.answered balance_request Demo.coin_balances) 2%nat
             [("ZEUR", JStr "100.0000")] "XXBT" (JStr "1.0000000000")
             [] "XETH" (JStr "2.0000000000") []
             "XXBTZEUR" (Demo.failed "EOrder:Insufficient funds")
             (Demo.answered (add_order_request "XXBTZEUR" (JStr "1.0000000000"))
                (Demo.failed "EOrder:Insufficient funds")) 3%nat
             "EOrder:Insufficient funds"
             "XETHZEUR" Demo.placed
             (Demo.answered (add_order_request "XETHZEUR" (JStr "2.0000000000"))
                Demo.placed) 4%nat).
    + vm_compute. reflexivity.
    + reflexivity.
    + reflexivity.
    + vm_compute. reflexivity.
    + reflexivity.
    + reflexivity.
    + repeat constructor.
    + constructor.
    + split; [reflexivity|]. split; [discriminate|].
      exists "XBT", "0.002", Demo.one_coin, Demo.minimum_xbt.
      repeat split; vm_compute; reflexivity.
    + vm_compute. reflexivity.
    + reflexivity.
    + split; [reflexivity|]. split; [discriminate|].
      exists "ETH", "0.02", Demo.two_coins, Demo.minimum_eth.
      repeat split; vm_compute; reflexivity.
    + vm_compute. reflexivity.
Defined.

(** C2, the add-order half at work. With no open order, and bitcoin and
    ether in the balance, the exchange refuses the sale of the bitcoin: the
    error is reported, the ether is sold all the same and its order is
    monitored, and the batch ends as usual. *)
Lemma sell_all_goes_on_after_a_refused_sale :
  let '(r, w') :=
    trade_sell_all_confirm Demo.first_sale_refused (Demo.say "YES") Demo.w0 in
  r = Ok END
  /\ calls (events w')
     = [open_orders_request; balance_request;
        add_order_request "XXBTZEUR" (JStr "1.0000000000");
        add_order_request "XETHZEUR" (JStr "2.0000000000")]
  /\ messages (events w')
     = [mkMessage ToChat (Utils.emo_wa +:+ " Preparing to sell everything...")
          None false;
        mkMessage ToChat (Utils.btfy "EOrder:Insufficient funds") None false;
        mkMessage ToChat
          (Utils.bold (Utils.emo_fi +:+ " Created orders to sell all assets"))
          (Some (ReplyKeyboardMarkup [["/trade"; "/orders"]; ["/balance"; "/bot"]]))
          true]
  /\ schedules (events w') = [JStr "OGGGGG-HHHHH-IIIIII"].
Proof. vm_compute. repeat split; reflexivity. Qed.

(** C8, at the edge of the rounding. The volume that is compared is the one
    the handler stores, rounded to eight decimals: an entry of 0.0019999999
    is stored as 0.00200000, which is not below the minimum 0.002, and is
    accepted. *)
Lemma volume_is_rounded_before_the_check :
  let '(r, w') :=
    trade_volume Demo.refusing (Demo.say "0.0019999999") ChatData
      (Demo.limit_order "buy") in
  r = Ok (Goto TRADE_CONFIRM)
  /\ chat_data w' !! "volume" = Some (JStr "0.00200000").
Proof. vm_compute. split; reflexivity. Qed.

(** ** The further properties at work *)

Lemma query_returns_first_reply_witness :
  exists w',
    Kraken.query Cases.recovering "Balance" None true None Demo.w0
      = (Ok (Demo.ok (JDict [])), w')
    /\ attempts w' = 3%nat
    /\ same_state Demo.w0 w'.
Proof.
  apply (query_returns_first_reply Cases.recovering "Balance" None true Demo.w0 2
           (Demo.ok (JDict []))).
  - right. vm_compute. split; discriminate.
  - intros i Hi. destruct i as [|[|i]]; [reflexivity | reflexivity | lia].
  - reflexivity.
Defined.

Lemma strangers_start_nothing_witness :
  trade_cmd Demo.refusing (Cases.stranger "/trade") Demo.w0
  = (Ok ReturnsNone,
     extend Demo.w0 (denial Demo.refusing (Cases.stranger "/trade")) 0)
  /\ orders_cmd Demo.refusing (Cases.stranger "/trade") Demo.w0
  = (Ok ReturnsNone,
     extend Demo.w0 (denial Demo.refusing (Cases.stranger "/trade")) 0)
  /\ fst (converse Demo.refusing None (Cases.stranger "/trade") Demo.w0) = None
  /\ calls (events (snd (converse Demo.refusing None (Cases.stranger "/trade")
                           Demo.w0)))
     = calls (events Demo.w0).
Proof.
  apply (strangers_start_nothing Demo.refusing (Cases.stranger "/trade") Demo.w0).
  vm_compute. discriminate.
Defined.


Lemma accepted_numbers_are_read_witness :
  trade_handler Demo.refusing (Some TRADE_VOLUME) (Demo.say "0,5")
    = Some (trade_volume Demo.refusing (Demo.say "0,5") ChatData)
  /\ trade_handler Demo.refusing (Some TRADE_VOLUME_ASSET) (Demo.say "0,5")
    = Some (trade_volume_asset Demo.refusing (Demo.say "0,5") ChatData)
  /\ exists amount,
       PyFloat.of_string (PyStr.replace_char "," "." (text (Demo.say "0,5")))
         = Some amount
       /\ trade_volume Demo.refusing (Demo.say "0,5") ChatData (Demo.limit_order "buy")
          = check_limit_and_confirm Demo.refusing (Demo.say "0,5") ChatData
              (set_scratch (Demo.limit_order "buy") "volume"
                 (JStr (PyFloat.format_8f amount))).
Proof.
  apply (accepted_numbers_are_read Demo.refusing (Demo.say "0,5")
           (Demo.limit_order "buy")).
  reflexivity.
Defined.

Lemma volume_in_currency_needs_a_price_witness :
  trade_volume_asset Demo.refusing (Demo.say "100") ChatData Cases.market_order
  = (Err (KeyError "price"), Cases.market_order).
Proof.
  apply (volume_in_currency_needs_a_price Demo.refusing (Demo.say "100")
           Cases.market_order Cases.hundred).
  - vm_compute. reflexivity.
  - reflexivity.
Defined.

(** The conversation that leads there: for a sale at market price the
    keyboard offers ALL and VOLUME, yet the name of the currency is still
    accepted, and the amount entered next meets no price. *)
Lemma market_price_volume_in_currency :
  let '(state, w') :=
    converse_all Demo.refusing None
      (map Demo.say ["/trade"; "SELL"; "XBT"; "MARKET PRICE"; "EUR"; "100"])
      Demo.w0 in
  state = Some TRADE_VOLUME_ASSET
  /\ chat_data w' !! "price" = None
  /\ chat_data w' !! "volume" = None
  /\ trade_volume_asset Demo.refusing (Demo.say "100") ChatData w'
     = (Err (KeyError "price"), w').
Proof. vm_compute. repeat split; reflexivity. Qed.


Lemma failed_poll_is_reported_witness :
  order_state_check Demo.refusing 0 Demo.monitored
  = (Ok tt,
     extend Demo.monitored
       (Demo.answered (query_orders_request (JStr "OAAAAA-BBBBB-CCCCCC"))
          (Demo.failed "EOrder:Unknown order")
        ++ [Log ERROR (Utils.btfy "EOrder:Unknown order");
            Sent (mkMessage ToOwner
                    (("Order state check:" +:+ LF) +:+ Utils.emo_er +:+ " "
                     +:+ Utils.btfy "EOrder:Unknown order") None false)]) 1).
Proof.
  apply (failed_poll_is_reported Demo.refusing 0 (JStr "OAAAAA-BBBBB-CCCCCC") 10
           Demo.monitored (Demo.failed "EOrder:Unknown order")
           (Demo.answered (query_orders_request (JStr "OAAAAA-BBBBB-CCCCCC"))
              (Demo.failed "EOrder:Unknown order")) 1 "EOrder:Unknown order");
    reflexivity.
Defined.





